(** * remoteSystemStatsMonitor: the snapshot collector and the monitor loop

    A shallow embedding of [stats/remoteStats.go] (the collector) and of the
    monitor that drives it, with the properties of the specification stated
    and proved over the embedding.

    Conventions.
    - A Go [float64] is a primitive binary64 float ([PrimFloat.float]); the
      arithmetic of the source is the arithmetic of [PrimFloat].
    - A Go [string] is a byte string ([String.string]).
    - A Go call that returns [(value, error)] is a computation in [run]: it
      returns, fails with an error, or panics (index out of range).
    - [map[string][]float64] is [gmap string (list float)]; the order in which
      [range] visits it is an explicit argument, since Go leaves it open. *)

From Stdlib Require Import ZArith List Ascii String Bool Lia Floats Permutation.
From stdpp Require Import gmap strings list fin_maps.
Import ListNotations.

Local Open Scope string_scope.
Local Open Scope list_scope.

(** ** Errors and results *)

(** Go [error] values.  [errExternal] stands for an error made outside this
    package (sftp, bufio, strconv, ssh); [errNew m] is [fmt.Errorf(m)] and
    [errWrap m e] is [fmt.Errorf(m + ": %w", e)]. *)
Inductive error : Type :=
| errExternal (what : string)
| errNew (msg : string)
| errWrap (msg : string) (cause : error).

(** The outcome of running a piece of the program. *)
Inductive run (A : Type) : Type :=
| Return (a : A)
| Error (e : error)
| Panic (reason : string).

Arguments Return {A} a.
Arguments Error {A} e.
Arguments Panic {A} reason.

Definition bind {A B : Type} (m : run A) (k : A -> run B) : run B :=
  match m with
  | Return a => k a
  | Error e => Error e
  | Panic r => Panic r
  end.

Notation "'let*' x ':=' m 'in' k" := (bind m (fun x => k))
  (at level 10, x pattern, m at level 100, k at level 200).

(** [if err != nil { return nil, fmt.Errorf(msg + ": %w", err) }] *)
Definition wrapErr {A : Type} (msg : string) (m : run A) : run A :=
  match m with
  | Error e => Error (errWrap msg e)
  | other => other
  end.

Definition failed {A : Type} (m : run A) : bool :=
  match m with Error _ => true | _ => false end.

Definition panicked {A : Type} (m : run A) : bool :=
  match m with Panic _ => true | _ => false end.

(** ** The pieces of Go's library the collector calls *)

(** [strings.HasPrefix(s, prefix)] *)
Fixpoint HasPrefix (s prefix : string) : bool :=
  match prefix, s with
  | EmptyString, _ => true
  | String p prefix', String c s' => Ascii.eqb p c && HasPrefix s' prefix'
  | String _ _, EmptyString => false
  end.

(** The white space of [unicode.IsSpace] that is one byte in UTF-8: tab,
    line feed, vertical tab, form feed, carriage return and space. *)
Definition isSpace (c : ascii) : bool :=
  let n := nat_of_ascii c in
  ((9 <=? n)%nat && (n <=? 13)%nat) || (n =? 32)%nat.

(** The number of bytes of the white-space rune that [s] starts with, and
    [0] when [s] does not start with one.  Beyond the six of [isSpace],
    [unicode.IsSpace] holds of U+0085 and U+00A0 (two bytes, the first
    [0xC2]) and of U+1680, U+2000 to U+200A, U+2028, U+2029, U+202F, U+205F
    and U+3000 (three bytes).  A byte that starts none of these is part of a
    field, whether it decodes to a rune or not. *)
Definition spaceWidth (s : string) : nat :=
  match s with
  | EmptyString => 0
  | String c0 s1 =>
      if isSpace c0 then 1
      else
        match s1 with
        | EmptyString => 0
        | String c1 s2 =>
            let b0 := nat_of_ascii c0 in
            let b1 := nat_of_ascii c1 in
            if (b0 =? 194)%nat && ((b1 =? 133)%nat || (b1 =? 160)%nat) then 2
            else
              match s2 with
              | EmptyString => 0
              | String c2 _ =>
                  let b2 := nat_of_ascii c2 in
                  if (b0 =? 225)%nat && (b1 =? 154)%nat && (b2 =? 128)%nat then 3
                  else if (b0 =? 226)%nat && (b1 =? 128)%nat
                          && (((128 <=? b2)%nat && (b2 <=? 138)%nat)
                              || (b2 =? 168)%nat || (b2 =? 169)%nat || (b2 =? 175)%nat)
                  then 3
                  else if (b0 =? 226)%nat && (b1 =? 129)%nat && (b2 =? 159)%nat then 3
                  else if (b0 =? 227)%nat && (b1 =? 128)%nat && (b2 =? 128)%nat then 3
                  else 0
              end
        end
  end.

Definition flushField (cur : string) (rest : list string) : list string :=
  match cur with
  | EmptyString => rest
  | _ => cur :: rest
  end.

(** The scan of [strings.Fields]: [cur] is the field being read, and [skip]
    counts the bytes still to pass of a white-space rune of several bytes. *)
Fixpoint fieldsFrom (skip : nat) (cur : string) (s : string) : list string :=
  match s with
  | EmptyString => flushField cur []
  | String c s' =>
      match skip with
      | S skip' => fieldsFrom skip' cur s'
      | O =>
          match spaceWidth s with
          | O => fieldsFrom 0 (cur ++ String c EmptyString) s'
          | S skip' => flushField cur (fieldsFrom skip' EmptyString s')
          end
      end
  end.

(** [strings.Fields(s)]: the maximal runs of [s] without white space, the
    white space being that of [unicode.IsSpace] on the UTF-8 text [s]. *)
Definition Fields (s : string) : list string := fieldsFrom 0 EmptyString s.

(** A [bufio.Scanner] over a remote file, as the function that reads the
    file sees it: the lines [Scan] delivers, and what [scanner.Err()] reports
    when the function asks for it, a read error that the scanner met, if
    any.  (The scanner keeps such an error while it delivers the lines it
    already holds, so that the error can be there before the last line is
    delivered.) *)
Record File : Type := mkFile {
  lines : list string;
  scanErr : option error
}.

(** What the remote channel serves during one call of [GetSystemStats]: the
    result of [sftpClient.Open] for the memory resource and for the two
    successive reads of the CPU-counters resource. *)
Record Remote : Type := mkRemote {
  open_meminfo : run File;
  open_stat_first : run File;
  open_stat_second : run File
}.

(** ** Data model *)

Record CPUStat : Type := mkCPUStat {
  Core : string;
  UsagePct : float
}.

Record SystemStats : Type := mkSystemStats {
  TotalMemoryMB : float;
  UsedMemoryMB : float;
  UsedMemoryPercent : float;
  TotalCPUPercentage : float;
  CPUStats : list CPUStat
}.

(** [scanner.Err()], asked once the loop [for scanner.Scan() { ... }] is
    over. *)
Definition scannerErr {A : Type} (f : File) (a : A) : run A :=
  match scanErr f with
  | Some e => Error e
  | None => Return a
  end.

Section Collector.

(** [strconv.ParseFloat(s, 64)], a function of Go's library: the value, or
    the error it reports. *)
Variable ParseFloat : string -> float + error.

(** *** getMemoryStats *)

(** One iteration of the scanning loop of [getMemoryStats], on the pair
    [(total, available)]. *)
Definition meminfoStep (acc : float * float) (line : string) : float * float :=
  let '(total, available) := acc in
  match Fields line with
  | key :: field1 :: _ =>
      match ParseFloat field1 with
      | inr _ => acc
      | inl val =>
          if String.eqb key "MemTotal:" then (val, available)
          else if String.eqb key "MemAvailable:" then (total, val)
          else acc
      end
  | _ => acc
  end.

Definition scanMeminfo (ls : list string) : float * float :=
  fold_left meminfoStep ls (0%float, 0%float).

(** The pair returned is [(totalMB, usedMB)]. *)
Definition getMemoryStats (r : Remote) : run (float * float) :=
  let* file := open_meminfo r in
  let '(total, available) := scanMeminfo (lines file) in
  let* _ := scannerErr file tt in
  if (total =? 0)%float then Error (errNew "invalid meminfo (MemTotal is zero)")
  else Return ((total / 1024)%float, ((total - available) / 1024)%float).

(** *** getCPUStats *)

(** The loop [for _, f := range fields[1:]] of the snapshot function. *)
Fixpoint parseCounters (toks : list string) : run (list float) :=
  match toks with
  | [] => Return []
  | f :: toks' =>
      match ParseFloat f with
      | inr e => Error (errWrap "failed to parse CPU stat" e)
      | inl v => let* values := parseCounters toks' in Return (v :: values)
      end
  end.

(** The scanning loop of the snapshot function.  It ends when [Scan] has no
    more line, or at the first line without the prefix [cpu] ([break]); a
    counter that is not a number makes the function return at once. *)
Fixpoint scanStat (ls : list string) (stats : gmap string (list float))
  : run (gmap string (list float)) :=
  match ls with
  | [] => Return stats
  | line :: ls' =>
      if negb (HasPrefix line "cpu") then Return stats
      else
        match Fields line with
        | [] => Panic "index out of range [0] with length 0"
        | core :: toks =>
            let* values := parseCounters toks in
            scanStat ls' (<[core := values]> stats)
        end
  end.

(** The snapshot function: after the loop, however it ended, it returns
    [stats, scanner.Err()]. *)
Definition snapshot (opened : run File) : run (gmap string (list float)) :=
  let* file := opened in
  let* stats := scanStat (lines file) ∅ in
  scannerErr file stats.

(** [for i := range values1 { total1 += values1[i]; total2 += values2[i] }]:
    [values2[i]] panics when [values2] is shorter than [values1]. *)
Fixpoint sumBoth (values1 values2 : list float) (total1 total2 : float)
  : run (float * float) :=
  match values1 with
  | [] => Return (total1, total2)
  | v1 :: values1' =>
      match values2 with
      | [] => Panic "index out of range"
      | v2 :: values2' =>
          sumBoth values1' values2' (total1 + v1)%float (total2 + v2)%float
      end
  end.

(** [xs[i]] on a slice. *)
Definition index (xs : list float) (i : nat) : run float :=
  match xs !! i with
  | Some x => Return x
  | None => Panic "index out of range"
  end.

Definition usageOf (deltaIdle deltaTotal : float) : float :=
  ((1 - deltaIdle / deltaTotal) * 100)%float.

(** The body of [for core, values1 := range stat1], on the pair
    [(totalUsage, perCore)]. *)
Definition coreStep (stat2 : gmap string (list float))
    (acc : float * list CPUStat) (entry : string * list float)
  : run (float * list CPUStat) :=
  let '(totalUsage, perCore) := acc in
  let '(core, values1) := entry in
  match stat2 !! core with
  | None => Return acc
  | Some values2 =>
      let* (total1, total2) := sumBoth values1 values2 0%float 0%float in
      if (3 <? length values1)%nat then
        let* idle1 := index values1 3 in
        let* idle2 := index values2 3 in
        let deltaIdle := (idle2 - idle1)%float in
        let deltaTotal := (total2 - total1)%float in
        if (deltaTotal =? 0)%float then Return acc
        else
          let usage := usageOf deltaIdle deltaTotal in
          if String.eqb core "cpu" then Return (usage, perCore)
          else Return (totalUsage, perCore ++ [mkCPUStat core usage])
      else Return acc
  end.

Fixpoint rangeCores (stat2 : gmap string (list float))
    (visit : list (string * list float)) (acc : float * list CPUStat)
  : run (float * list CPUStat) :=
  match visit with
  | [] => Return acc
  | entry :: visit' =>
      let* acc1 := coreStep stat2 acc entry in
      rangeCores stat2 visit' acc1
  end.

(** A visiting order a [range] over the map [m] may take: any arrangement of
    its entries. *)
Definition rangeOrder (m : gmap string (list float))
    (visit : list (string * list float)) : Prop :=
  Permutation visit (map_to_list m).

(** [getCPUStats], given the order [pick] in which [range] visits the first
    sample.  The pair returned is [(totalUsage, perCore)]. *)
Definition getCPUStats
    (pick : gmap string (list float) -> list (string * list float))
    (r : Remote) : run (float * list CPUStat) :=
  let* stat1 := snapshot (open_stat_first r) in
  let* stat2 := snapshot (open_stat_second r) in
  rangeCores stat2 (pick stat1) (0%float, []).

(** *** GetSystemStats *)

Definition GetSystemStats
    (pick : gmap string (list float) -> list (string * list float))
    (r : Remote) : run SystemStats :=
  let* (totalMem, usedMem) := wrapErr "failed to get memory stats" (getMemoryStats r) in
  let* (totalCPU, coreStats) := wrapErr "failed to get CPU stats" (getCPUStats pick r) in
  Return {| TotalMemoryMB := totalMem;
            UsedMemoryMB := usedMem;
            UsedMemoryPercent := (usedMem / totalMem * 100)%float;
            TotalCPUPercentage := totalCPU;
            CPUStats := coreStats |}.

End Collector.

(** ** A decimal reading of [strconv.ParseFloat], for the worked examples *)

Definition digitValue (c : ascii) : option Z :=
  let n := nat_of_ascii c in
  if ((48 <=? n)%nat && (n <=? 57)%nat) then Some (Z.of_nat n - 48)%Z else None.

Fixpoint decimalValue (s : string) (acc : Z) : option Z :=
  match s with
  | EmptyString => Some acc
  | String c s' =>
      match digitValue c with
      | Some d => decimalValue s' (10 * acc + d)%Z
      | None => None
      end
  end.

(** The binary64 nearest to the integer [n] (ties to even). *)
Definition float_of_Z (n : Z) : float :=
  SF2Prim (binary_normalize prec emax n 0 false).

(** [strconv.ParseFloat] on the tokens the examples below are made of: a
    non-empty string of decimal digits is that integer, correctly rounded,
    and out of range when it rounds to infinity; a token with any other byte
    is a syntax error.  (Go's function also reads signs, fractions,
    exponents, hexadecimal mantissas, [inf] and [nan]; no example below has
    such a token.) *)
Definition ParseDecimal (s : string) : float + error :=
  match s with
  | EmptyString => inr (errExternal "strconv.ParseFloat: invalid syntax")
  | _ =>
      match decimalValue s 0 with
      | None => inr (errExternal "strconv.ParseFloat: invalid syntax")
      | Some n =>
          let f := float_of_Z n in
          if is_infinity f then inr (errExternal "strconv.ParseFloat: value out of range")
          else inl f
      end
  end.

(** The visiting order that follows the keys of the map as [map_to_list]
    lists them: one of the orders [range] may take. *)
Definition pickListed (m : gmap string (list float)) : list (string * list float) :=
  map_to_list m.

Definition fileOf (ls : list string) : run File := Return (mkFile ls None).

(** ** The clients behind the collector, and who closes them *)

(** The connections that are open: SSH connections and SFTP clients, by
    handle, and the next handle to be given out. *)
Record Net : Type := mkNet {
  sshOpen : gset nat;
  sftpOpen : gset nat;
  nextHandle : nat
}.

Record remoteStatsCollector : Type := mkCollector {
  sftpClient : option nat;       (* [*sftp.Client]; [None] is [nil] *)
  sshClient : option nat;        (* [*ssh.Client]; [None] is [nil] *)
  sampleDelta : Z;
  ownsSftpClient : bool;
  ownsSSHClient : bool
}.

Section Lifecycle.

(** The network's side of the calls: the error, if any, of [ssh.Dial] to an
    address, of [sftp.NewClient] over a connection, and of the two [Close]
    methods. *)
Variable dialErr : string -> option error.
Variable newClientErr : nat -> option error.
Variable sftpCloseErr : nat -> option error.
Variable sshCloseErr : nat -> option error.

(** [ssh.Dial("tcp", serverAddress, config)] *)
Definition ssh_Dial (serverAddress : string) (w : Net) : run nat * Net :=
  match dialErr serverAddress with
  | Some e => (Error e, w)
  | None =>
      (Return (nextHandle w),
       mkNet ({[nextHandle w]} ∪ sshOpen w) (sftpOpen w) (S (nextHandle w)))
  end.

(** [sftp.NewClient(sshClient)] *)
Definition sftp_NewClient (conn : nat) (w : Net) : run nat * Net :=
  match newClientErr conn with
  | Some e => (Error e, w)
  | None =>
      (Return (nextHandle w),
       mkNet (sshOpen w) ({[nextHandle w]} ∪ sftpOpen w) (S (nextHandle w)))
  end.

(** The [Close] methods of [sftp.Client] and of [ssh.Client]. *)
Definition sftp_Close (c : nat) (w : Net) : option error * Net :=
  (sftpCloseErr c, mkNet (sshOpen w) (sftpOpen w ∖ {[c]}) (nextHandle w)).

Definition ssh_Close (c : nat) (w : Net) : option error * Net :=
  (sshCloseErr c, mkNet (sshOpen w ∖ {[c]}) (sftpOpen w) (nextHandle w)).

Definition NewRemoteStatsCollectorFromSFTP (client : option nat) (delta : Z)
  : remoteStatsCollector :=
  {| sftpClient := client;
     sshClient := None;
     sampleDelta := delta;
     ownsSftpClient := false;
     ownsSSHClient := false |}.

Definition NewRemoteStatsCollectorFromSSH (conn : nat) (delta : Z) (w : Net)
  : run remoteStatsCollector * Net :=
  match sftp_NewClient conn w with
  | (Return client, w1) => (Return (NewRemoteStatsCollectorFromSFTP (Some client) delta), w1)
  | (Error e, w1) => (Error (errWrap "failed to create SFTP client" e), w1)
  | (Panic p, w1) => (Panic p, w1)
  end.

Definition NewRemoteStatsCollectorFromSSHConfig (serverAddress : string) (delta : Z)
    (w : Net) : run remoteStatsCollector * Net :=
  match ssh_Dial serverAddress w with
  | (Error e, w1) => (Error (errWrap "failed to connect to SSH server" e), w1)
  | (Panic p, w1) => (Panic p, w1)
  | (Return conn, w1) =>
      match NewRemoteStatsCollectorFromSSH conn delta w1 with
      | (Error e, w2) => (Error (errWrap "failed to create remote stats collector" e), w2)
      | (Panic p, w2) => (Panic p, w2)
      | (Return collector, w2) =>
          (Return {| sftpClient := sftpClient collector;
                     sshClient := sshClient collector;
                     sampleDelta := sampleDelta collector;
                     ownsSftpClient := ownsSftpClient collector;
                     ownsSSHClient := true |}, w2)
      end
  end.

(** [(r *remoteStatsCollector) Close()]: the error returned, and the
    connections left. *)
Definition Close (r : remoteStatsCollector) (w : Net) : option error * Net :=
  let '(err, w1) :=
    match ownsSftpClient r, sftpClient r with
    | true, Some c =>
        let '(closeErr, w') := sftp_Close c w in
        (match closeErr with Some e => Some e | None => None end, w')
    | _, _ => (None, w)
    end in
  match ownsSSHClient r, sshClient r with
  | true, Some c =>
      let '(closeErr, w') := ssh_Close c w1 in
      (match closeErr with Some e => Some e | None => err end, w')
  | _, _ => (err, w1)
  end.

(** *** The monitor *)

Record RemoteStatsMonitor : Type := mkMonitor {
  collector : remoteStatsCollector;
  interval : Z;
  monitorSampleDelta : Z;
  logLineFunc : SystemStats -> run string;
  ctxCancelled : bool            (* whether [m.ctx] is done *)
}.

Definition NewRemoteStatsMonitorFromSFTP (client : option nat) (ival delta : Z)
    (format : SystemStats -> run string) : RemoteStatsMonitor :=
  {| collector := NewRemoteStatsCollectorFromSFTP client delta;
     interval := ival;
     monitorSampleDelta := delta;
     logLineFunc := format;
     ctxCancelled := false |}.

Definition NewRemoteStatsMonitorFromSSHConfig (serverAddress : string) (ival delta : Z)
    (format : SystemStats -> run string) (w : Net) : run RemoteStatsMonitor * Net :=
  match NewRemoteStatsCollectorFromSSHConfig serverAddress delta w with
  | (Error e, w1) => (Error (errWrap "failed to create collector" e), w1)
  | (Panic p, w1) => (Panic p, w1)
  | (Return c, w1) =>
      (Return {| collector := c;
                 interval := ival;
                 monitorSampleDelta := delta;
                 logLineFunc := format;
                 ctxCancelled := false |}, w1)
  end.

(** [Stop]: [cancel()], then [wg.Wait()], which returns once the loops that
    were running have seen the cancellation. *)
Definition Stop (m : RemoteStatsMonitor) : RemoteStatsMonitor :=
  {| collector := collector m;
     interval := interval m;
     monitorSampleDelta := monitorSampleDelta m;
     logLineFunc := logLineFunc m;
     ctxCancelled := true |}.

(** [(m *RemoteStatsMonitor) Close()]: [m.Stop()], then
    [m.collector.Close()]. *)
Definition MonitorClose (m : RemoteStatsMonitor) (w : Net)
  : option error * RemoteStatsMonitor * Net :=
  let m1 := Stop m in
  let '(err, w1) := Close (collector m1) w in
  (err, m1, w1).

End Lifecycle.

(** ** The monitoring loop *)

(** What one [select] of the loop receives: the cancellation of [m.ctx], or
    a tick of the ticker, given with what the remote host serves during the
    cycle that the tick starts and the order the cycle's [range] takes. *)
Inductive selected : Type :=
| ctxDone
| tickerC (served : Remote)
          (pick : gmap string (list float) -> list (string * list float)).

(** What the loop has written: the records given to [m.logger], and the
    reports of [fmt.Printf] (the message and the error printed). *)
Record Console : Type := mkConsole {
  logged : list string;
  printed : list (string * error)
}.

(** How far [StartSync] got. *)
Inductive progress : Type :=
| Waiting                      (* blocked in [select]: the loop is running *)
| Exited (err : option error)  (* [StartSync] returned [err] *)
| Crashed (reason : string).   (* a panic went through the loop *)

Section Loop.

Variable ParseFloat : string -> float + error.

(** [collectAndLog]: the error returned ([Return tt] is [nil]). *)
Definition collectAndLog (m : RemoteStatsMonitor) (served : Remote)
    (pick : gmap string (list float) -> list (string * list float))
    (out : Console) : run unit * Console :=
  match GetSystemStats ParseFloat pick served with
  | Error e => (Error (errWrap "failed to collect stats" e), out)
  | Panic p => (Panic p, out)
  | Return stats =>
      match logLineFunc m stats with
      | Error e => (Error (errWrap "failed to format log line" e), out)
      | Panic p => (Panic p, out)
      | Return logData => (Return tt, mkConsole (logged out ++ [logData]) (printed out))
      end
  end.

(** The [for { select { ... } }] of [StartSync], on what the successive
    [select]s receive. *)
Fixpoint monitorLoop (m : RemoteStatsMonitor) (events : list selected)
    (out : Console) : progress * Console :=
  match events with
  | [] => (Waiting, out)
  | ctxDone :: _ => (Exited None, out)
  | tickerC served pick :: events' =>
      match collectAndLog m served pick out with
      | (Panic p, out1) => (Crashed p, out1)
      | (Return _, out1) => monitorLoop m events' out1
      | (Error e, out1) =>
          monitorLoop m events'
            (mkConsole (logged out1) (printed out1 ++ [("Error collecting stats: ", e)]))
      end
  end.

(** [ensureFreshContext]: a cancelled context is replaced by a fresh one. *)
Definition ensureFreshContext (m : RemoteStatsMonitor) : RemoteStatsMonitor :=
  if ctxCancelled m then
    {| collector := collector m;
       interval := interval m;
       monitorSampleDelta := monitorSampleDelta m;
       logLineFunc := logLineFunc m;
       ctxCancelled := false |}
  else m.

(** [time.NewTicker(d)]: it panics when [d] is not positive. *)
Definition time_NewTicker (d : Z) : run unit :=
  if (d <=? 0)%Z then Panic "non-positive interval for NewTicker" else Return tt.

(** [StartSync]: the fresh context and the ticker, then the initial cycle,
    then the loop. *)
Definition StartSync (m : RemoteStatsMonitor) (served : Remote)
    (pick : gmap string (list float) -> list (string * list float))
    (events : list selected) : progress * Console :=
  let m1 := ensureFreshContext m in
  match time_NewTicker (interval m1) with
  | Panic p => (Crashed p, mkConsole [] [])
  | Error _ | Return _ =>
      match collectAndLog m1 served pick (mkConsole [] []) with
      | (Panic p, out1) => (Crashed p, out1)
      | (Return _, out1) => monitorLoop m1 events out1
      | (Error e, out1) =>
          monitorLoop m1 events
            (mkConsole (logged out1)
               (printed out1 ++ [("Error collecting initial stats: ", e)]))
      end
  end.

(** Whether the cycle a [select] starts ends in a panic. *)
Definition cyclePanics (ev : selected) (m : RemoteStatsMonitor) : bool :=
  match ev with
  | ctxDone => false
  | tickerC served pick =>
      panicked (fst (collectAndLog m served pick (mkConsole [] [])))
  end.

(** The error with which the cycle a [select] starts fails, if it does. *)
Definition cycleError (ev : selected) (m : RemoteStatsMonitor) : option error :=
  match ev with
  | ctxDone => None
  | tickerC served pick =>
      match fst (collectAndLog m served pick (mkConsole [] [])) with
      | Error e => Some e
      | _ => None
      end
  end.

(** What [fmt.Printf] prints for a cycle, under the message [msg]. *)
Definition cycleReport (msg : string) (ev : selected) (m : RemoteStatsMonitor)
  : option (string * error) :=
  match cycleError ev m with
  | Some e => Some (msg, e)
  | None => None
  end.

(** Whether the cycle a [select] starts fails with an error. *)
Definition cycleFails (ev : selected) (m : RemoteStatsMonitor) : bool :=
  match ev with
  | ctxDone => false
  | tickerC served pick =>
      failed (fst (collectAndLog m served pick (mkConsole [] [])))
  end.

Definition isDone (ev : selected) : bool :=
  match ev with ctxDone => true | tickerC _ _ => false end.

End Loop.

(** ** Notions of the specification *)

Section Notions.

Variable ParseFloat : string -> float + error.

(** The value a line gives to [key]: the line's first field is [key] and its
    second field is a number. *)
Definition valueAt (key line : string) : option float :=
  match Fields line with
  | k :: v :: _ =>
      if String.eqb k key then
        match ParseFloat v with inl x => Some x | inr _ => None end
      else None
  | _ => None
  end.

(** The value of the first, and of the last, line that gives one to [key]. *)
Definition firstValue (key : string) (ls : list string) : option float :=
  head (omap (valueAt key) ls).

Definition lastValue (key : string) (ls : list string) : option float :=
  last (omap (valueAt key) ls).

(** Whether a line of the CPU-counters resource has a counter token that is
    not a number. *)
Definition badCounter (line : string) : bool :=
  existsb (fun tok => match ParseFloat tok with inr _ => true | inl _ => false end)
          (tail (Fields line)).

End Notions.

(** The leading run of lines with the prefix [cpu]. *)
Fixpoint cpuBlock (ls : list string) : list string :=
  match ls with
  | [] => []
  | line :: ls' => if HasPrefix line "cpu" then line :: cpuBlock ls' else []
  end.

(** Whether some line that the snapshot function reads (a line of the leading
    [cpu] block) has a counter token that is not a number. *)
Definition hasBadCounter (ParseFloat : string -> float + error) (ls : list string) : bool :=
  existsb (badCounter ParseFloat) (cpuBlock ls).

(** The core ids of the CPU-counters resource, in the order of their lines. *)
Definition coresInFileOrder (ls : list string) : list string :=
  omap (fun line => head (Fields line)) (cpuBlock ls).

(** What one core contributes: nothing ([None]), or its usage. *)
Definition coreUsage (stat2 : gmap string (list float))
    (entry : string * list float) : run (option float) :=
  let '(core, values1) := entry in
  match stat2 !! core with
  | None => Return None
  | Some values2 =>
      let* (total1, total2) := sumBoth values1 values2 0%float 0%float in
      if (3 <? length values1)%nat then
        let* idle1 := index values1 3 in
        let* idle2 := index values2 3 in
        if ((total2 - total1) =? 0)%float then Return None
        else Return (Some (usageOf (idle2 - idle1)%float (total2 - total1)%float))
      else Return None
  end.

(** The entry a core adds to [perCore], if it adds one. *)
Definition entryStat (stat2 : gmap string (list float))
    (entry : string * list float) : option CPUStat :=
  if String.eqb (fst entry) "cpu" then None
  else
    match coreUsage stat2 entry with
    | Return (Some usage) => Some (mkCPUStat (fst entry) usage)
    | _ => None
    end.

(** The counters of a well-formed line: integers, read as floats. *)
Definition counters (cs : list Z) : list float := map float_of_Z cs.

Definition sumZ (cs : list Z) : Z := fold_right Z.add 0%Z cs.

(** ** Notions for the arithmetic of binary64 *)

(** The binary64 float of sign [s] whose value is the integer [N], for [N]
    below [2 ^ 53]: the mantissa is [N] shifted to 53 digits. *)
Definition SFofPos (s : bool) (N : positive) : spec_float :=
  S754_finite s (Z.to_pos (Zpos N * 2 ^ (53 - Zpos (digits2_pos N)))%Z)
              (Zpos (digits2_pos N) - 53)%Z.

Definition SFofZ (n : Z) : spec_float :=
  match n with
  | Z0 => S754_zero false
  | Zpos N => SFofPos false N
  | Zneg N => SFofPos true N
  end.

(** A shift record [b] is [a] shifted right by [k] bits: the mantissa is
    divided by [2 ^ k], and the round and sticky bits of [b] are clear only
    when those of [a] were and no bit was lost. *)
Definition shiftedBy (k : Z) (a b : shr_record) : Prop :=
  shr_m b = (shr_m a / 2 ^ k)%Z
  /\ (orb (shr_r b) (shr_s b) = false <->
      orb (shr_r a) (shr_s a) = false /\ (shr_m a mod 2 ^ k)%Z = 0%Z).

(** ** Inputs of the worked examples *)

Definition ex_meminfo : list string :=
  ["MemTotal: 8000000"; "MemAvailable: 4000000"].

Definition ex_stat_first : list string :=
  ["cpu  100 0 100 700"; "cpu0 100 0 100 700"; "cpu1 5 5 5 5 5"; "intr 7"].

Definition ex_stat_second : list string :=
  ["cpu  110 0 110 770"; "cpu0 110 0 110 770"; "cpu1 6 6 6 7 5"; "intr 9"].

Definition ex_remote : Remote :=
  mkRemote (fileOf ex_meminfo) (fileOf ex_stat_first) (fileOf ex_stat_second).

(** The two samples of [ex_remote], as the snapshot function reads them. *)
Definition ex_sample_first : gmap string (list float) :=
  list_to_map [("cpu", counters [100; 0; 100; 700]%Z);
               ("cpu0", counters [100; 0; 100; 700]%Z);
               ("cpu1", counters [5; 5; 5; 5; 5]%Z)].

Definition ex_sample_second : gmap string (list float) :=
  list_to_map [("cpu", counters [110; 0; 110; 770]%Z);
               ("cpu0", counters [110; 0; 110; 770]%Z);
               ("cpu1", counters [6; 6; 6; 7; 5]%Z)].

(** The second sample reports one counter less for [cpu0] than the first. *)
Definition short_second_sample : Remote :=
  mkRemote (fileOf ex_meminfo)
           (fileOf ["cpu0 1 2 3 4"])
           (fileOf ["cpu0 1 2 3"]).

(** A memory resource that gives each key twice. *)
Definition twice_meminfo : list string :=
  ["MemTotal: 1024 kB"; "MemTotal: 2048 kB";
   "MemAvailable: 512 kB"; "MemAvailable: 1024 kB"].

Definition twice_remote : Remote :=
  mkRemote (fileOf twice_meminfo) (fileOf []) (fileOf []).

(** A memory resource whose total is zero. *)
Definition zero_file : File := mkFile ["MemTotal: 0 kB"; "MemAvailable: 0 kB"] None.

Definition zero_remote : Remote :=
  mkRemote (Return zero_file) (fileOf ex_stat_first) (fileOf ex_stat_second).




(** A memory resource without a [MemAvailable:] line. *)
Definition total_only_file : File := mkFile ["MemTotal: 8000000"] None.

Definition total_only_remote : Remote :=
  mkRemote (Return total_only_file) (fileOf ex_stat_first) (fileOf ex_stat_second).

(** A CPU-counters resource with a counter that is not a number. *)
Definition bad_stat_file : File := mkFile ["cpu0 1 x 3 4"] None.

Definition bad_remote : Remote :=
  mkRemote (fileOf ex_meminfo) (Return bad_stat_file) (fileOf ex_stat_second).

(** A monitor over a client that was handed in, with a formatter that writes
    the same record for every snapshot. *)
Definition ex_monitor : RemoteStatsMonitor :=
  NewRemoteStatsMonitorFromSFTP (Some 0%nat) 1000000000 300000000
    (fun _ => Return "record").

(** Two ticks: a cycle that fails (the total memory is zero), then one that
    succeeds. *)
Definition ex_ticks : list selected :=
  [tickerC zero_remote pickListed; tickerC ex_remote pickListed].

(** A network where every call succeeds. *)
Definition noErr {A : Type} (_ : A) : option error := None.

(** ** The rest of the collector and of the monitor *)

(** [SetSampleDelta] and [GetSampleDelta] of the collector. *)
Definition SetSampleDelta (r : remoteStatsCollector) (delta : Z) : remoteStatsCollector :=
  {| sftpClient := sftpClient r;
     sshClient := sshClient r;
     sampleDelta := delta;
     ownsSftpClient := ownsSftpClient r;
     ownsSSHClient := ownsSSHClient r |}.

Definition GetSampleDelta (r : remoteStatsCollector) : Z := sampleDelta r.

(** [NewRemoteStatsMonitorFromSSH], over a network whose [sftp.NewClient]
    answers as [newClientErr] tells. *)
Definition NewRemoteStatsMonitorFromSSH (newClientErr : nat -> option error)
    (conn : nat) (ival delta : Z) (format : SystemStats -> run string) (w : Net)
  : run RemoteStatsMonitor * Net :=
  match NewRemoteStatsCollectorFromSSH newClientErr conn delta w with
  | (Error e, w1) => (Error (errWrap "failed to create collector" e), w1)
  | (Panic p, w1) => (Panic p, w1)
  | (Return c, w1) =>
      (Return {| collector := c;
                 interval := ival;
                 monitorSampleDelta := delta;
                 logLineFunc := format;
                 ctxCancelled := false |}, w1)
  end.

(** [IsRunning]: whether [m.ctx] is not done. *)
Definition IsRunning (m : RemoteStatsMonitor) : bool := negb (ctxCancelled m).

Definition SetLogLineFunc (m : RemoteStatsMonitor) (format : SystemStats -> run string)
  : RemoteStatsMonitor :=
  {| collector := collector m;
     interval := interval m;
     monitorSampleDelta := monitorSampleDelta m;
     logLineFunc := format;
     ctxCancelled := ctxCancelled m |}.

Definition SetInterval (m : RemoteStatsMonitor) (ival : Z) : RemoteStatsMonitor :=
  {| collector := collector m;
     interval := ival;
     monitorSampleDelta := monitorSampleDelta m;
     logLineFunc := logLineFunc m;
     ctxCancelled := ctxCancelled m |}.

Definition GetInterval (m : RemoteStatsMonitor) : Z := interval m.

(** [SetSampleDelta] of the monitor: its own field, then the collector's. *)
Definition MonitorSetSampleDelta (m : RemoteStatsMonitor) (delta : Z) : RemoteStatsMonitor :=
  {| collector := SetSampleDelta (collector m) delta;
     interval := interval m;
     monitorSampleDelta := delta;
     logLineFunc := logLineFunc m;
     ctxCancelled := ctxCancelled m |}.

Definition MonitorGetSampleDelta (m : RemoteStatsMonitor) : Z := monitorSampleDelta m.

(** A call on a monitor, as far as the monitor's own fields go: a start
    ([StartSync] and [StartAsync] begin with [ensureFreshContext]), [Stop],
    and the three setters. *)
Inductive call : Type :=
| callStart
| callStop
| callSetInterval (ival : Z)
| callSetSampleDelta (delta : Z)
| callSetLogLineFunc (format : SystemStats -> run string).

Definition perform (m : RemoteStatsMonitor) (c : call) : RemoteStatsMonitor :=
  match c with
  | callStart => ensureFreshContext m
  | callStop => Stop m
  | callSetInterval ival => SetInterval m ival
  | callSetSampleDelta delta => MonitorSetSampleDelta m delta
  | callSetLogLineFunc format => SetLogLineFunc m format
  end.

Definition isStart (c : call) : bool :=
  match c with callStart => true | _ => false end.

Definition isStop (c : call) : bool :=
  match c with callStop => true | _ => false end.

(** The sampling spacing and the interval that a sequence of calls sets last,
    if it sets one. *)
Definition sampleDeltaSet (calls : list call) : option Z :=
  last (omap (fun c => match c with callSetSampleDelta d => Some d | _ => None end) calls).

Definition intervalSet (calls : list call) : option Z :=
  last (omap (fun c => match c with callSetInterval d => Some d | _ => None end) calls).

(** The last start or stop of a sequence of calls, if it has one. *)
Definition lastStartOrStop (calls : list call) : option call :=
  last (List.filter (fun c => isStart c || isStop c) calls).

(** [GetCurrentStats]: the collector's [GetSystemStats]. *)
Definition GetCurrentStats (ParseFloat : string -> float + error)
    (m : RemoteStatsMonitor)
    (pick : gmap string (list float) -> list (string * list float)) (served : Remote)
  : run SystemStats :=
  GetSystemStats ParseFloat pick served.

(** *** SystemStatsToJSON *)

(** The values of the [map[string]any] that [SystemStatsToJSON] builds: a
    number, or the map from core ids to numbers. *)
Inductive jsonValue : Type :=
| jsonNumber (x : float)
| jsonObject (fields : gmap string float).

(** The function literal of [SystemStatsToJSON]: [m[cpu.Core] = cpu.UsagePct]
    for each entry in turn. *)
Definition perCoreMap (cs : list CPUStat) : gmap string float :=
  fold_left (fun m cpu => <[Core cpu := UsagePct cpu]> m) cs ∅.

Definition SystemStatsToJSON (stats : SystemStats) : gmap string jsonValue :=
  list_to_map
    [("total_memory_mb", jsonNumber (TotalMemoryMB stats));
     ("used_memory_mb", jsonNumber (UsedMemoryMB stats));
     ("used_memory_percent", jsonNumber (UsedMemoryPercent stats));
     ("total_cpu_percentage", jsonNumber (TotalCPUPercentage stats));
     ("per_core_cpu_percentages", jsonObject (perCoreMap (CPUStats stats)))].

(** *** Notions for the snapshot function *)

(** The row a line of the [cpu] block adds to the sample: its first field
    and its counters. *)
Definition rowOf (ParseFloat : string -> float + error) (line : string)
  : option (string * list float) :=
  match Fields line with
  | core :: toks =>
      match parseCounters ParseFloat toks with
      | Return values => Some (core, values)
      | _ => None
      end
  | [] => None
  end.

(** The counters of the last line of the [cpu] block whose first field is
    [core]. *)
Definition lastRow (ParseFloat : string -> float + error) (core : string)
    (ls : list string) : option (list float) :=
  snd <$> last (List.filter (fun row => String.eqb (fst row) core)
                  (omap (rowOf ParseFloat) (cpuBlock ls))).

(** The record that a cycle writes to the log, if the cycle succeeds. *)
Definition cycleRecord (ParseFloat : string -> float + error)
    (m : RemoteStatsMonitor) (ev : selected) : option string :=
  match ev with
  | ctxDone => None
  | tickerC served pick =>
      match GetSystemStats ParseFloat pick served with
      | Return stats =>
          match logLineFunc m stats with
          | Return logData => Some logData
          | _ => None
          end
      | _ => None
      end
  end.

(** * Properties *)

(** Two floats differ when a test tells them apart. *)
Lemma float_neq_by (test : float -> bool) (x y : float) :
  test x = true -> test y = false -> x <> y.
Proof. intros Hx Hy E. rewrite E in Hx. congruence. Qed.

(** ** The memory sub-step *)

Section MemoryFacts.

Variable ParseFloat : string -> float + error.

Lemma meminfoStep_valueAt (acc : float * float) (line : string) :
  meminfoStep ParseFloat acc line =
    (default (fst acc) (valueAt ParseFloat "MemTotal:" line),
     default (snd acc) (valueAt ParseFloat "MemAvailable:" line)).
Proof.
  destruct acc as [t a]. unfold meminfoStep, valueAt.
  destruct (Fields line) as [|k [|v rest]]; try reflexivity.
  destruct (String.eqb k "MemTotal:") eqn:Ek.
  - apply String.eqb_eq in Ek. subst k. simpl.
    destruct (ParseFloat v); reflexivity.
  - destruct (String.eqb k "MemAvailable:"); destruct (ParseFloat v); reflexivity.
Qed.

Lemma fold_meminfo_last (ls : list string) (t a : float) :
  fold_left (meminfoStep ParseFloat) ls (t, a) =
    (default t (lastValue ParseFloat "MemTotal:" ls),
     default a (lastValue ParseFloat "MemAvailable:" ls)).
Proof.
  revert t a. induction ls as [|line ls IH]; intros t a; [reflexivity|].
  cbn [fold_left]. rewrite meminfoStep_valueAt, IH. cbn [fst snd].
  unfold lastValue. cbn [omap list_omap].
  f_equal.
  - destruct (valueAt ParseFloat "MemTotal:" line) as [x|]; [|reflexivity].
    rewrite last_cons. cbn [default].
    destruct (last (omap (valueAt ParseFloat "MemTotal:") ls)); reflexivity.
  - destruct (valueAt ParseFloat "MemAvailable:" line) as [x|]; [|reflexivity].
    rewrite last_cons. cbn [default].
    destruct (last (omap (valueAt ParseFloat "MemAvailable:") ls)); reflexivity.
Qed.

Lemma scanMeminfo_last (ls : list string) :
  scanMeminfo ParseFloat ls =
    (default 0%float (lastValue ParseFloat "MemTotal:" ls),
     default 0%float (lastValue ParseFloat "MemAvailable:" ls)).
Proof. apply fold_meminfo_last. Qed.

(** What [getMemoryStats] returns once the resource is open: a line never
    makes it fail. *)
Lemma getMemoryStats_opened (r : Remote) (f : File) :
  open_meminfo r = Return f ->
  getMemoryStats ParseFloat r =
    let total := default 0%float (lastValue ParseFloat "MemTotal:" (lines f)) in
    let available := default 0%float (lastValue ParseFloat "MemAvailable:" (lines f)) in
    match scanErr f with
    | Some e => Error e
    | None =>
        if (total =? 0)%float then Error (errNew "invalid meminfo (MemTotal is zero)")
        else Return ((total / 1024)%float, ((total - available) / 1024)%float)
    end.
Proof.
  intros Hopen. unfold getMemoryStats. rewrite Hopen. cbn [bind].
  rewrite scanMeminfo_last. unfold scannerErr.
  destruct (scanErr f); reflexivity.
Qed.

Lemma lastValue_absent (key : string) (ls : list string) :
  Forall (fun line => head (Fields line) <> Some key) ls ->
  lastValue ParseFloat key ls = None.
Proof.
  intros Hall. unfold lastValue.
  replace (omap (valueAt ParseFloat key) ls) with (@nil float); [reflexivity|].
  induction Hall as [|line ls Hline _ IH]; [reflexivity|].
  cbn [omap list_omap]. 
  assert (valueAt ParseFloat key line = None) as ->; [|exact IH].
  unfold valueAt. destruct (Fields line) as [|k [|v rest]]; try reflexivity.
  destruct (String.eqb k key) eqn:Ek; [|reflexivity].
  apply String.eqb_eq in Ek. subst k. exfalso. apply Hline. reflexivity.
Qed.

(** C3 (as amended): the value the run uses for [MemTotal:] and for
    [MemAvailable:] is that of the last line giving the key a number, and
    zero when no line does; a line with another key, with fewer than two
    fields or with a second field that is not a number changes nothing, and
    no line makes the memory sub-step fail. *)
Theorem C3_last_occurrence_wins (ls : list string) :
  scanMeminfo ParseFloat ls =
    (default 0%float (lastValue ParseFloat "MemTotal:" ls),
     default 0%float (lastValue ParseFloat "MemAvailable:" ls))
  /\ (forall acc line,
        valueAt ParseFloat "MemTotal:" line = None ->
        valueAt ParseFloat "MemAvailable:" line = None ->
        meminfoStep ParseFloat acc line = acc)
  /\ (forall r e,
        open_meminfo r = Return (mkFile ls None) ->
        getMemoryStats ParseFloat r = Error e ->
        e = errNew "invalid meminfo (MemTotal is zero)"
        /\ (default 0%float (lastValue ParseFloat "MemTotal:" ls) =? 0)%float = true).
Proof.
  split; [apply scanMeminfo_last|]. split.
  - intros [t a] line Ht Ha. rewrite meminfoStep_valueAt, Ht, Ha. reflexivity.
  - intros r e Hopen Hfail.
    rewrite (getMemoryStats_opened r _ Hopen) in Hfail. cbn in Hfail.
    destruct (default 0%float (lastValue ParseFloat "MemTotal:" ls) =? 0)%float;
      [|discriminate].
    split; [congruence|reflexivity].
Qed.

(** C8: when the memory resource has no [MemTotal:] line, or the value it
    gives to [MemTotal:] is zero, [GetSystemStats] returns no snapshot: it
    fails with the error of the memory sub-step, which is the invalid-meminfo
    error whenever the scanner itself met no error. *)
Theorem C8_missing_or_zero_MemTotal_fails
    (pick : gmap string (list float) -> list (string * list float))
    (r : Remote) (f : File) :
  open_meminfo r = Return f ->
  (Forall (fun line => head (Fields line) <> Some "MemTotal:") (lines f)
   \/ exists T, lastValue ParseFloat "MemTotal:" (lines f) = Some T
                /\ (T =? 0)%float = true) ->
  exists e,
    GetSystemStats ParseFloat pick r = Error (errWrap "failed to get memory stats" e)
    /\ (scanErr f = None -> e = errNew "invalid meminfo (MemTotal is zero)").
Proof.
  intros Hopen Hzero.
  assert ((default 0%float (lastValue ParseFloat "MemTotal:" (lines f)) =? 0)%float = true)
    as Htot.
  { destruct Hzero as [Habsent | (T & HT & HT0)].
    - rewrite (lastValue_absent _ _ Habsent). reflexivity.
    - rewrite HT. exact HT0. }
  unfold GetSystemStats. rewrite (getMemoryStats_opened r f Hopen). cbn zeta.
  rewrite Htot. destruct (scanErr f) as [e'|].
  - exists e'. split; [reflexivity|discriminate].
  - eexists. split; [reflexivity|reflexivity].
Qed.

End MemoryFacts.

(** ** The snapshot function *)

Lemma fieldsFrom_nonempty (cur s : string) :
  cur <> EmptyString -> fieldsFrom 0 cur s <> [].
Proof.
  revert cur. induction s as [|c s IH]; intros cur Hcur; cbn [fieldsFrom].
  - destruct cur; [contradiction|discriminate].
  - destruct (spaceWidth (String c s)).
    + apply IH. destruct cur; discriminate.
    + destruct cur; [contradiction|discriminate].
Qed.

(** No white-space rune starts with the byte [c]. *)
Lemma spaceWidth_c (s : string) : spaceWidth (String "c" s) = 0%nat.
Proof. destruct s as [|c1 [|c2 s]]; reflexivity. Qed.

(** A line with the prefix [cpu] has a first field: [fields[0]] is in
    range. *)
Lemma Fields_of_cpu_line (line : string) :
  HasPrefix line "cpu" = true -> Fields line <> [].
Proof.
  destruct line as [|c line]; [discriminate|].
  cbn [HasPrefix]. intros H. apply andb_true_iff in H as [Hc _].
  apply Ascii.eqb_eq in Hc. subst c.
  unfold Fields. cbn [fieldsFrom]. rewrite spaceWidth_c.
  apply fieldsFrom_nonempty. discriminate.
Qed.

Section SnapshotFacts.

Variable ParseFloat : string -> float + error.

Lemma parseCounters_bad (toks : list string) :
  existsb (fun tok => match ParseFloat tok with inr _ => true | inl _ => false end) toks = true ->
  exists e, parseCounters ParseFloat toks = Error (errWrap "failed to parse CPU stat" e).
Proof.
  induction toks as [|tok toks IH]; [discriminate|].
  cbn [existsb parseCounters]. destruct (ParseFloat tok) as [v|e].
  - cbn [orb]. intros H. destruct (IH H) as [e He]. rewrite He. exists e. reflexivity.
  - intros _. exists e. reflexivity.
Qed.

Lemma parseCounters_good (toks : list string) :
  existsb (fun tok => match ParseFloat tok with inr _ => true | inl _ => false end) toks = false ->
  exists values, parseCounters ParseFloat toks = Return values.
Proof.
  induction toks as [|tok toks IH]; [intros _; exists []; reflexivity|].
  cbn [existsb parseCounters]. destruct (ParseFloat tok) as [v|e]; [|discriminate].
  cbn [orb]. intros H. destruct (IH H) as [values Hv]. rewrite Hv.
  exists (v :: values). reflexivity.
Qed.

Lemma scanStat_bad (ls : list string) (stats : gmap string (list float)) :
  hasBadCounter ParseFloat ls = true ->
  exists e, scanStat ParseFloat ls stats = Error (errWrap "failed to parse CPU stat" e).
Proof.
  unfold hasBadCounter. revert stats.
  induction ls as [|line ls IH]; intros stats; [discriminate|].
  cbn [cpuBlock scanStat]. destruct (HasPrefix line "cpu") eqn:Hp; [|discriminate].
  cbn [negb existsb]. pose proof (Fields_of_cpu_line line Hp) as Hne.
  unfold badCounter at 1. destruct (Fields line) as [|core toks]; [contradiction|].
  cbn [tail].
  destruct (existsb _ toks) eqn:Hbad.
  - intros _. destruct (parseCounters_bad toks Hbad) as [e He].
    rewrite He. exists e. reflexivity.
  - cbn [orb]. intros H. destruct (parseCounters_good toks Hbad) as [values Hv].
    rewrite Hv. cbn [bind]. apply IH. exact H.
Qed.

Lemma snapshot_bad (f : File) :
  hasBadCounter ParseFloat (lines f) = true ->
  exists e, snapshot ParseFloat (Return f) = Error (errWrap "failed to parse CPU stat" e).
Proof.
  intros H. destruct (scanStat_bad (lines f) ∅ H) as [e He].
  exists e. unfold snapshot. cbn [bind]. rewrite He. reflexivity.
Qed.

(** C7: a counter token that is not a number, on a line that the snapshot
    function reads, makes that snapshot fail with the counter-parse error, and
    [GetSystemStats] (whose memory sub-step went through) fails with that
    error wrapped, whether the token is in the first snapshot or, the first
    having succeeded, in the second.  An error of either sub-step is returned
    wrapped, and a snapshot is returned only when both sub-steps returned. *)
Theorem C7_sub_step_failure_aborts_collect
    (pick : gmap string (list float) -> list (string * list float)) (r : Remote) :
  (forall mem f1,
      getMemoryStats ParseFloat r = Return mem ->
      open_stat_first r = Return f1 ->
      hasBadCounter ParseFloat (lines f1) = true ->
      exists e, GetSystemStats ParseFloat pick r =
                Error (errWrap "failed to get CPU stats"
                         (errWrap "failed to parse CPU stat" e)))
  /\ (forall mem stat1 f2,
      getMemoryStats ParseFloat r = Return mem ->
      snapshot ParseFloat (open_stat_first r) = Return stat1 ->
      open_stat_second r = Return f2 ->
      hasBadCounter ParseFloat (lines f2) = true ->
      exists e, GetSystemStats ParseFloat pick r =
                Error (errWrap "failed to get CPU stats"
                         (errWrap "failed to parse CPU stat" e)))
  /\ (forall e,
      getMemoryStats ParseFloat r = Error e ->
      GetSystemStats ParseFloat pick r = Error (errWrap "failed to get memory stats" e))
  /\ (forall mem e,
      getMemoryStats ParseFloat r = Return mem ->
      getCPUStats ParseFloat pick r = Error e ->
      GetSystemStats ParseFloat pick r = Error (errWrap "failed to get CPU stats" e))
  /\ (forall st,
      GetSystemStats ParseFloat pick r = Return st ->
      exists totalMem usedMem totalCPU coreStats,
        getMemoryStats ParseFloat r = Return (totalMem, usedMem)
        /\ getCPUStats ParseFloat pick r = Return (totalCPU, coreStats)
        /\ st = mkSystemStats totalMem usedMem (usedMem / totalMem * 100)%float
                  totalCPU coreStats).
Proof.
  repeat split.
  - intros [tm um] f1 Hmem Hopen Hbad. unfold GetSystemStats, getCPUStats.
    rewrite Hmem, Hopen. destruct (snapshot_bad f1 Hbad) as [e He].
    rewrite He. exists e. reflexivity.
  - intros [tm um] stat1 f2 Hmem Hfirst Hopen Hbad. unfold GetSystemStats, getCPUStats.
    rewrite Hmem, Hfirst, Hopen. destruct (snapshot_bad f2 Hbad) as [e He].
    cbn [bind wrapErr]. rewrite He. exists e. reflexivity.
  - intros e Hmem. unfold GetSystemStats. rewrite Hmem. reflexivity.
  - intros [tm um] e Hmem Hcpu. unfold GetSystemStats. rewrite Hmem, Hcpu. reflexivity.
  - intros st. unfold GetSystemStats.
    destruct (getMemoryStats ParseFloat r) as [[tm um]|e|p]; try discriminate.
    cbn [wrapErr bind].
    destruct (getCPUStats ParseFloat pick r) as [[tc cs]|e|p]; try discriminate.
    cbn [wrapErr bind]. intros [= <-]. exists tm, um, tc, cs. repeat split.
Qed.

End SnapshotFacts.

(** ** The monitoring loop *)

Section LoopFacts.

Variable ParseFloat : string -> float + error.

(** The error a cycle returns does not depend on what was written before,
    and the cycle only adds to it. *)
Lemma collectAndLog_console (m : RemoteStatsMonitor) (served : Remote)
    (pick : gmap string (list float) -> list (string * list float)) (out : Console) :
  fst (collectAndLog ParseFloat m served pick out) =
  fst (collectAndLog ParseFloat m served pick (mkConsole [] []))
  /\ printed (snd (collectAndLog ParseFloat m served pick out)) = printed out.
Proof.
  unfold collectAndLog.
  destruct (GetSystemStats ParseFloat pick served) as [st|e|p]; try (split; reflexivity).
  destruct (logLineFunc m st); split; reflexivity.
Qed.

Lemma collectAndLog_fresh (m : RemoteStatsMonitor) (served : Remote)
    (pick : gmap string (list float) -> list (string * list float)) (out : Console) :
  collectAndLog ParseFloat (ensureFreshContext m) served pick out =
  collectAndLog ParseFloat m served pick out.
Proof. unfold ensureFreshContext, collectAndLog. destruct (ctxCancelled m); reflexivity. Qed.

Lemma monitorLoop_fresh (m : RemoteStatsMonitor) (events : list selected) (out : Console) :
  monitorLoop ParseFloat (ensureFreshContext m) events out =
  monitorLoop ParseFloat m events out.
Proof.
  revert out. induction events as [|[|served pick] events IH]; intros out; try reflexivity.
  cbn [monitorLoop]. rewrite collectAndLog_fresh.
  destruct (collectAndLog ParseFloat m served pick out) as [[u|e|p] out1];
    [apply IH|apply IH|reflexivity].
Qed.

Lemma interval_fresh (m : RemoteStatsMonitor) :
  interval (ensureFreshContext m) = interval m.
Proof. unfold ensureFreshContext. destruct (ctxCancelled m); reflexivity. Qed.

Lemma time_NewTicker_positive (d : Z) : (0 < d)%Z -> time_NewTicker d = Return tt.
Proof. intros Hd. unfold time_NewTicker. destruct (Z.leb_spec d 0); [lia|reflexivity]. Qed.

(** The cycles that fail are those with a report. *)
Lemma filter_cycleFails (m : RemoteStatsMonitor) (ticks : list selected) :
  length (List.filter (fun ev => cycleFails ParseFloat ev m) ticks) =
  length (omap (fun ev => cycleReport ParseFloat "Error collecting stats: " ev m) ticks).
Proof.
  induction ticks as [|ev ticks IH]; [reflexivity|].
  cbn [List.filter omap list_omap]. unfold cycleReport at 1.
  destruct ev as [|served pick]; cbn [cycleFails cycleError]; [exact IH|].
  destruct (fst (collectAndLog ParseFloat m served pick (mkConsole [] []))) as [u|e|p];
    cbn [failed length]; rewrite IH; reflexivity.
Qed.

(** Ticks whose cycles do not panic leave the loop running, with one report
    printed for each cycle that failed: the message and the error of the
    cycle. *)
Lemma monitorLoop_ticks (m : RemoteStatsMonitor) (ticks : list selected)
    (out : Console) :
  Forall (fun ev => isDone ev = false /\ cyclePanics ParseFloat ev m = false) ticks ->
  exists out',
    (forall rest,
        monitorLoop ParseFloat m (ticks ++ rest) out = monitorLoop ParseFloat m rest out')
    /\ printed out' =
       printed out
       ++ omap (fun ev => cycleReport ParseFloat "Error collecting stats: " ev m) ticks.
Proof.
  intros Hticks. revert out.
  induction Hticks as [|ev ticks [Hdone Hpanic] _ IH]; intros out.
  - exists out. split; [reflexivity|]. cbn. rewrite app_nil_r. reflexivity.
  - destruct ev as [|served pick]; [discriminate|].
    cbn [app monitorLoop omap list_omap]. unfold cycleReport at 1.
    cbn [cyclePanics] in Hpanic. cbn [cycleError].
    destruct (collectAndLog_console m served pick out) as [Hfst Hprinted].
    rewrite <- Hfst in Hpanic |- *.
    destruct (collectAndLog ParseFloat m served pick out) as [[u|e|p] out1];
      cbn [fst snd panicked] in *; [| |discriminate].
    + destruct (IH out1) as (out' & Hloop & Hpr). exists out'. split; [exact Hloop|].
      rewrite Hpr, Hprinted. reflexivity.
    + destruct (IH (mkConsole (logged out1) (printed out1 ++ [("Error collecting stats: ", e)])))
        as (out' & Hloop & Hpr).
      exists out'. split; [exact Hloop|].
      rewrite Hpr. cbn [printed]. rewrite Hprinted, <- app_assoc. reflexivity.
Qed.

Lemma monitorLoop_exit (m : RemoteStatsMonitor) (events : list selected)
    (out out' : Console) (err : option error) :
  monitorLoop ParseFloat m events out = (Exited err, out') ->
  err = None /\ In ctxDone events.
Proof.
  revert out. induction events as [|[|served pick] events IH]; intros out; cbn [monitorLoop].
  - discriminate.
  - intros [= <- _]. split; [reflexivity|left; reflexivity].
  - destruct (collectAndLog ParseFloat m served pick out) as [[u|e|p] out1];
      [| |discriminate]; intros H; apply IH in H as [-> Hin];
      (split; [reflexivity|right; exact Hin]).
Qed.

(** C9: on a monitor whose interval is positive (the ticker is created and
    the loop runs), [StartSync] returns only when the cancellation is
    received, and then it returns [nil]; as long as only ticks are received,
    the loop stays in its [select] whatever the number of cycles that failed;
    each failure is printed, with its message and the error of the cycle, in
    the order of the cycles; and the cancellation received after such ticks
    ends the loop with [nil].  (A failure is an error that the cycle returns;
    a cycle that panics does not return and takes the program down with it.
    With an interval that is not positive [time.NewTicker] panics and the loop
    never runs.) *)
Theorem C9_failed_cycle_never_ends_the_loop
    (m : RemoteStatsMonitor) (served : Remote)
    (pick : gmap string (list float) -> list (string * list float))
    (ticks : list selected) :
  (forall events err out,
      StartSync ParseFloat m served pick events = (Exited err, out) ->
      err = None /\ In ctxDone events)
  /\ ((0 < interval m)%Z ->
      cyclePanics ParseFloat (tickerC served pick) m = false ->
      Forall (fun ev => isDone ev = false /\ cyclePanics ParseFloat ev m = false) ticks ->
      exists out,
        StartSync ParseFloat m served pick ticks = (Waiting, out)
        /\ printed out =
           match cycleReport ParseFloat "Error collecting initial stats: "
                   (tickerC served pick) m with
           | Some report => [report]
           | None => []
           end
           ++ omap (fun ev => cycleReport ParseFloat "Error collecting stats: " ev m) ticks
        /\ length (printed out) =
           length (List.filter (fun ev => cycleFails ParseFloat ev m)
                     (tickerC served pick :: ticks))
        /\ forall rest,
             StartSync ParseFloat m served pick (ticks ++ ctxDone :: rest)
             = (Exited None, out)).
Proof.
  split.
  - intros events err out. unfold StartSync. cbn zeta.
    unfold time_NewTicker.
    destruct (interval (ensureFreshContext m) <=? 0)%Z; [discriminate|].
    rewrite collectAndLog_fresh.
    destruct (collectAndLog ParseFloat m served pick _) as [[u|e|p] out1];
      [| |discriminate]; rewrite monitorLoop_fresh; apply monitorLoop_exit.
  - intros Hival Hfirst Hticks. unfold StartSync. cbn zeta.
    rewrite interval_fresh, (time_NewTicker_positive _ Hival).
    rewrite collectAndLog_fresh.
    cbn [cyclePanics] in Hfirst. unfold cycleReport at 1. cbn [cycleError].
    cbn [List.filter cycleFails].
    destruct (collectAndLog_console m served pick (mkConsole [] [])) as [_ Hprinted].
    destruct (collectAndLog ParseFloat m served pick (mkConsole [] [])) as [[u|e|p] out1];
      cbn [fst snd panicked failed printed length] in *; [| |discriminate];
      rewrite (filter_cycleFails m ticks).
    + destruct (monitorLoop_ticks m ticks out1 Hticks) as (out' & Hloop & Hpr).
      exists out'. rewrite Hprinted in Hpr. cbn [app] in Hpr |- *.
      split; [|split; [exact Hpr|split]].
      * rewrite monitorLoop_fresh, <- (app_nil_r ticks), Hloop. reflexivity.
      * rewrite Hpr. reflexivity.
      * intros rest. rewrite monitorLoop_fresh, Hloop. reflexivity.
    + destruct (monitorLoop_ticks m ticks
                  (mkConsole (logged out1)
                     (printed out1 ++ [("Error collecting initial stats: ", e)])) Hticks)
        as (out' & Hloop & Hpr).
      exists out'. cbn [printed] in Hpr. rewrite Hprinted in Hpr. cbn [app] in Hpr |- *.
      split; [|split; [exact Hpr|split]].
      * rewrite monitorLoop_fresh, <- (app_nil_r ticks), Hloop. reflexivity.
      * rewrite Hpr. reflexivity.
      * intros rest. rewrite monitorLoop_fresh, Hloop. reflexivity.
Qed.

End LoopFacts.

(** ** Closing the monitor *)

(** C2: a monitor built from connection parameters, on a network where
    [ssh.Dial] and [sftp.NewClient] succeed, holds no SSH client
    ([sshClient] is [nil]) and does not own its SFTP client, so [Close]
    returns [nil] and leaves both the SSH connection and the SFTP client it
    created open; a monitor handed an SFTP client leaves the connections as
    they are, too. *)
Theorem C2_close_leaves_created_channel_open
    (sftpCloseErr sshCloseErr : nat -> option error)
    (serverAddress : string) (ival delta : Z)
    (format : SystemStats -> run string) (w : Net) :
  (exists m w1,
      NewRemoteStatsMonitorFromSSHConfig noErr noErr serverAddress ival delta format w
        = (Return m, w1)
      /\ sshClient (collector m) = None
      /\ ownsSftpClient (collector m) = false
      /\ ownsSSHClient (collector m) = true
      /\ MonitorClose sftpCloseErr sshCloseErr m w1 = (None, Stop m, w1)
      /\ nextHandle w ∈ sshOpen w1
      /\ S (nextHandle w) ∈ sftpOpen w1)
  /\ (forall client,
      MonitorClose sftpCloseErr sshCloseErr
        (NewRemoteStatsMonitorFromSFTP client ival delta format) w
      = (None, Stop (NewRemoteStatsMonitorFromSFTP client ival delta format), w)).
Proof.
  split.
  - eexists _, _. split; [reflexivity|]. cbn.
    repeat split; set_solver.
  - intros client. reflexivity.
Qed.

(** ** The per-core computation *)

Lemma sumBoth_short (values1 values2 : list float) (total1 total2 : float) :
  (length values2 < length values1)%nat ->
  sumBoth values1 values2 total1 total2 = Panic "index out of range".
Proof.
  revert values2 total1 total2.
  induction values1 as [|v1 values1 IH]; intros [|v2 values2] total1 total2 Hlen;
    cbn in Hlen; try lia; [reflexivity|].
  cbn [sumBoth]. apply IH. lia.
Qed.

Lemma sumBoth_long (values1 values2 : list float) (total1 total2 : float) :
  (length values1 <= length values2)%nat ->
  sumBoth values1 values2 total1 total2 =
    Return (fold_left PrimFloat.add values1 total1,
            fold_left PrimFloat.add (take (length values1) values2) total2).
Proof.
  revert values2 total1 total2.
  induction values1 as [|v1 values1 IH]; intros [|v2 values2] total1 total2 Hlen;
    cbn in Hlen; try lia; try reflexivity.
  cbn [sumBoth length take fold_left]. apply IH. lia.
Qed.

Lemma index_in_range (xs : list float) (i : nat) :
  (i < length xs)%nat -> exists x, xs !! i = Some x /\ index xs i = Return x.
Proof.
  intros Hi. destruct (lookup_lt_is_Some_2 xs i Hi) as [x Hx].
  exists x. split; [exact Hx|]. unfold index. rewrite Hx. reflexivity.
Qed.

(** [coreStep] adds what [coreUsage] finds: nothing, the aggregate usage, or
    an entry at the end of [perCore]. *)
Lemma coreStep_coreUsage (stat2 : gmap string (list float))
    (totalUsage : float) (perCore : list CPUStat) (core : string) (values1 : list float) :
  coreStep stat2 (totalUsage, perCore) (core, values1) =
    match coreUsage stat2 (core, values1) with
    | Return None => Return (totalUsage, perCore)
    | Return (Some usage) =>
        if String.eqb core "cpu" then Return (usage, perCore)
        else Return (totalUsage, perCore ++ [mkCPUStat core usage])
    | Error e => Error e
    | Panic p => Panic p
    end.
Proof.
  unfold coreStep, coreUsage. destruct (stat2 !! core) as [values2|]; [|reflexivity].
  destruct (sumBoth values1 values2 0 0) as [[total1 total2]|e|p]; try reflexivity.
  cbn [bind]. destruct (3 <? length values1)%nat; [|reflexivity].
  destruct (index values1 3) as [idle1|e|p]; try reflexivity. cbn [bind].
  destruct (index values2 3) as [idle2|e|p]; try reflexivity. cbn [bind].
  destruct (total2 - total1 =? 0)%float; reflexivity.
Qed.

(** When the core is in the second sample with a row at least as long as in
    the first, its contribution is decided by the three conditions: at least
    four counters and a nonzero difference of the sums. *)
Lemma coreUsage_long (stat2 : gmap string (list float)) (core : string)
    (values1 values2 : list float) :
  stat2 !! core = Some values2 ->
  (length values1 <= length values2)%nat ->
  let total1 := fold_left PrimFloat.add values1 0%float in
  let total2 := fold_left PrimFloat.add (take (length values1) values2) 0%float in
  coreUsage stat2 (core, values1) =
    Return (if (3 <? length values1)%nat && negb (total2 - total1 =? 0)%float
            then Some (usageOf (default 0%float (values2 !! 3%nat)
                                - default 0%float (values1 !! 3%nat))%float
                               (total2 - total1)%float)
            else None).
Proof.
  intros Hin Hlen. cbn zeta. unfold coreUsage. rewrite Hin.
  rewrite (sumBoth_long _ _ _ _ Hlen). cbn [bind].
  destruct (3 <? length values1)%nat eqn:H3; [|reflexivity].
  apply Nat.ltb_lt in H3.
  destruct (index_in_range values1 3 H3) as (idle1 & -> & ->).
  destruct (index_in_range values2 3 ltac:(lia)) as (idle2 & -> & ->).
  cbn [bind default andb].
  destruct (_ =? 0)%float; reflexivity.
Qed.

Lemma coreUsage_short (stat2 : gmap string (list float)) (core : string)
    (values1 values2 : list float) :
  stat2 !! core = Some values2 ->
  (length values2 < length values1)%nat ->
  coreUsage stat2 (core, values1) = Panic "index out of range".
Proof.
  intros Hin Hlen. unfold coreUsage. rewrite Hin, (sumBoth_short _ _ _ _ Hlen).
  reflexivity.
Qed.

Lemma coreUsage_absent (stat2 : gmap string (list float)) (core : string)
    (values1 : list float) :
  stat2 !! core = None -> coreUsage stat2 (core, values1) = Return None.
Proof. intros Hin. unfold coreUsage. rewrite Hin. reflexivity. Qed.

Lemma coreUsage_not_error (stat2 : gmap string (list float))
    (entry : string * list float) (e : error) :
  coreUsage stat2 entry <> Error e.
Proof.
  destruct entry as [core values1]. unfold coreUsage.
  destruct (stat2 !! core) as [values2|]; [|discriminate].
  destruct (Nat.le_gt_cases (length values1) (length values2)) as [Hle|Hgt].
  - rewrite (sumBoth_long _ _ _ _ Hle). cbn [bind].
    destruct (3 <? length values1)%nat eqn:H3; [|discriminate].
    apply Nat.ltb_lt in H3.
    destruct (index_in_range values1 3 H3) as (idle1 & _ & ->).
    destruct (index_in_range values2 3 ltac:(lia)) as (idle2 & _ & ->).
    cbn [bind]. destruct (_ =? 0)%float; discriminate.
  - rewrite (sumBoth_short _ _ _ _ Hgt). discriminate.
Qed.

(** A [range] none of whose cores panics returns, with the entries of the
    cores in the order of the visit. *)
Lemma rangeCores_entries (stat2 : gmap string (list float))
    (visit : list (string * list float)) (totalUsage : float) (perCore : list CPUStat) :
  Forall (fun entry => panicked (coreUsage stat2 entry) = false) visit ->
  exists totalUsage',
    rangeCores stat2 visit (totalUsage, perCore) =
      Return (totalUsage', perCore ++ omap (entryStat stat2) visit).
Proof.
  intros Hall. revert totalUsage perCore.
  induction Hall as [|[core values1] visit Hentry _ IH]; intros totalUsage perCore.
  - exists totalUsage. cbn. rewrite app_nil_r. reflexivity.
  - cbn [rangeCores omap list_omap]. rewrite coreStep_coreUsage.
    unfold entryStat at 1. cbn [fst].
    pose proof (coreUsage_not_error stat2 (core, values1)) as Hne.
    destruct (coreUsage stat2 (core, values1)) as [[usage|]|e|p];
      [| |exfalso; exact (Hne e eq_refl)|discriminate].
    + destruct (String.eqb core "cpu"); cbn [bind].
      * apply IH.
      * destruct (IH totalUsage (perCore ++ [mkCPUStat core usage])) as [t Ht].
        exists t. rewrite Ht, <- app_assoc. reflexivity.
    + cbn [bind]. destruct (String.eqb core "cpu"); apply IH.
Qed.

Lemma rangeCores_returned (stat2 : gmap string (list float))
    (visit : list (string * list float)) (acc res : float * list CPUStat) :
  rangeCores stat2 visit acc = Return res ->
  Forall (fun entry => panicked (coreUsage stat2 entry) = false) visit.
Proof.
  revert acc. induction visit as [|[core values1] visit IH]; intros [t pc]; [constructor|].
  cbn [rangeCores]. rewrite coreStep_coreUsage.
  destruct (coreUsage stat2 (core, values1)) as [[usage|]|e|p] eqn:Hu; try discriminate.
  - destruct (String.eqb core "cpu"); cbn [bind]; intros H;
      (constructor; [rewrite Hu; reflexivity|exact (IH _ H)]).
  - cbn [bind]. intros H. constructor; [rewrite Hu; reflexivity|exact (IH _ H)].
Qed.

Lemma rangeCores_panics (stat2 : gmap string (list float))
    (visit : list (string * list float)) (acc : float * list CPUStat) :
  Exists (fun entry => panicked (coreUsage stat2 entry) = true) visit ->
  panicked (rangeCores stat2 visit acc) = true.
Proof.
  intros Hex. destruct (rangeCores stat2 visit acc) as [res|e|p] eqn:Hres; [| |reflexivity].
  - apply rangeCores_returned in Hres. apply Exists_exists in Hex as (entry & Hin & Hp).
    rewrite Forall_forall in Hres. rewrite (Hres entry Hin) in Hp. discriminate.
  - exfalso. revert acc Hres. clear Hex.
    induction visit as [|[core values1] visit IH]; intros [t pc]; [discriminate|].
    cbn [rangeCores]. rewrite coreStep_coreUsage.
    pose proof (coreUsage_not_error stat2 (core, values1)) as Hne.
    destruct (coreUsage stat2 (core, values1)) as [[usage|]|e'|p];
      [| |intros _; exact (Hne e' eq_refl)|discriminate].
    + destruct (String.eqb core "cpu"); cbn [bind]; apply IH.
    + cbn [bind]. apply IH.
Qed.

(** C1: a core of the first sample that is absent from the second is
    skipped; one whose row in the second sample is at least as long as in the
    first contributes exactly when the first row has at least four counters
    and the difference of the sums is not zero; but one whose row in the
    second sample is shorter than in the first is not skipped: the
    computation panics, as [GetSystemStats] does on [short_second_sample]
    whatever the order of the [range]. *)
Theorem C1_short_row_in_second_sample_panics :
  (forall stat2 core values1 acc,
      stat2 !! core = None ->
      coreStep stat2 acc (core, values1) = Return acc)
  /\ (forall stat2 core values1 values2 totalUsage perCore,
      stat2 !! core = Some values2 ->
      (length values1 <= length values2)%nat ->
      let total1 := fold_left PrimFloat.add values1 0%float in
      let total2 := fold_left PrimFloat.add (take (length values1) values2) 0%float in
      let usage := usageOf (default 0%float (values2 !! 3%nat)
                            - default 0%float (values1 !! 3%nat))%float
                           (total2 - total1)%float in
      coreStep stat2 (totalUsage, perCore) (core, values1) =
        Return (if (3 <? length values1)%nat && negb (total2 - total1 =? 0)%float
                then if String.eqb core "cpu" then (usage, perCore)
                     else (totalUsage, perCore ++ [mkCPUStat core usage])
                else (totalUsage, perCore)))
  /\ (forall stat2 core values1 values2 acc,
      stat2 !! core = Some values2 ->
      (length values2 < length values1)%nat ->
      coreStep stat2 acc (core, values1) = Panic "index out of range")
  /\ (forall pick,
      (forall m, rangeOrder m (pick m)) ->
      GetSystemStats ParseDecimal pick short_second_sample = Panic "index out of range").
Proof.
  split; [|split; [|split]].
  - intros stat2 core values1 [t pc] Hin.
    rewrite coreStep_coreUsage, (coreUsage_absent _ _ _ Hin). reflexivity.
  - intros stat2 core values1 values2 t pc Hin Hlen. cbn zeta.
    rewrite coreStep_coreUsage, (coreUsage_long _ _ _ _ Hin Hlen). cbn zeta.
    destruct ((3 <? length values1)%nat && negb (_ =? 0)%float); [|reflexivity].
    destruct (String.eqb core "cpu"); reflexivity.
  - intros stat2 core values1 values2 [t pc] Hin Hlen.
    rewrite coreStep_coreUsage, (coreUsage_short _ _ _ _ Hin Hlen). reflexivity.
  - intros pick Hpick.
    assert (snapshot ParseDecimal (open_stat_first short_second_sample)
            = Return {["cpu0" := [1; 2; 3; 4]%float]}) as H1 by (vm_compute; reflexivity).
    assert (snapshot ParseDecimal (open_stat_second short_second_sample)
            = Return {["cpu0" := [1; 2; 3]%float]}) as H2 by (vm_compute; reflexivity).
    assert (getMemoryStats ParseDecimal short_second_sample
            = Return (7812.5, 3906.25)%float) as Hm by (vm_compute; reflexivity).
    unfold GetSystemStats, getCPUStats. rewrite Hm, H1, H2. cbn [wrapErr bind].
    specialize (Hpick {["cpu0" := [1; 2; 3; 4]%float]}). unfold rangeOrder in Hpick.
    rewrite map_to_list_singleton in Hpick. apply Permutation_singleton_r in Hpick.
    rewrite Hpick. vm_compute. reflexivity.
Qed.

(** C4 (as amended): the entries of [perCore] are those of the cores in the
    order in which the [range] visits the first sample, an order that Go
    leaves open: nothing is sorted or moved afterwards, and another order of
    the visit returns the same entries, arranged by that order. *)
Theorem C4_entries_follow_the_range_order
    (stat2 m : gmap string (list float))
    (visit visit' : list (string * list float))
    (totalUsage0 totalUsage : float) (perCore : list CPUStat) :
  rangeOrder m visit ->
  rangeOrder m visit' ->
  rangeCores stat2 visit (totalUsage0, []) = Return (totalUsage, perCore) ->
  perCore = omap (entryStat stat2) visit
  /\ exists totalUsage' perCore',
       rangeCores stat2 visit' (totalUsage0, []) = Return (totalUsage', perCore')
       /\ perCore' = omap (entryStat stat2) visit'
       /\ perCore ≡ₚ perCore'.
Proof.
  unfold rangeOrder. intros Hv Hv' Hrun.
  pose proof (rangeCores_returned _ _ _ _ Hrun) as Hall.
  destruct (rangeCores_entries stat2 visit totalUsage0 [] Hall) as [t Ht].
  rewrite Hrun in Ht. injection Ht as _ Hp. cbn [app] in Hp.
  split; [exact Hp|].
  assert (visit ≡ₚ visit') as Hperm by (rewrite Hv, Hv'; reflexivity).
  assert (Forall (fun entry => panicked (coreUsage stat2 entry) = false) visit') as Hall'
    by (rewrite <- Hperm; exact Hall).
  destruct (rangeCores_entries stat2 visit' totalUsage0 [] Hall') as [t' Ht'].
  exists t', (omap (entryStat stat2) visit'). cbn [app] in Ht'.
  split; [exact Ht'|]. split; [reflexivity|].
  rewrite Hp. apply omap_Permutation. exact Hperm.
Qed.

(** C4, as stated, fails: on [ex_remote] the lines of the first sample give
    [cpu0] before [cpu1], and a [range] that visits the map as [pickListed]
    does returns [cpu1] before [cpu0]. *)
Lemma C4_file_order_not_kept :
  (forall m, rangeOrder m (pickListed m))
  /\ coresInFileOrder ex_stat_first = ["cpu"; "cpu0"; "cpu1"]
  /\ (exists st,
        GetSystemStats ParseDecimal pickListed ex_remote = Return st
        /\ map Core (CPUStats st) = ["cpu1"; "cpu0"])
  /\ ~ sublist ["cpu1"; "cpu0"] (coresInFileOrder ex_stat_first).
Proof.
  split; [intros m; unfold rangeOrder, pickListed; reflexivity|].
  split; [vm_compute; reflexivity|].
  split.
  - eexists. split; vm_compute; reflexivity.
  - assert (coresInFileOrder ex_stat_first = ["cpu"; "cpu0"; "cpu1"]) as ->
      by (vm_compute; reflexivity).
    intros H.
    repeat match goal with
           | H : sublist _ _ |- _ => inversion H; clear H; subst
           end.
Qed.

(** ** Worked examples of the memory sub-step *)

(** C3, as stated, fails: on [twice_meminfo] the first lines give 1024 to
    [MemTotal:] and 512 to [MemAvailable:], and the run uses 2048 and 1024,
    the values of the last lines. *)
Lemma C3_first_occurrence_does_not_win :
  firstValue ParseDecimal "MemTotal:" twice_meminfo = Some 1024%float
  /\ firstValue ParseDecimal "MemAvailable:" twice_meminfo = Some 512%float
  /\ getMemoryStats ParseDecimal twice_remote = Return (2, 1)%float
  /\ getMemoryStats ParseDecimal twice_remote
     <> Return (1024 / 1024, (1024 - 512) / 1024)%float.
Proof.
  split; [vm_compute; reflexivity|].
  split; [vm_compute; reflexivity|].
  assert (getMemoryStats ParseDecimal twice_remote = Return (2, 1)%float) as ->
    by (vm_compute; reflexivity).
  split; [reflexivity|].
  intros H.
  apply (f_equal (fun m => match m with Return (a, _) => a | _ => 0%float end)) in H.
  revert H. apply (float_neq_by (fun x => x =? 2)%float); vm_compute; reflexivity.
Qed.

(** C5: when the memory resource gives [MemTotal:] a value [T] that is not
    zero and [MemAvailable:] a value [A], the memory sub-step returns
    [T / 1024] and [(T - A) / 1024], and the snapshot carries them with
    [usedMem / totalMem * 100] as the percentage; the lines
    [MemTotal: 8000000] and [MemAvailable: 4000000] give 7812.5, 3906.25 and
    50. *)
Theorem C5_memory_in_megabytes :
  (forall ParseFloat pick r f T A totalCPU coreStats,
      open_meminfo r = Return f ->
      scanErr f = None ->
      lastValue ParseFloat "MemTotal:" (lines f) = Some T ->
      (T =? 0)%float = false ->
      lastValue ParseFloat "MemAvailable:" (lines f) = Some A ->
      getCPUStats ParseFloat pick r = Return (totalCPU, coreStats) ->
      getMemoryStats ParseFloat r = Return (T / 1024, (T - A) / 1024)%float
      /\ GetSystemStats ParseFloat pick r =
         Return {| TotalMemoryMB := (T / 1024)%float;
                   UsedMemoryMB := ((T - A) / 1024)%float;
                   UsedMemoryPercent := ((T - A) / 1024 / (T / 1024) * 100)%float;
                   TotalCPUPercentage := totalCPU;
                   CPUStats := coreStats |})
  /\ getMemoryStats ParseDecimal ex_remote = Return (7812.5, 3906.25)%float
  /\ (exists st,
        GetSystemStats ParseDecimal pickListed ex_remote = Return st
        /\ TotalMemoryMB st = 7812.5%float
        /\ UsedMemoryMB st = 3906.25%float
        /\ UsedMemoryPercent st = 50%float).
Proof.
  split.
  - intros ParseFloat pick r f T A totalCPU coreStats Hopen Herr HT HT0 HA Hcpu.
    assert (getMemoryStats ParseFloat r = Return (T / 1024, (T - A) / 1024)%float) as Hmem.
    { rewrite (getMemoryStats_opened ParseFloat r f Hopen). cbn zeta.
      rewrite Herr, HT, HA. cbn [default from_option id]. rewrite HT0. reflexivity. }
    split; [exact Hmem|].
    unfold GetSystemStats. rewrite Hmem, Hcpu. reflexivity.
  - split; [vm_compute; reflexivity|].
    eexists. split; [vm_compute; reflexivity|]. repeat split.
Qed.

(** ** Instances *)

(** C8 on [zero_remote]: the value of [MemTotal:] is zero. *)
Lemma C8_zero_MemTotal_witness :
  exists e,
    GetSystemStats ParseDecimal pickListed zero_remote
      = Error (errWrap "failed to get memory stats" e)
    /\ (scanErr zero_file = None -> e = errNew "invalid meminfo (MemTotal is zero)").
Proof.
  apply (C8_missing_or_zero_MemTotal_fails ParseDecimal pickListed zero_remote zero_file).
  - reflexivity.
  - right. exists 0%float. split; vm_compute; reflexivity.
Defined.

(** C4 on the samples of [ex_remote], visited as listed and in reverse. *)
Lemma C4_reversed_visit_witness :
  omap (entryStat ex_sample_second) (map_to_list ex_sample_first)
    = omap (entryStat ex_sample_second) (map_to_list ex_sample_first)
  /\ exists totalUsage' perCore',
       rangeCores ex_sample_second (reverse (map_to_list ex_sample_first)) (0%float, [])
         = Return (totalUsage', perCore')
       /\ perCore' = omap (entryStat ex_sample_second) (reverse (map_to_list ex_sample_first))
       /\ omap (entryStat ex_sample_second) (map_to_list ex_sample_first) ≡ₚ perCore'.
Proof.
  eapply (C4_entries_follow_the_range_order ex_sample_second ex_sample_first
            (map_to_list ex_sample_first) (reverse (map_to_list ex_sample_first))
            0%float).
  - unfold rangeOrder. reflexivity.
  - unfold rangeOrder. apply reverse_Permutation.
  - vm_compute. reflexivity.
Defined.

(** C5 on [ex_remote]. *)
Lemma C5_example_witness :
  exists totalCPU coreStats,
    getMemoryStats ParseDecimal ex_remote
      = Return (8000000 / 1024, (8000000 - 4000000) / 1024)%float
    /\ GetSystemStats ParseDecimal pickListed ex_remote =
       Return {| TotalMemoryMB := (8000000 / 1024)%float;
                 UsedMemoryMB := ((8000000 - 4000000) / 1024)%float;
                 UsedMemoryPercent :=
                   ((8000000 - 4000000) / 1024 / (8000000 / 1024) * 100)%float;
                 TotalCPUPercentage := totalCPU;
                 CPUStats := coreStats |}.
Proof.
  eexists _, _.
  eapply (proj1 C5_memory_in_megabytes ParseDecimal pickListed ex_remote
            (mkFile ex_meminfo None) 8000000%float 4000000%float).
  - reflexivity.
  - reflexivity.
  - vm_compute. reflexivity.
  - vm_compute. reflexivity.
  - vm_compute. reflexivity.
  - vm_compute. reflexivity.
Defined.

(** ** The arithmetic of binary64 *)

Section Rounding.
Local Open Scope Z_scope.

Lemma digits2_bounds (m : positive) :
  2 ^ (Zpos (digits2_pos m) - 1) <= Zpos m < 2 ^ Zpos (digits2_pos m).
Proof.
  induction m as [m IH|m IH|]; cbn [digits2_pos].
  - rewrite Pos2Z.inj_succ, Z.pow_succ_r by lia.
    replace (Z.succ (Zpos (digits2_pos m)) - 1) with (Z.succ (Zpos (digits2_pos m) - 1)) by lia.
    rewrite Z.pow_succ_r by lia. lia.
  - rewrite Pos2Z.inj_succ, Z.pow_succ_r by lia.
    replace (Z.succ (Zpos (digits2_pos m)) - 1) with (Z.succ (Zpos (digits2_pos m) - 1)) by lia.
    rewrite Z.pow_succ_r by lia. lia.
  - cbn. lia.
Qed.

Lemma digits2_unique (m : positive) (d : Z) :
  2 ^ (d - 1) <= Zpos m < 2 ^ d -> Zpos (digits2_pos m) = d.
Proof.
  intros [Hlo Hhi]. pose proof (digits2_bounds m) as [Hlo' Hhi'].
  assert (0 < d).
  { destruct (Z.le_gt_cases d 0) as [Hd|Hd]; [|exact Hd].
    assert (2 ^ d <= 2 ^ 0) by (apply Z.pow_le_mono_r; lia). cbn in *. lia. }
  assert (d - 1 < Zpos (digits2_pos m)).
  { apply (Z.pow_lt_mono_r_iff 2); lia. }
  assert (Zpos (digits2_pos m) - 1 < d).
  { apply (Z.pow_lt_mono_r_iff 2); lia. }
  lia.
Qed.

Lemma digits2_le (m : positive) (k : Z) :
  0 <= k -> Zpos m < 2 ^ k -> Zpos (digits2_pos m) <= k.
Proof.
  intros Hk Hm. pose proof (digits2_bounds m) as [Hlo _].
  assert (Zpos (digits2_pos m) - 1 < k); [|lia].
  apply (Z.pow_lt_mono_r_iff 2); lia.
Qed.

Lemma digits2_shift (m : positive) (n : Z) (p : positive) :
  0 <= n -> Zpos p = Zpos m * 2 ^ n ->
  Zpos (digits2_pos p) = Zpos (digits2_pos m) + n.
Proof.
  intros Hn Hp. apply digits2_unique. rewrite Hp.
  pose proof (digits2_bounds m) as [Hlo Hhi].
  replace (Zpos (digits2_pos m) + n - 1) with ((Zpos (digits2_pos m) - 1) + n) by lia.
  rewrite !Z.pow_add_r by lia.
  assert (0 < 2 ^ n) by (apply Z.pow_pos_nonneg; lia).
  split; nia.
Qed.

Lemma shr_1_shiftedBy (a : shr_record) :
  0 <= shr_m a -> shiftedBy 1 a (shr_1 a).
Proof.
  destruct a as [m r s]. cbn [shr_m]. intros Hm. unfold shiftedBy, shr_1.
  change (2 ^ 1) with 2.
  destruct m as [|[p|p|]|p]; cbn [shr_m shr_r shr_s]; try lia.
  - split; [reflexivity|]. cbn. tauto.
  - split; [rewrite Pos2Z.inj_xI; apply Z.div_unique with 1; lia|].
    rewrite Pos2Z.inj_xI.
    replace ((2 * Z.pos p + 1) mod 2) with 1
      by (apply Z.mod_unique with (Zpos p); lia).
    cbn. split; [discriminate|intros [_ ?]; lia].
  - split; [rewrite Pos2Z.inj_xO; apply Z.div_unique with 0; lia|].
    rewrite Pos2Z.inj_xO.
    replace ((2 * Z.pos p) mod 2) with 0
      by (apply Z.mod_unique with (Zpos p); lia).
    cbn. tauto.
  - split; [reflexivity|]. cbn. split; [discriminate|intros [_ H]; vm_compute in H; discriminate].
Qed.

Lemma shiftedBy_nonneg (k : Z) (a b : shr_record) :
  0 <= k -> 0 <= shr_m a -> shiftedBy k a b -> 0 <= shr_m b.
Proof.
  intros Hk Ha [Hb _]. rewrite Hb. apply Z.div_pos; [exact Ha|].
  apply Z.pow_pos_nonneg; lia.
Qed.

Lemma shiftedBy_trans (j k : Z) (a b c : shr_record) :
  0 <= j -> 0 <= k -> 0 <= shr_m a ->
  shiftedBy j a b -> shiftedBy k b c -> shiftedBy (j + k) a c.
Proof.
  intros Hj Hk Ha [Hb Hbx] [Hc Hcx].
  assert (0 < 2 ^ j) by (apply Z.pow_pos_nonneg; lia).
  assert (0 < 2 ^ k) by (apply Z.pow_pos_nonneg; lia).
  unfold shiftedBy. rewrite Z.pow_add_r by lia. split.
  - rewrite Hc, Hb. apply Z.div_div; lia.
  - rewrite Hcx, Hbx, Hb. rewrite Z.rem_mul_r by lia.
    pose proof (Z.mod_pos_bound (shr_m a) (2 ^ j) ltac:(lia)).
    pose proof (Z.mod_pos_bound (shr_m a / 2 ^ j) (2 ^ k) ltac:(lia)).
    split; [intros [[? ?] ?]|intros [? ?]]; (split; [|try lia]); try tauto; try nia.
    split; [tauto|nia].
Qed.

Lemma iter_pos_shiftedBy (p : positive) (a : shr_record) :
  0 <= shr_m a -> shiftedBy (Zpos p) a (SpecFloat.iter_pos shr_1 p a).
Proof.
  revert a. induction p as [p IH|p IH|]; intros a Ha; cbn [SpecFloat.iter_pos].
  - pose proof (shr_1_shiftedBy a Ha) as H1.
    assert (0 <= shr_m (shr_1 a)) as Hb
      by (apply (shiftedBy_nonneg 1 a); [lia|exact Ha|exact H1]).
    pose proof (IH _ Hb) as H2.
    assert (0 <= shr_m (SpecFloat.iter_pos shr_1 p (shr_1 a))) as Hc
      by (apply (shiftedBy_nonneg (Zpos p) (shr_1 a)); [lia|exact Hb|exact H2]).
    pose proof (IH _ Hc) as H3.
    assert (shiftedBy (1 + Zpos p) a (SpecFloat.iter_pos shr_1 p (shr_1 a))) as H12
      by (apply (shiftedBy_trans 1 (Zpos p) a (shr_1 a)); [lia|lia|exact Ha|exact H1|exact H2]).
    replace (Zpos p~1) with ((1 + Zpos p) + Zpos p) by lia.
    apply (shiftedBy_trans (1 + Zpos p) (Zpos p) a
             (SpecFloat.iter_pos shr_1 p (shr_1 a))); [lia|lia|exact Ha|exact H12|exact H3].
  - pose proof (IH _ Ha) as H2.
    assert (0 <= shr_m (SpecFloat.iter_pos shr_1 p a)) as Hc
      by (apply (shiftedBy_nonneg (Zpos p) a); [lia|exact Ha|exact H2]).
    pose proof (IH _ Hc) as H3.
    replace (Zpos p~0) with (Zpos p + Zpos p) by lia.
    apply (shiftedBy_trans (Zpos p) (Zpos p) a (SpecFloat.iter_pos shr_1 p a));
      [lia|lia|exact Ha|exact H2|exact H3].
  - apply shr_1_shiftedBy. exact Ha.
Qed.

Lemma loc_of_shr_record_exact (a : shr_record) :
  loc_of_shr_record a = loc_Exact <-> orb (shr_r a) (shr_s a) = false.
Proof. destruct a as [m [|] [|]]; cbn; split; congruence. Qed.

Lemma shr_record_of_loc_exact (m : Z) (l : location) :
  orb (shr_r (shr_record_of_loc m l)) (shr_s (shr_record_of_loc m l)) = false
  <-> l = loc_Exact.
Proof. destruct l as [|[| |]]; cbn; split; congruence. Qed.

Lemma shr_record_of_loc_m (m : Z) (l : location) : shr_m (shr_record_of_loc m l) = m.
Proof. destruct l as [|[| |]]; reflexivity. Qed.

Lemma loc_of_shr_record_of_loc (m : Z) (l : location) :
  loc_of_shr_record (shr_record_of_loc m l) = l.
Proof. destruct l as [|[| |]]; reflexivity. Qed.

(** [shr] divides the mantissa by [2 ^ n], and keeps the location exact only
    when it was and no bit is lost. *)
Lemma shr_spec (m : Z) (l : location) (e n : Z) :
  0 <= m ->
  let k := Z.max 0 n in
  let res := shr (shr_record_of_loc m l) e n in
  snd res = e + k
  /\ shr_m (fst res) = m / 2 ^ k
  /\ (loc_of_shr_record (fst res) = loc_Exact <-> l = loc_Exact /\ m mod 2 ^ k = 0)
  /\ (n <= 0 -> fst res = shr_record_of_loc m l).
Proof.
  intros Hm. cbn zeta. unfold shr. destruct n as [|p|p].
  - cbn [fst snd Z.max]. change (Z.max 0 0) with 0. rewrite Z.add_0_r.
    change (2 ^ 0) with 1. rewrite Z.div_1_r, Z.mod_1_r, shr_record_of_loc_m.
    rewrite loc_of_shr_record_of_loc. tauto.
  - cbn [fst snd]. replace (Z.max 0 (Zpos p)) with (Zpos p) by lia.
    pose proof (iter_pos_shiftedBy p (shr_record_of_loc m l)) as [Hd Hx].
    { rewrite shr_record_of_loc_m. exact Hm. }
    rewrite shr_record_of_loc_m in Hd, Hx. rewrite shr_record_of_loc_exact in Hx.
    rewrite loc_of_shr_record_exact. split; [reflexivity|]. split; [exact Hd|].
    split; [exact Hx|lia].
  - cbn [fst snd]. replace (Z.max 0 (Zneg p)) with 0 by lia. rewrite Z.add_0_r.
    change (2 ^ 0) with 1. rewrite Z.div_1_r, Z.mod_1_r, shr_record_of_loc_m.
    rewrite loc_of_shr_record_of_loc. tauto.
Qed.

Lemma fexp_binary64 (e : Z) : fexp prec emax e = Z.max (e - 53) (-1074).
Proof. reflexivity. Qed.

Lemma round_nearest_even_exact (m : Z) : round_nearest_even m loc_Exact = m.
Proof. reflexivity. Qed.

Lemma round_nearest_even_bounds (m : Z) (l : location) :
  m <= round_nearest_even m l <= m + 1
  /\ (l = loc_Exact -> round_nearest_even m l = m).
Proof.
  destruct l as [|[| |]]; cbn [round_nearest_even].
  - split; [lia|reflexivity].
  - destruct (Z.even m); (split; [lia|discriminate]).
  - split; [lia|discriminate].
  - split; [lia|discriminate].
Qed.

(** A mantissa that is [m * 2 ^ n] at exponent [e - n], for a canonical
    [(m, e)], rounds to [(m, e)]: nothing is lost. *)
Lemma binary_round_aux_exact (s : bool) (m p : positive) (e n : Z) :
  0 <= n ->
  fexp prec emax (Zpos (digits2_pos m) + e) = e ->
  e <= emax - prec ->
  Zpos p = Zpos m * 2 ^ n ->
  binary_round_aux prec emax s (Zpos p) (e - n) loc_Exact = S754_finite s m e.
Proof.
  intros Hn Hcan Hmax Hp.
  assert (0 < 2 ^ n) as Hpow by (apply Z.pow_pos_nonneg; lia).
  unfold binary_round_aux, shr_fexp. cbn [Zdigits2].
  rewrite (digits2_shift m n p Hn Hp).
  replace (Zpos (digits2_pos m) + n + (e - n)) with (Zpos (digits2_pos m) + e) by lia.
  rewrite Hcan. replace (e - (e - n)) with n by lia.
  pose proof (shr_spec (Zpos p) loc_Exact (e - n) n ltac:(lia)) as (He1 & Hm1 & Hl1 & _).
  cbn zeta in He1, Hm1, Hl1.
  destruct (shr (shr_record_of_loc (Zpos p) loc_Exact) (e - n) n) as [mrs1 e1].
  cbn [fst snd] in He1, Hm1, Hl1.
  replace (Z.max 0 n) with n in * by lia.
  assert (e1 = e) as -> by lia.
  assert (shr_m mrs1 = Zpos m) as Hm1'.
  { rewrite Hm1, Hp. apply Z.div_mul. lia. }
  assert (loc_of_shr_record mrs1 = loc_Exact) as Hl1'.
  { apply Hl1. split; [reflexivity|]. rewrite Hp. apply Z.mod_mul. lia. }
  rewrite Hm1', Hl1', round_nearest_even_exact. cbn [Zdigits2].
  rewrite Hcan, Z.sub_diag. cbn [shr shr_record_of_loc shr_m].
  apply Z.leb_le in Hmax. rewrite Hmax. reflexivity.
Qed.

(** One [shr_fexp] keeps a mantissa under a bound [b * 2 ^ k] that is a
    multiple of the unit in the last place. *)
Lemma shr_fexp_upper (m e : Z) (l : location) (b : positive) (k : Z) :
  0 <= m -> e <= k ->
  m <= Zpos b * 2 ^ (k - e) ->
  (l <> loc_Exact -> m < Zpos b * 2 ^ (k - e)) ->
  Zpos (digits2_pos b) <= 53 -> -1074 <= k ->
  let res := shr_fexp prec emax m e l in
  snd res <= k
  /\ 0 <= shr_m (fst res) <= Zpos b * 2 ^ (k - snd res)
  /\ (loc_of_shr_record (fst res) <> loc_Exact ->
      shr_m (fst res) < Zpos b * 2 ^ (k - snd res)).
Proof.
  intros Hm Hek Hle Hlt Hb Hk. cbn zeta. unfold shr_fexp.
  set (n := fexp prec emax (Zdigits2 m + e) - e).
  pose proof (shr_spec m l e n Hm) as (He1 & Hm1 & Hl1 & _). cbn zeta in He1, Hm1, Hl1.
  destruct (shr (shr_record_of_loc m l) e n) as [mrs1 e1]. cbn [fst snd] in *.
  assert (0 < 2 ^ (k - e)) as Hpe by (apply Z.pow_pos_nonneg; lia).
  assert (fexp prec emax (Zdigits2 m + e) <= k) as Hfk.
  { rewrite fexp_binary64. apply Z.max_lub; [|lia].
    destruct m as [|pm|pm]; cbn [Zdigits2]; [lia| |lia].
    pose proof (digits2_bounds pm) as [Hlo _].
    pose proof (digits2_bounds b) as [_ Hhi].
    assert (Zpos (digits2_pos pm) - 1 < Zpos (digits2_pos b) + (k - e)); [|lia].
    apply (Z.pow_lt_mono_r_iff 2); [lia|lia|].
    rewrite Z.pow_add_r by lia. nia. }
  assert (0 <= Z.max 0 n <= k - e) as Hn by (unfold n; lia).
  set (j := Z.max 0 n) in *.
  assert (0 < 2 ^ j) as Hpj by (apply Z.pow_pos_nonneg; lia).
  assert (Zpos b * 2 ^ (k - e) = Zpos b * 2 ^ (k - e1) * 2 ^ j) as Hsplit.
  { rewrite <- Z.mul_assoc, <- Z.pow_add_r by lia. do 2 f_equal. lia. }
  assert (0 < 2 ^ (k - e1)) as Hpe1 by (apply Z.pow_pos_nonneg; lia).
  split; [lia|]. rewrite Hm1. split.
  - split; [apply Z.div_pos; lia|].
    apply Z.div_le_upper_bound; [lia|]. rewrite Hsplit in Hle. lia.
  - intros Hinex. apply Z.div_lt_upper_bound; [lia|].
    destruct (Z.eq_dec (m mod 2 ^ j) 0) as [Hmod|Hmod].
    + assert (l <> loc_Exact) as Hl by (intros ->; apply Hinex, Hl1; auto).
      specialize (Hlt Hl). rewrite Hsplit in Hlt. lia.
    + rewrite Hsplit in Hle.
      destruct (Z.eq_dec m (Zpos b * 2 ^ (k - e1) * 2 ^ j)) as [Heq|Hne]; [|lia].
      exfalso. apply Hmod. rewrite Heq. apply Z.mod_mul. lia.
Qed.

(** Rounding keeps a value under a bound [b * 2 ^ k] that is a float. *)
Lemma binary_round_aux_upper (s : bool) (mx ex : Z) (lx : location) (b : positive) (k : Z) :
  0 <= mx -> ex <= k ->
  mx <= Zpos b * 2 ^ (k - ex) ->
  (lx <> loc_Exact -> mx < Zpos b * 2 ^ (k - ex)) ->
  Zpos (digits2_pos b) <= 53 -> -1074 <= k <= 971 ->
  binary_round_aux prec emax s mx ex lx = S754_zero s
  \/ exists m e,
       binary_round_aux prec emax s mx ex lx = S754_finite s m e
       /\ e <= k /\ Zpos m <= Zpos b * 2 ^ (k - e).
Proof.
  intros Hm Hek Hle Hlt Hb Hk. unfold binary_round_aux.
  pose proof (shr_fexp_upper mx ex lx b k Hm Hek Hle Hlt Hb ltac:(lia))
    as (He1 & [Hm1 Hle1] & Hlt1). cbn zeta in He1, Hm1, Hle1, Hlt1.
  destruct (shr_fexp prec emax mx ex lx) as [mrs1 e1]. cbn [fst snd] in *.
  pose proof (round_nearest_even_bounds (shr_m mrs1) (loc_of_shr_record mrs1))
    as [[Hr1 Hr2] Hr3].
  set (m2 := round_nearest_even (shr_m mrs1) (loc_of_shr_record mrs1)) in *.
  assert (m2 <= Zpos b * 2 ^ (k - e1)) as Hle2.
  { destruct (loc_of_shr_record mrs1) eqn:Hloc.
    - rewrite Hr3 by reflexivity. exact Hle1.
    - assert (shr_m mrs1 < Zpos b * 2 ^ (k - e1)) by (apply Hlt1; discriminate). lia. }
  pose proof (shr_fexp_upper m2 e1 loc_Exact b k ltac:(lia) He1 Hle2
                ltac:(intros H; exfalso; apply H; reflexivity) Hb ltac:(lia))
    as (He3 & [Hm3 Hle3] & _). cbn zeta in He3, Hm3, Hle3.
  destruct (shr_fexp prec emax m2 e1 loc_Exact) as [mrs3 e3]. cbn [fst snd] in *.
  destruct (shr_m mrs3) as [|m3|m3] eqn:Hm3e; [left; reflexivity| |lia].
  right. exists m3, e3.
  assert ((e3 <=? emax - prec) = true) as -> by (apply Z.leb_le; unfold emax, prec; lia).
  split; [reflexivity|]. split; [exact He3|exact Hle3].
Qed.

(** *** The order of the floats, on mantissas and exponents *)

Lemma valid_finite (s : bool) (m : positive) (e : Z) :
  valid_binary (S754_finite s m e) = true ->
  fexp prec emax (Zpos (digits2_pos m) + e) = e /\ e <= 971.
Proof.
  cbn [SpecFloat.valid_binary]. unfold bounded, canonical_mantissa.
  intros H. apply andb_true_iff in H as [Hc He].
  apply Z.eqb_eq in Hc. apply Z.leb_le in He. split; [exact Hc|exact He].
Qed.

Lemma canonical_digits (m : positive) (e : Z) :
  fexp prec emax (Zpos (digits2_pos m) + e) = e ->
  Zpos (digits2_pos m) <= 53 /\ -1074 <= e
  /\ (-1074 < e -> Zpos (digits2_pos m) = 53).
Proof. rewrite fexp_binary64. lia. Qed.

Lemma SFleb_of_le (m1 m2 : positive) (e1 e2 : Z) :
  e1 <= e2 -> Zpos m1 <= Zpos m2 * 2 ^ (e2 - e1) ->
  SFleb (S754_finite false m1 e1) (S754_finite false m2 e2) = true.
Proof.
  intros He Hm. unfold SFleb, SFcompare.
  destruct (Z.compare_spec e1 e2) as [Heq|Hlt|Hgt]; [|reflexivity|lia].
  subst e2. rewrite Z.sub_diag, Z.mul_1_r in Hm.
  change (Pos.compare_cont Eq m1 m2) with (Pos.compare m1 m2).
  change (Zpos m1 <= Zpos m2) with (m1 <= m2)%positive in Hm.
  destruct (Pos.compare_spec m1 m2); [reflexivity|reflexivity|lia].
Qed.

Lemma le_of_SFleb (m1 m2 : positive) (e1 e2 : Z) :
  fexp prec emax (Zpos (digits2_pos m1) + e1) = e1 ->
  fexp prec emax (Zpos (digits2_pos m2) + e2) = e2 ->
  SFleb (S754_finite false m1 e1) (S754_finite false m2 e2) = true ->
  e1 <= e2 /\ Zpos m1 <= Zpos m2 * 2 ^ (e2 - e1).
Proof.
  intros Hc1 Hc2. unfold SFleb, SFcompare.
  apply canonical_digits in Hc1 as (Hd1 & He1 & _).
  apply canonical_digits in Hc2 as (_ & _ & Hd2).
  destruct (Z.compare_spec e1 e2) as [Heq|Hlt|Hgt]; [| |discriminate].
  - subst e2. change (Pos.compare_cont Eq m1 m2) with (Pos.compare m1 m2).
    rewrite Z.sub_diag, Z.mul_1_r.
    destruct (Pos.compare_spec m1 m2); try discriminate; intros _; split; lia.
  - intros _. split; [lia|].
    pose proof (digits2_bounds m1) as [_ Hhi1].
    pose proof (digits2_bounds m2) as [Hlo2 _].
    rewrite (Hd2 ltac:(lia)) in Hlo2.
    assert (2 ^ Zpos (digits2_pos m1) <= 2 ^ 53) by (apply Z.pow_le_mono_r; lia).
    assert (2 ^ 1 <= 2 ^ (e2 - e1)) by (apply Z.pow_le_mono_r; lia).
    change (2 ^ (53 - 1)) with 4503599627370496 in Hlo2.
    change (2 ^ 53) with 9007199254740992 in *. change (2 ^ 1) with 2 in *. nia.
Qed.

(** *** Quotient, complement to one and product by a hundred *)

(** The quotient of a float by one that is not smaller is at most one. *)
Lemma SFdiv_le_one (m1 m2 : positive) (e1 e2 : Z) :
  e1 <= e2 -> Zpos m1 <= Zpos m2 * 2 ^ (e2 - e1) ->
  SFdiv prec emax (S754_finite false m1 e1) (S754_finite false m2 e2) = S754_zero false
  \/ exists m e,
       SFdiv prec emax (S754_finite false m1 e1) (S754_finite false m2 e2)
         = S754_finite false m e
       /\ e <= 0 /\ Zpos m <= 2 ^ (- e).
Proof.
  intros He Hm. cbn [SFdiv xorb]. unfold SFdiv_core_binary.
  set (e' := Z.min (fexp prec emax (Zdigits2 (Zpos m1) + e1 - (Zdigits2 (Zpos m2) + e2)))
                   (e1 - e2)).
  assert (e' <= e1 - e2) as He' by (unfold e'; lia).
  set (s := e1 - e2 - e').
  assert (0 <= s) as Hs by (unfold s; lia).
  assert (0 < 2 ^ s) as Hps by (apply Z.pow_pos_nonneg; lia).
  assert (0 < 2 ^ (e2 - e1)) as Hpe by (apply Z.pow_pos_nonneg; lia).
  set (m' := match s with Zpos _ => Z.shiftl (Zpos m1) s | Z0 => Zpos m1 | Zneg _ => 0 end).
  assert (m' = Zpos m1 * 2 ^ s) as Hm'.
  { unfold m'. destruct s as [|ps|ps] eqn:Es; [cbn; lia| |lia].
    rewrite Z.shiftl_mul_pow2 by lia. reflexivity. }
  assert (m' <= Zpos m2 * 2 ^ (- e')) as Hbound.
  { rewrite Hm'. replace (- e') with ((e2 - e1) + s) by (unfold s; lia).
    rewrite Z.pow_add_r by lia. nia. }
  assert (0 < 2 ^ (- e')) as Hpe' by (apply Z.pow_pos_nonneg; lia).
  pose proof (Z.div_eucl_eq m' (Zpos m2) ltac:(lia)) as Heucl.
  pose proof (Z.mod_pos_bound m' (Zpos m2) ltac:(lia)) as Hrem.
  unfold Z.modulo in Hrem.
  destruct (Z.div_eucl m' (Zpos m2)) as [q r].
  assert (0 <= q) as Hq by nia.
  assert (q <= 2 ^ (- e')) as Hq1 by nia.
  assert (new_location (Zpos m2) r <> loc_Exact -> q < 2 ^ (- e')) as Hq2.
  { intros Hloc. assert (r <> 0) as Hr.
    { intros ->. apply Hloc. unfold new_location, new_location_even, new_location_odd.
      destruct (Z.even (Zpos m2)); reflexivity. }
    nia. }
  destruct (binary_round_aux_upper false q e' (new_location (Zpos m2) r) 1 0
              Hq ltac:(lia) ltac:(rewrite Z.sub_0_l; lia)
              ltac:(rewrite Z.sub_0_l; intros H; specialize (Hq2 H); lia)
              ltac:(cbn; lia) ltac:(lia))
    as [Hz|(m & e & Hf & Hle & Hmle)].
  - left. exact Hz.
  - right. exists m, e. rewrite Z.sub_0_l in Hmle. split; [exact Hf|]. split; lia.
Qed.

Lemma Pos_iter_xO (m d : positive) : Zpos (Pos.iter xO m d) = Zpos m * 2 ^ Zpos d.
Proof.
  induction d as [|d IH] using Pos.peano_ind.
  - cbn [Pos.iter]. rewrite Pos2Z.inj_xO. change (2 ^ 1) with 2. lia.
  - rewrite Pos.iter_succ, Pos2Z.inj_xO, IH, Pos2Z.inj_succ, Z.pow_succ_r by lia. lia.
Qed.

Lemma shl_align_spec (mx : positive) (ex ex' : Z) :
  snd (shl_align mx ex ex') = Z.min ex ex'
  /\ Zpos (fst (shl_align mx ex ex')) = Zpos mx * 2 ^ (ex - Z.min ex ex').
Proof.
  unfold shl_align. destruct (ex' - ex) as [|d|d] eqn:Hd; cbn [fst snd].
  - replace (Z.min ex ex') with ex by lia. rewrite Z.sub_diag. split; lia.
  - replace (Z.min ex ex') with ex by lia. rewrite Z.sub_diag. split; lia.
  - replace (Z.min ex ex') with ex' by lia. split; [reflexivity|].
    rewrite Pos_iter_xO. do 2 f_equal. lia.
Qed.

(** The complement to one of a float that is at most one is at most one. *)
Lemma SFsub_one_le (m : positive) (e : Z) :
  e <= 0 -> Zpos m <= 2 ^ (- e) ->
  SFsub prec emax (S754_finite false 4503599627370496 (-52)) (S754_finite false m e)
    = S754_zero false
  \/ exists m' e',
       SFsub prec emax (S754_finite false 4503599627370496 (-52)) (S754_finite false m e)
         = S754_finite false m' e'
       /\ e' <= 0 /\ Zpos m' <= 2 ^ (- e').
Proof.
  intros He Hm. cbn [SFsub cond_Zopp].
  set (ez := Z.min (-52) e).
  pose proof (shl_align_spec 4503599627370496 (-52) ez) as [_ H1].
  pose proof (shl_align_spec m e ez) as [_ H2].
  replace (Z.min (-52) ez) with ez in H1 by (unfold ez; lia).
  replace (Z.min e ez) with ez in H2 by (unfold ez; lia).
  rewrite H1, H2.
  assert (ez <= -52 /\ ez <= e) as [Hz1 Hz2] by (unfold ez; lia).
  assert (0 < 2 ^ (e - ez)) by (apply Z.pow_pos_nonneg; lia).
  assert (4503599627370496 * 2 ^ (-52 - ez) = 2 ^ (- ez)) as ->.
  { change 4503599627370496 with (2 ^ 52). rewrite <- Z.pow_add_r by lia. f_equal. lia. }
  assert (Zpos m * 2 ^ (e - ez) <= 2 ^ (- ez)) as Hle.
  { replace (- ez) with (- e + (e - ez)) by lia. rewrite Z.pow_add_r by lia. nia. }
  destruct (2 ^ (- ez) - Zpos m * 2 ^ (e - ez)) as [|p|p] eqn:HM; [left; reflexivity| |lia].
  cbn [binary_normalize]. unfold binary_round.
  pose proof (shl_align_spec p ez (fexp prec emax (Zpos (digits2_pos p) + ez))) as [Hs Hf].
  destruct (shl_align p ez (fexp prec emax (Zpos (digits2_pos p) + ez))) as [mz ez2].
  cbn [fst snd] in Hs, Hf.
  assert (ez2 <= ez) as Hz3 by lia.
  rewrite <- Hs in Hf.
  assert (0 < 2 ^ (ez - ez2)) by (apply Z.pow_pos_nonneg; lia).
  assert (Zpos mz <= 2 ^ (- ez2)) as Hmz.
  { rewrite Hf. replace (- ez2) with (- ez + (ez - ez2)) by lia.
    rewrite Z.pow_add_r by lia. nia. }
  destruct (binary_round_aux_upper false (Zpos mz) ez2 loc_Exact 1 0
              ltac:(lia) ltac:(lia) ltac:(rewrite Z.sub_0_l; lia)
              ltac:(intros H'; exfalso; apply H'; reflexivity)
              ltac:(cbn; lia) ltac:(lia))
    as [Hz|(m' & e' & Hr & He' & Hm')].
  - left. exact Hz.
  - right. exists m', e'. rewrite Z.sub_0_l in Hm'. split; [exact Hr|]. split; lia.
Qed.

(** A hundred times a float that is at most one is at most a hundred. *)
Lemma SFmul_hundred_le (m : positive) (e : Z) :
  e <= 0 -> Zpos m <= 2 ^ (- e) ->
  SFmul prec emax (S754_finite false m e) (S754_finite false 7036874417766400 (-46))
    = S754_zero false
  \/ exists m' e',
       SFmul prec emax (S754_finite false m e) (S754_finite false 7036874417766400 (-46))
         = S754_finite false m' e'
       /\ e' <= -46 /\ Zpos m' <= 7036874417766400 * 2 ^ (-46 - e').
Proof.
  intros He Hm. cbn [SFmul xorb].
  apply (binary_round_aux_upper false (Zpos (m * 7036874417766400)) (e + -46) loc_Exact
           7036874417766400 (-46)); try lia.
  - replace (-46 - (e + -46)) with (- e) by lia. rewrite Pos2Z.inj_mul. nia.
  - intros H. exfalso. apply H. reflexivity.
  - cbn. lia.
Qed.

End Rounding.

(** *** Facts on the primitive floats *)

Lemma Prim2SF_zero : Prim2SF 0 = S754_zero false.
Proof. vm_compute. reflexivity. Qed.

Lemma Prim2SF_one : Prim2SF 1 = S754_finite false 4503599627370496 (-52).
Proof. vm_compute. reflexivity. Qed.

Lemma Prim2SF_hundred : Prim2SF 100 = S754_finite false 7036874417766400 (-46).
Proof. vm_compute. reflexivity. Qed.

Lemma Prim2SF_infinity : Prim2SF infinity = S754_infinity false.
Proof. vm_compute. reflexivity. Qed.

(** For deltas with [0 <= deltaIdle <= deltaTotal] and
    [0 < deltaTotal < infinity], the usage is between 0 and 100. *)
Lemma usageOf_bounds (deltaIdle deltaTotal : float) :
  (0 <=? deltaIdle)%float = true ->
  (deltaIdle <=? deltaTotal)%float = true ->
  (0 <? deltaTotal)%float = true ->
  (deltaTotal <? infinity)%float = true ->
  (0 <=? usageOf deltaIdle deltaTotal)%float = true
  /\ (usageOf deltaIdle deltaTotal <=? 100)%float = true.
Proof.
  rewrite !FloatAxioms.leb_spec, !FloatAxioms.ltb_spec. unfold usageOf.
  rewrite mul_spec, sub_spec, div_spec.
  rewrite Prim2SF_zero, Prim2SF_one, Prim2SF_hundred, Prim2SF_infinity.
  pose proof (Prim2SF_valid deltaIdle) as Hv1.
  pose proof (Prim2SF_valid deltaTotal) as Hv2.
  unfold SF64mul, SF64sub, SF64div.
  intros H0 Hle Hpos Hfin.
  destruct (Prim2SF deltaIdle) as [s1|s1| |s1 m1 e1];
    destruct (Prim2SF deltaTotal) as [s2|s2| |s2 m2 e2];
    try discriminate; try (destruct s2; discriminate);
    try (destruct s1; discriminate).
  - (* the idle delta is zero *)
    destruct s2; [discriminate|].
    destruct s1; vm_compute; split; reflexivity.
  - destruct s1; [discriminate|]. destruct s2; [discriminate|].
    apply valid_finite in Hv1 as [Hc1 _]. apply valid_finite in Hv2 as [Hc2 _].
    destruct (le_of_SFleb m1 m2 e1 e2 Hc1 Hc2 Hle) as [He Hm].
    destruct (SFdiv_le_one m1 m2 e1 e2 He Hm) as [->|(mq & eq & -> & Heq & Hmq)].
    + vm_compute. split; reflexivity.
    + destruct (SFsub_one_le mq eq Heq Hmq) as [->|(mu & eu & -> & Heu & Hmu)].
      * vm_compute. split; reflexivity.
      * destruct (SFmul_hundred_le mu eu Heu Hmu) as [->|(mp & ep & -> & Hep & Hmp)].
        -- vm_compute. split; reflexivity.
        -- split; [reflexivity|].
           apply SFleb_of_le; [exact Hep|exact Hmp].
Qed.

Section Integers.
Local Open Scope Z_scope.

Lemma digits2_pos_le_53 (N : positive) :
  Zpos N < 2 ^ 53 -> 1 <= Zpos (digits2_pos N) <= 53.
Proof. intros H. split; [lia|]. apply digits2_le; [lia|exact H]. Qed.

Lemma SFofPos_mantissa (N : positive) :
  Zpos N < 2 ^ 53 ->
  Zpos (Z.to_pos (Zpos N * 2 ^ (53 - Zpos (digits2_pos N))))
    = Zpos N * 2 ^ (53 - Zpos (digits2_pos N)).
Proof.
  intros H. pose proof (digits2_pos_le_53 N H).
  assert (0 < 2 ^ (53 - Zpos (digits2_pos N))) by (apply Z.pow_pos_nonneg; lia).
  rewrite Z2Pos.id; [reflexivity|nia].
Qed.

Lemma SFofPos_canonical (N : positive) :
  Zpos N < 2 ^ 53 ->
  fexp prec emax
    (Zpos (digits2_pos (Z.to_pos (Zpos N * 2 ^ (53 - Zpos (digits2_pos N)))))
     + (Zpos (digits2_pos N) - 53))
  = Zpos (digits2_pos N) - 53.
Proof.
  intros H. pose proof (digits2_pos_le_53 N H).
  rewrite (digits2_shift N (53 - Zpos (digits2_pos N))); [|lia|apply SFofPos_mantissa, H].
  rewrite fexp_binary64. lia.
Qed.

(** A mantissa [p] at an exponent [e <= 0] whose value is the integer [N]
    rounds to the float of [N]. *)
Lemma binary_round_integer (s : bool) (N p : positive) (e : Z) :
  Zpos N < 2 ^ 53 -> e <= 0 -> Zpos p = Zpos N * 2 ^ (- e) ->
  binary_round prec emax s p e = SFofPos s N.
Proof.
  intros HN He Hp. pose proof (digits2_pos_le_53 N HN) as Hd.
  unfold binary_round.
  rewrite (digits2_shift N (- e) p ltac:(lia) Hp).
  replace (Zpos (digits2_pos N) + - e + e) with (Zpos (digits2_pos N)) by lia.
  rewrite fexp_binary64.
  replace (Z.max (Zpos (digits2_pos N) - 53) (-1074)) with (Zpos (digits2_pos N) - 53) by lia.
  pose proof (shl_align_spec p e (Zpos (digits2_pos N) - 53)) as [Hs Hf].
  destruct (shl_align p e (Zpos (digits2_pos N) - 53)) as [mz ez]. cbn [fst snd] in Hs, Hf.
  rewrite <- Hs in Hf.
  unfold SFofPos.
  replace ez with ((Zpos (digits2_pos N) - 53) - (Zpos (digits2_pos N) - 53 - ez)) at 1 by lia.
  apply binary_round_aux_exact.
  - lia.
  - apply SFofPos_canonical, HN.
  - unfold emax, prec. lia.
  - rewrite SFofPos_mantissa by exact HN. rewrite Hf, Hp.
    rewrite <- !Z.mul_assoc, <- !Z.pow_add_r by lia. do 2 f_equal. lia.
Qed.

Lemma SFofZ_valid (n : Z) : 0 <= n < 2 ^ 53 -> valid_binary (SFofZ n) = true.
Proof.
  intros Hn. destruct n as [|N|N]; [reflexivity| |lia].
  cbn [SFofZ]. unfold SFofPos. cbn [SpecFloat.valid_binary].
  unfold bounded, canonical_mantissa.
  rewrite (SFofPos_canonical N ltac:(lia)), Z.eqb_refl.
  pose proof (digits2_pos_le_53 N ltac:(lia)).
  apply Z.leb_le. unfold emax, prec. lia.
Qed.

Lemma Prim2SF_float_of_Z (n : Z) :
  0 <= n < 2 ^ 53 -> Prim2SF (float_of_Z n) = SFofZ n.
Proof.
  intros Hn. unfold float_of_Z.
  assert (binary_normalize prec emax n 0 false = SFofZ n) as ->.
  { destruct n as [|N|N]; [reflexivity| |lia].
    cbn [binary_normalize SFofZ]. apply binary_round_integer; [lia|lia|]. cbn. lia. }
  apply Prim2SF_SF2Prim, SFofZ_valid, Hn.
Qed.

(** The aligned mantissa of the float of [N], at an exponent under its
    own. *)
Lemma SFofPos_aligned (N : positive) (ez : Z) :
  Zpos N < 2 ^ 53 -> ez <= Zpos (digits2_pos N) - 53 ->
  Zpos (fst (shl_align (Z.to_pos (Zpos N * 2 ^ (53 - Zpos (digits2_pos N))))
                       (Zpos (digits2_pos N) - 53) ez))
  = Zpos N * 2 ^ (- ez).
Proof.
  intros HN Hez. pose proof (digits2_pos_le_53 N HN) as Hd.
  pose proof (shl_align_spec (Z.to_pos (Zpos N * 2 ^ (53 - Zpos (digits2_pos N))))
                (Zpos (digits2_pos N) - 53) ez) as [_ Hf].
  rewrite Hf, SFofPos_mantissa by exact HN.
  replace (Z.min (Zpos (digits2_pos N) - 53) ez) with ez by lia.
  rewrite <- Z.mul_assoc, <- Z.pow_add_r by lia. do 2 f_equal. lia.
Qed.

Lemma float_of_Z_add (a b : Z) :
  0 <= a -> 0 <= b -> a + b < 2 ^ 53 ->
  (float_of_Z a + float_of_Z b)%float = float_of_Z (a + b).
Proof.
  intros Ha Hb Hab. apply Prim2SF_inj.
  rewrite add_spec, !Prim2SF_float_of_Z by lia. unfold SF64add.
  destruct a as [|A|A]; [|destruct b as [|B|B]|]; try lia.
  - destruct b as [|B|B]; [reflexivity|reflexivity|lia].
  - reflexivity.
  - cbn [SFofZ Z.add]. unfold SFofPos at 1 2. cbn [SFadd cond_Zopp].
    set (ez := Z.min (Zpos (digits2_pos A) - 53) (Zpos (digits2_pos B) - 53)).
    rewrite (SFofPos_aligned A ez), (SFofPos_aligned B ez) by (unfold ez; lia).
    pose proof (digits2_pos_le_53 A ltac:(lia)). pose proof (digits2_pos_le_53 B ltac:(lia)).
    assert (0 < 2 ^ (- ez)) by (apply Z.pow_pos_nonneg; unfold ez; lia).
    destruct (Zpos A * 2 ^ (- ez) + Zpos B * 2 ^ (- ez)) as [|p|p] eqn:Hsum; try nia.
    cbn [binary_normalize]. apply binary_round_integer; [lia|unfold ez; lia|].
    rewrite <- Hsum, Pos2Z.inj_add. ring.
Qed.

Lemma float_sub_0_r (x : float) : (x - 0)%float = x.
Proof.
  apply Prim2SF_inj. rewrite sub_spec, Prim2SF_zero. unfold SF64sub.
  destruct (Prim2SF x) as [[|]|[|]| |s m e]; reflexivity.
Qed.

Lemma float_of_Z_sub (a b : Z) :
  0 <= b <= a -> a < 2 ^ 53 ->
  (float_of_Z a - float_of_Z b)%float = float_of_Z (a - b).
Proof.
  intros Hab Ha.
  destruct b as [|B|B]; [|destruct a as [|A|A]|]; try lia.
  - rewrite Z.sub_0_r. apply float_sub_0_r.
  - apply Prim2SF_inj. rewrite sub_spec, !Prim2SF_float_of_Z by lia. unfold SF64sub.
    cbn [SFofZ]. unfold SFofPos at 1 2. cbn [SFsub cond_Zopp].
    set (ez := Z.min (Zpos (digits2_pos A) - 53) (Zpos (digits2_pos B) - 53)).
    rewrite (SFofPos_aligned A ez), (SFofPos_aligned B ez) by (unfold ez; lia).
    pose proof (digits2_pos_le_53 A ltac:(lia)). pose proof (digits2_pos_le_53 B ltac:(lia)).
    assert (0 < 2 ^ (- ez)) by (apply Z.pow_pos_nonneg; unfold ez; lia).
    destruct (Zpos A * 2 ^ (- ez) - Zpos B * 2 ^ (- ez)) as [|p|p] eqn:Hdiff; try nia.
    + assert (Zpos A - Zpos B = 0) as -> by nia. reflexivity.
    + destruct (Zpos A - Zpos B) as [|D|D] eqn:HD; try nia.
      cbn [binary_normalize SFofZ]. apply binary_round_integer; [lia|unfold ez; lia|].
      rewrite <- Hdiff, <- HD. ring.
Qed.

Lemma digits2_mono (A B : positive) :
  Zpos A <= Zpos B -> Zpos (digits2_pos A) <= Zpos (digits2_pos B).
Proof.
  intros H. pose proof (digits2_bounds B) as [_ Hhi]. apply digits2_le; lia.
Qed.

Lemma float_of_Z_le (a b : Z) :
  0 <= a <= b -> b < 2 ^ 53 -> (float_of_Z a <=? float_of_Z b)%float = true.
Proof.
  intros Hab Hb. rewrite FloatAxioms.leb_spec, !Prim2SF_float_of_Z by lia.
  destruct a as [|A|A]; [|destruct b as [|B|B]|]; try lia.
  - destruct b as [|B|B]; [reflexivity|reflexivity|lia].
  - cbn [SFofZ]. unfold SFofPos.
    pose proof (digits2_mono A B ltac:(lia)) as Hd.
    pose proof (digits2_pos_le_53 A ltac:(lia)). pose proof (digits2_pos_le_53 B ltac:(lia)).
    apply SFleb_of_le; [lia|].
    rewrite !SFofPos_mantissa by lia.
    rewrite <- Z.mul_assoc, <- Z.pow_add_r by lia.
    replace (53 - Zpos (digits2_pos B) + (Zpos (digits2_pos B) - 53 - (Zpos (digits2_pos A) - 53)))
      with (53 - Zpos (digits2_pos A)) by lia.
    assert (0 < 2 ^ (53 - Zpos (digits2_pos A))) by (apply Z.pow_pos_nonneg; lia).
    nia.
Qed.

Lemma float_of_Z_pos (b : Z) :
  0 < b < 2 ^ 53 ->
  (0 <? float_of_Z b)%float = true
  /\ (float_of_Z b <? infinity)%float = true
  /\ (float_of_Z b =? 0)%float = false.
Proof.
  intros Hb. rewrite !FloatAxioms.ltb_spec, FloatAxioms.eqb_spec, Prim2SF_float_of_Z by lia.
  rewrite Prim2SF_zero, Prim2SF_infinity.
  destruct b as [|B|B]; try lia. repeat split.
Qed.

Lemma float_of_Z_0 : float_of_Z 0 = 0%float.
Proof. vm_compute. reflexivity. Qed.

Lemma sumZ_nonneg (cs : list Z) : Forall (fun c => 0 <= c) cs -> 0 <= sumZ cs.
Proof.
  induction 1 as [|c cs Hc _ IH]; cbn [sumZ fold_right]; [lia|].
  unfold sumZ in IH. lia.
Qed.

(** The float sum of integer counters is the float of their sum, as long as
    the sum stays below [2 ^ 53]. *)
Lemma fold_add_counters (cs : list Z) (acc : Z) :
  Forall (fun c => 0 <= c) cs -> 0 <= acc -> acc + sumZ cs < 2 ^ 53 ->
  fold_left PrimFloat.add (counters cs) (float_of_Z acc) = float_of_Z (acc + sumZ cs).
Proof.
  intros Hcs. revert acc.
  induction Hcs as [|c cs Hc Hcs IH]; intros acc Hacc Hsum.
  - cbn. rewrite Z.add_0_r. reflexivity.
  - pose proof (sumZ_nonneg cs Hcs) as Hnn.
    cbn [counters map fold_left sumZ fold_right] in *. fold (sumZ cs) in *.
    fold (counters cs).
    rewrite float_of_Z_add by lia. rewrite IH by lia. f_equal. lia.
Qed.

End Integers.

(** *** Quotients that are exact *)

Lemma Prim2SF_1024 : Prim2SF 1024 = S754_finite false 4503599627370496 (-42).
Proof. vm_compute. reflexivity. Qed.

(** A finite float that is not zero, divided by itself, is one. *)
Lemma float_div_diag (x : float) (s : bool) (m : positive) (e : Z) :
  Prim2SF x = S754_finite s m e -> (x / x)%float = 1%float.
Proof.
  intros Hx. apply Prim2SF_inj. rewrite div_spec, Hx, Prim2SF_one.
  unfold SF64div. cbn [SFdiv]. unfold SFdiv_core_binary.
  rewrite !Z.sub_diag.
  change (Z.min (fexp prec emax 0) 0) with (-53)%Z.
  change (0 - -53)%Z with 53%Z. cbv iota.
  rewrite Z.shiftl_mul_pow2 by lia.
  assert (IntDef.Z.div_eucl (Zpos m * 2 ^ 53) (Zpos m) = (2 ^ 53, 0)%Z) as ->.
  { pose proof (Z.div_mul (2 ^ 53) (Zpos m) ltac:(lia)) as Hq.
    pose proof (Z.mod_mul (2 ^ 53) (Zpos m) ltac:(lia)) as Hr.
    rewrite (Z.mul_comm (Zpos m)).
    change (fst (IntDef.Z.div_eucl (2 ^ 53 * Zpos m) (Zpos m)) = 2 ^ 53)%Z in Hq.
    change (snd (IntDef.Z.div_eucl (2 ^ 53 * Zpos m) (Zpos m)) = 0)%Z in Hr.
    destruct (IntDef.Z.div_eucl (2 ^ 53 * Zpos m) (Zpos m)) as [q r].
    cbn [fst snd] in Hq, Hr. subst q r. reflexivity. }
  assert (new_location (Zpos m) 0 = loc_Exact) as ->.
  { unfold new_location, new_location_even, new_location_odd.
    destruct (Z.even (Zpos m)); reflexivity. }
  destruct s; vm_compute; reflexivity.
Qed.

(** A float from one upwards, and finite, divided by 1024: the same mantissa,
    the exponent lowered by ten. *)
Lemma float_div_1024 (T : float) :
  (1 <=? T)%float = true -> (T <? infinity)%float = true ->
  exists m e, Prim2SF (T / 1024)%float = S754_finite false m e.
Proof.
  rewrite FloatAxioms.leb_spec, FloatAxioms.ltb_spec, div_spec, Prim2SF_one, Prim2SF_infinity, Prim2SF_1024.
  pose proof (Prim2SF_valid T) as Hv. unfold SF64div.
  destruct (Prim2SF T) as [s|s| |s m e]; try discriminate;
    try (destruct s; discriminate).
  destruct s; [discriminate|]. intros Hle _.
  apply valid_finite in Hv as [Hc Hmax].
  destruct (le_of_SFleb 4503599627370496 m (-52) e ltac:(reflexivity) Hc Hle) as [He _].
  pose proof (canonical_digits m e Hc) as (_ & _ & Hd). specialize (Hd ltac:(lia)).
  exists m, (e - 10)%Z.
  cbn [SFdiv xorb]. unfold SFdiv_core_binary. cbn [Zdigits2]. rewrite Hd.
  change (Zpos (digits2_pos 4503599627370496)) with 53%Z.
  replace (53 + e - (53 + -42))%Z with (e + 42)%Z by lia.
  rewrite fexp_binary64.
  replace (Z.min (Z.max (e + 42 - 53) (-1074)) (e - -42))%Z with (e - 11)%Z by lia.
  replace (e - -42 - (e - 11))%Z with 53%Z by lia.
  rewrite Z.shiftl_mul_pow2 by lia.
  pose proof (Z.div_eucl_eq (Zpos m * 2 ^ 53) 4503599627370496 ltac:(lia)) as Heucl.
  pose proof (Z.mod_pos_bound (Zpos m * 2 ^ 53) 4503599627370496 ltac:(lia)) as Hrem.
  unfold Z.modulo in Hrem.
  destruct (Z.div_eucl (Zpos m * 2 ^ 53) 4503599627370496) as [q r].
  assert (q = Zpos m~0 /\ r = 0)%Z as [-> ->].
  { change (2 ^ 53)%Z with 9007199254740992%Z in *. lia. }
  change (new_location 4503599627370496 0) with loc_Exact.
  replace (e - 11)%Z with ((e - 10) - 1)%Z by lia.
  apply binary_round_aux_exact.
  - lia.
  - rewrite Hd, fexp_binary64. lia.
  - unfold emax, prec. lia.
  - change (2 ^ 1)%Z with 2%Z. lia.
Qed.

(** ** Usage of a core, on integer counters *)

Section CounterFacts.
Local Open Scope Z_scope.

Lemma counters_length (cs : list Z) : length (counters cs) = length cs.
Proof. unfold counters. apply length_map. Qed.

Lemma counters_lookup (cs : list Z) (k : nat) :
  (k < length cs)%nat ->
  default 0%float (counters cs !! k) = float_of_Z (nth k cs 0).
Proof.
  revert k. induction cs as [|c cs IH]; intros k Hk; cbn in Hk; [lia|].
  destruct k as [|k]; [reflexivity|]. cbn. apply IH. lia.
Qed.

Lemma nth_le_sumZ (cs : list Z) (k : nat) :
  Forall (fun c => 0 <= c) cs -> 0 <= nth k cs 0 <= sumZ cs.
Proof.
  intros Hcs. revert k. induction Hcs as [|c cs Hc Hcs IH]; intros k.
  - destruct k; cbn; lia.
  - pose proof (sumZ_nonneg cs Hcs). unfold sumZ in *.
    destruct k as [|k]; cbn [nth fold_right]; [lia|]. specialize (IH k). lia.
Qed.

Lemma monotone_nonneg (c1 c2 : list Z) :
  Forall2 Z.le c1 c2 -> Forall (fun c => 0 <= c) c1 -> Forall (fun c => 0 <= c) c2.
Proof.
  induction 1 as [|x y c1 c2 Hxy _ IH]; intros Hc; [constructor|].
  inversion Hc; subst. constructor; [lia|auto].
Qed.

(** With every counter at least what it was, no counter grew more than the
    sum did. *)
Lemma monotone_nth_delta (c1 c2 : list Z) (k : nat) :
  Forall2 Z.le c1 c2 ->
  nth k c1 0 <= nth k c2 0
  /\ nth k c2 0 - nth k c1 0 <= sumZ c2 - sumZ c1.
Proof.
  intros Hmono. revert k.
  induction Hmono as [|x y c1 c2 Hxy Htail IH]; intros k.
  - destruct k; cbn; lia.
  - unfold sumZ in *. destruct k as [|k]; cbn [nth fold_right].
    + specialize (IH 0%nat). split; [lia|].
      assert (fold_right Z.add 0 c1 <= fold_right Z.add 0 c2); [|lia].
      clear -Htail. induction Htail; cbn; lia.
    + specialize (IH k). lia.
Qed.

(** The usage of a core whose counters are integers that did not decrease,
    with sums below [2 ^ 53] and a sum that grew. *)
Lemma coreUsage_counters (stat2 : gmap string (list float)) (core : string)
    (c1 c2 : list Z) :
  stat2 !! core = Some (counters c2) ->
  Forall2 Z.le c1 c2 ->
  Forall (fun c => 0 <= c) c1 ->
  (4 <= length c1)%nat ->
  sumZ c2 < 2 ^ 53 ->
  sumZ c1 < sumZ c2 ->
  let usage := usageOf (float_of_Z (nth 3 c2 0 - nth 3 c1 0))
                       (float_of_Z (sumZ c2 - sumZ c1)) in
  coreUsage stat2 (core, counters c1) = Return (Some usage)
  /\ (0 <=? usage)%float = true
  /\ (usage <=? 100)%float = true.
Proof.
  intros Hin Hmono Hnn1 Hlen Hbig Hgrow. cbn zeta.
  pose proof (Forall2_length _ _ _ Hmono) as Hlen2.
  pose proof (monotone_nonneg c1 c2 Hmono Hnn1) as Hnn2.
  pose proof (sumZ_nonneg c1 Hnn1) as Hs1.
  pose proof (nth_le_sumZ c1 3 Hnn1) as Hi1.
  pose proof (nth_le_sumZ c2 3 Hnn2) as Hi2.
  pose proof (monotone_nth_delta c1 c2 3 Hmono) as [Hi12 Hdelta].
  destruct (float_of_Z_pos (sumZ c2 - sumZ c1) ltac:(lia)) as (Hpos & Hfin & Hnz).
  split.
  - rewrite (coreUsage_long stat2 core (counters c1) (counters c2) Hin)
      by (rewrite !counters_length; lia).
    cbn zeta. rewrite !counters_length.
    rewrite firstn_all2 by (rewrite counters_length; lia).
    rewrite <- float_of_Z_0.
    rewrite !fold_add_counters by (try assumption; lia).
    rewrite !Z.add_0_l.
    rewrite !counters_lookup by lia.
    rewrite !float_of_Z_sub by lia.
    rewrite float_of_Z_0, Hnz.
    assert ((3 <? length c1)%nat = true) as -> by (apply Nat.ltb_lt; lia).
    reflexivity.
  - apply usageOf_bounds.
    + rewrite <- float_of_Z_0. apply float_of_Z_le; lia.
    + apply float_of_Z_le; lia.
    + exact Hpos.
    + exact Hfin.
Qed.

End CounterFacts.




(** ** A memory resource without [MemAvailable:] *)

(** C10: when the memory resource gives [MemTotal:] a finite value [T] of at
    least one and gives no number to [MemAvailable:], the memory sub-step
    returns [T / 1024] twice, and the snapshot that [GetSystemStats] returns
    (the CPU sub-step having returned) has [UsedMemoryMB] equal to
    [TotalMemoryMB] and [UsedMemoryPercent] equal to 100. *)
Theorem C10_no_MemAvailable_counts_all_used
    (ParseFloat : string -> float + error)
    (pick : gmap string (list float) -> list (string * list float))
    (r : Remote) (f : File) (T totalCPU : float) (coreStats : list CPUStat) :
  open_meminfo r = Return f ->
  scanErr f = None ->
  lastValue ParseFloat "MemTotal:" (lines f) = Some T ->
  (1 <=? T)%float = true ->
  (T <? infinity)%float = true ->
  lastValue ParseFloat "MemAvailable:" (lines f) = None ->
  getCPUStats ParseFloat pick r = Return (totalCPU, coreStats) ->
  getMemoryStats ParseFloat r = Return (T / 1024, T / 1024)%float
  /\ exists st,
       GetSystemStats ParseFloat pick r = Return st
       /\ TotalMemoryMB st = (T / 1024)%float
       /\ UsedMemoryMB st = TotalMemoryMB st
       /\ UsedMemoryPercent st = 100%float.
Proof.
  intros Hopen Herr HT H1 Hfin HA Hcpu.
  destruct (float_div_1024 T H1 Hfin) as (m & e & Hdiv).
  assert ((T =? 0)%float = false) as HT0.
  { revert H1 Hfin.
    rewrite FloatAxioms.eqb_spec, FloatAxioms.leb_spec, FloatAxioms.ltb_spec.
    rewrite Prim2SF_zero, Prim2SF_one, Prim2SF_infinity.
    destruct (Prim2SF T) as [[|]|[|]| |[|] mT eT]; try discriminate; reflexivity. }
  assert (getMemoryStats ParseFloat r = Return (T / 1024, T / 1024)%float) as Hmem.
  { rewrite (getMemoryStats_opened ParseFloat r f Hopen). cbn zeta.
    rewrite Herr, HT, HA. cbn [default from_option id].
    rewrite HT0, float_sub_0_r. reflexivity. }
  split; [exact Hmem|].
  unfold GetSystemStats. rewrite Hmem, Hcpu. cbn [wrapErr bind].
  eexists. split; [reflexivity|]. cbn [TotalMemoryMB UsedMemoryMB UsedMemoryPercent].
  split; [reflexivity|]. split; [reflexivity|].
  rewrite (float_div_diag _ _ _ _ Hdiv). vm_compute. reflexivity.
Qed.

(** C10 on [total_only_remote]. *)
Lemma C10_total_only_witness :
  getMemoryStats ParseDecimal total_only_remote
    = Return (8000000 / 1024, 8000000 / 1024)%float
  /\ exists st,
       GetSystemStats ParseDecimal pickListed total_only_remote = Return st
       /\ TotalMemoryMB st = (8000000 / 1024)%float
       /\ UsedMemoryMB st = TotalMemoryMB st
       /\ UsedMemoryPercent st = 100%float.
Proof.
  eapply (C10_no_MemAvailable_counts_all_used ParseDecimal pickListed total_only_remote
            total_only_file 8000000%float).
  - reflexivity.
  - reflexivity.
  - vm_compute. reflexivity.
  - vm_compute. reflexivity.
  - vm_compute. reflexivity.
  - vm_compute. reflexivity.
  - vm_compute. reflexivity.
Defined.

(** ** Further instances *)

(** C7 on [bad_remote]: the first snapshot meets the token [x]. *)
Lemma C7_bad_counter_witness :
  exists e,
    GetSystemStats ParseDecimal pickListed bad_remote
      = Error (errWrap "failed to get CPU stats" (errWrap "failed to parse CPU stat" e)).
Proof.
  apply (proj1 (C7_sub_step_failure_aborts_collect ParseDecimal pickListed bad_remote)
           (7812.5, 3906.25)%float bad_stat_file).
  - vm_compute. reflexivity.
  - reflexivity.
  - vm_compute. reflexivity.
Defined.

(** C9 on [ex_ticks]: the first tick starts a cycle that fails, and the loop
    goes on. *)
Lemma C9_failed_then_succeeded_witness :
  exists out,
    StartSync ParseDecimal ex_monitor ex_remote pickListed ex_ticks = (Waiting, out)
    /\ printed out =
       match cycleReport ParseDecimal "Error collecting initial stats: "
               (tickerC ex_remote pickListed) ex_monitor with
       | Some report => [report]
       | None => []
       end
       ++ omap (fun ev => cycleReport ParseDecimal "Error collecting stats: " ev ex_monitor)
            ex_ticks
    /\ length (printed out) =
       length (List.filter (fun ev => cycleFails ParseDecimal ev ex_monitor)
                 (tickerC ex_remote pickListed :: ex_ticks))
    /\ forall rest,
         StartSync ParseDecimal ex_monitor ex_remote pickListed (ex_ticks ++ ctxDone :: rest)
         = (Exited None, out).
Proof.
  apply (proj2 (C9_failed_cycle_never_ends_the_loop ParseDecimal ex_monitor ex_remote
                  pickListed ex_ticks)).
  - reflexivity.
  - vm_compute. reflexivity.
  - repeat constructor; vm_compute; reflexivity.
Defined.

(** * Further properties of the code *)

(** ** The snapshot function *)

Section SnapshotMore.

Variable ParseFloat : string -> float + error.

Lemma parseCounters_never_panics (toks : list string) :
  panicked (parseCounters ParseFloat toks) = false.
Proof.
  induction toks as [|tok toks IH]; [reflexivity|].
  cbn [parseCounters]. destruct (ParseFloat tok) as [v|e]; [|reflexivity].
  destruct (parseCounters ParseFloat toks); [reflexivity|reflexivity|discriminate].
Qed.

Lemma scanStat_never_panics (ls : list string) (stats : gmap string (list float)) :
  panicked (scanStat ParseFloat ls stats) = false.
Proof.
  revert stats. induction ls as [|line ls IH]; intros stats; [reflexivity|].
  cbn [scanStat]. destruct (HasPrefix line "cpu") eqn:Hp; [|reflexivity].
  cbn [negb]. pose proof (Fields_of_cpu_line line Hp) as Hne.
  destruct (Fields line) as [|core toks]; [contradiction|].
  pose proof (parseCounters_never_panics toks) as Hpc.
  destruct (parseCounters ParseFloat toks) as [values|e|p]; [|reflexivity|discriminate].
  cbn [bind]. apply IH.
Qed.

(** X1: the snapshot function never panics on a file that was opened: on
    every line that it splits, [fields[0]] is in range, since the line
    starts with [cpu]. *)
Theorem X1_snapshot_never_panics (f : File) :
  panicked (snapshot ParseFloat (Return f)) = false.
Proof.
  unfold snapshot. cbn [bind].
  pose proof (scanStat_never_panics (lines f) ∅) as Hscan.
  destruct (scanStat ParseFloat (lines f) ∅) as [stats|e|p];
    [|reflexivity|discriminate].
  cbn [bind]. unfold scannerErr. destruct (scanErr f); reflexivity.
Qed.

Lemma scanStat_break (before after : list string) (line : string)
    (stats : gmap string (list float)) :
  HasPrefix line "cpu" = false ->
  scanStat ParseFloat (before ++ line :: after) stats =
  scanStat ParseFloat (before ++ [line]) stats.
Proof.
  intros Hline. revert stats.
  induction before as [|l before IH]; intros stats; cbn [app scanStat].
  - rewrite Hline. reflexivity.
  - destruct (negb (HasPrefix l "cpu")); [reflexivity|].
    destruct (Fields l) as [|core toks]; [reflexivity|].
    destruct (parseCounters ParseFloat toks) as [values|e|p]; try reflexivity.
    cbn [bind]. apply IH.
Qed.

(** X2: the snapshot function stops reading at the first line that does not
    start with [cpu].  Given what [scanner.Err()] reports once the loop is
    left, the lines that follow that line, rows with counters that are not
    numbers included, change nothing to what the function returns; and a
    read error that the scanner holds at that point is returned in place of
    the sample, although the loop was left by [break] (the error of a
    counter read before that comes first). *)
Theorem X2_snapshot_ignores_what_follows_the_cpu_block
    (before after after' : list string) (line : string) (err : option error) :
  HasPrefix line "cpu" = false ->
  snapshot ParseFloat (Return (mkFile (before ++ line :: after) err)) =
  snapshot ParseFloat (Return (mkFile (before ++ line :: after') err))
  /\ forall e,
       snapshot ParseFloat (Return (mkFile (before ++ line :: after) (Some e))) =
       match snapshot ParseFloat (Return (mkFile (before ++ line :: after) None)) with
       | Return _ => Error e
       | other => other
       end.
Proof.
  intros Hline. unfold snapshot. cbn [bind lines]. split.
  - rewrite (scanStat_break before after line ∅ Hline).
    rewrite (scanStat_break before after' line ∅ Hline).
    reflexivity.
  - intros e.
    destruct (scanStat ParseFloat (before ++ line :: after) ∅) as [stats|e'|p];
      reflexivity.
Qed.

Lemma scanStat_lookup (ls : list string) (stats m : gmap string (list float))
    (core : string) :
  scanStat ParseFloat ls stats = Return m ->
  m !! core =
    match lastRow ParseFloat core ls with
    | Some values => Some values
    | None => stats !! core
    end.
Proof.
  unfold lastRow. revert stats.
  induction ls as [|line ls IH]; intros stats; cbn [scanStat cpuBlock].
  - intros [= <-]. reflexivity.
  - destruct (HasPrefix line "cpu") eqn:Hp; cbn [negb].
    2: { intros [= <-]. reflexivity. }
    cbn [omap list_omap]. unfold rowOf at 1.
    destruct (Fields line) as [|c toks]; [discriminate|].
    destruct (parseCounters ParseFloat toks) as [values|e|p]; try discriminate.
    cbn [bind]. intros Hscan. rewrite (IH _ Hscan).
    cbn [List.filter fst]. destruct (String.eqb c core) eqn:Hc.
    + apply String.eqb_eq in Hc. subst c. rewrite last_cons.
      destruct (last _) as [[c' v']|]; cbn [fmap option_fmap option_map snd];
        [reflexivity|].
      apply lookup_insert_eq.
    + apply String.eqb_neq in Hc.
      destruct (last _) as [[c' v']|]; cbn [fmap option_fmap option_map snd];
        [reflexivity|].
      apply lookup_insert_ne. exact Hc.
Qed.

(** X3: in the sample that the snapshot function returns, a core has the
    counters of the last line of the [cpu] block whose first field is its id
    (a later line replaces an earlier one), and a core without such a line is
    absent. *)
Theorem X3_snapshot_keeps_the_last_row_of_a_core
    (f : File) (m : gmap string (list float)) (core : string) :
  snapshot ParseFloat (Return f) = Return m ->
  m !! core = lastRow ParseFloat core (lines f).
Proof.
  unfold snapshot. cbn [bind].
  destruct (scanStat ParseFloat (lines f) ∅) as [stats|e|p] eqn:Hscan;
    try discriminate.
  cbn [bind]. intros Hm.
  assert (m = stats) as ->.
  { unfold scannerErr in Hm. destruct (scanErr f); [discriminate|congruence]. }
  rewrite (scanStat_lookup _ _ _ core Hscan), lookup_empty.
  destruct (lastRow ParseFloat core (lines f)); reflexivity.
Qed.

End SnapshotMore.

(** ** What the range over the first sample returns *)

Lemma entryStat_inv (stat2 : gmap string (list float)) (core : string)
    (values1 : list float) (s : CPUStat) :
  entryStat stat2 (core, values1) = Some s ->
  Core s = core /\ core <> "cpu"
  /\ coreUsage stat2 (core, values1) = Return (Some (UsagePct s))
  /\ is_Some (stat2 !! core) /\ (4 <= length values1)%nat.
Proof.
  unfold entryStat. cbn [fst].
  destruct (String.eqb core "cpu") eqn:Hc; [discriminate|].
  apply String.eqb_neq in Hc.
  destruct (coreUsage stat2 (core, values1)) as [[usage|]|e|p] eqn:Hu; try discriminate.
  intros [= <-]. cbn [Core UsagePct]. repeat split; try assumption.
  - unfold coreUsage in Hu. destruct (stat2 !! core); [eauto|discriminate].
  - unfold coreUsage in Hu. destruct (stat2 !! core) as [values2|]; [|discriminate].
    destruct (sumBoth values1 values2 0 0) as [[t1 t2]|e|p]; try discriminate.
    cbn [bind] in Hu. destruct (3 <? length values1)%nat eqn:H3; [|discriminate].
    apply Nat.ltb_lt in H3. lia.
Qed.

Lemma map_fmap {A B : Type} (f : A -> B) (l : list A) : map f l = f <$> l.
Proof. induction l as [|x l IH]; [reflexivity|]. cbn. rewrite IH. reflexivity. Qed.

Lemma omap_entryStat_cores (stat2 : gmap string (list float))
    (visit : list (string * list float)) :
  sublist (Core <$> omap (entryStat stat2) visit) (visit.*1).
Proof.
  induction visit as [|[core values1] visit IH]; [constructor|].
  cbn [omap list_omap].
  destruct (entryStat stat2 (core, values1)) as [s|] eqn:Hs.
  - apply entryStat_inv in Hs as (Hcore & _). rewrite !fmap_cons. cbn [fst].
    rewrite Hcore. apply sublist_skip. exact IH.
  - rewrite fmap_cons. apply sublist_cons. exact IH.
Qed.

(** X4: whatever the order of the range, the entries of [perCore] have
    distinct core ids, none of them [cpu], and each entry is for a core that
    is in both samples, with at least four counters in the first, and
    carries the usage computed for that core. *)
Theorem X4_entries_are_distinct_cores_of_both_samples
    (stat2 m : gmap string (list float)) (visit : list (string * list float))
    (totalUsage0 totalUsage : float) (perCore : list CPUStat) :
  rangeOrder m visit ->
  rangeCores stat2 visit (totalUsage0, []) = Return (totalUsage, perCore) ->
  NoDup (map Core perCore)
  /\ Forall (fun s =>
               Core s <> "cpu"
               /\ is_Some (stat2 !! Core s)
               /\ exists values1,
                    m !! Core s = Some values1
                    /\ (4 <= length values1)%nat
                    /\ coreUsage stat2 (Core s, values1) = Return (Some (UsagePct s)))
            perCore.
Proof.
  unfold rangeOrder. intros Hv Hrun.
  pose proof (rangeCores_returned _ _ _ _ Hrun) as Hall.
  destruct (rangeCores_entries stat2 visit totalUsage0 [] Hall) as [t Ht].
  rewrite Hrun in Ht.
  assert (perCore = omap (entryStat stat2) visit) as ->.
  { apply (f_equal (fun r => match r with Return (_, pc) => pc | _ => [] end)) in Ht.
    exact Ht. }
  split.
  - rewrite map_fmap.
    apply (sublist_NoDup _ (visit.*1)); [|apply omap_entryStat_cores].
    rewrite Hv. apply NoDup_fst_map_to_list.
  - apply Forall_forall. intros s Hs.
    apply list_elem_of_omap in Hs as ([core values1] & Hin & Hentry).
    apply entryStat_inv in Hentry as (Hcore & Hne & Hu & Hin2 & Hlen). subst core.
    split; [exact Hne|]. split; [exact Hin2|].
    exists values1. split; [|split; assumption].
    apply elem_of_map_to_list. rewrite <- Hv. exact Hin.
Qed.

Lemma rangeCores_total (stat2 : gmap string (list float))
    (visit : list (string * list float)) (t0 t : float) (pc0 pc : list CPUStat) :
  NoDup (visit.*1) ->
  rangeCores stat2 visit (t0, pc0) = Return (t, pc) ->
  (forall values1, ("cpu", values1) ∈ visit ->
     t = match coreUsage stat2 ("cpu", values1) with
         | Return (Some usage) => usage
         | _ => t0
         end)
  /\ ("cpu" ∉ visit.*1 -> t = t0).
Proof.
  revert t0 pc0. induction visit as [|[core values1] visit IH]; intros t0 pc0 Hnd.
  - cbn. intros Ht.
    apply (f_equal (fun r => match r with Return (x, _) => x | _ => t0 end)) in Ht.
    split; [intros v Hin; inversion Hin|intros _; symmetry; exact Ht].
  - rewrite fmap_cons in Hnd. cbn [fst] in Hnd. apply NoDup_cons in Hnd as [Hnotin Hnd].
    cbn [rangeCores]. rewrite coreStep_coreUsage, fmap_cons. cbn [fst].
    destruct (String.eqb core "cpu") eqn:Hc.
    + apply String.eqb_eq in Hc. subst core.
      assert (forall v, ("cpu", v) ∈ visit -> False) as Hnone.
      { intros v Hin. apply Hnotin. apply (list_elem_of_fmap_2 fst) in Hin. exact Hin. }
      destruct (coreUsage stat2 ("cpu", values1)) as [[usage|]|e|p] eqn:Hu;
        [| |discriminate|discriminate]; cbn [bind]; intros Hrun;
        destruct (IH _ _ Hnd Hrun) as [_ Habsent]; specialize (Habsent Hnotin);
        (split; [|intros Hcontra; exfalso; apply Hcontra; left]).
      * intros v Hin. apply elem_of_cons in Hin as [Heq|Hin]; [|destruct (Hnone v Hin)].
        assert (v = values1) as -> by congruence. rewrite Hu. exact Habsent.
      * intros v Hin. apply elem_of_cons in Hin as [Heq|Hin]; [|destruct (Hnone v Hin)].
        assert (v = values1) as -> by congruence. rewrite Hu. exact Habsent.
    + apply String.eqb_neq in Hc.
      destruct (coreUsage stat2 (core, values1)) as [[usage|]|e|p];
        [| |discriminate|discriminate]; cbn [bind]; intros Hrun;
        destruct (IH _ _ Hnd Hrun) as [Hin Habsent];
        (split;
         [intros v Hv; apply elem_of_cons in Hv as [Heq|Hv];
          [congruence|apply Hin; exact Hv]
         |intros Hno; apply Habsent; intros Hcontra; apply Hno; right; exact Hcontra]).
Qed.

(** X5: the aggregate usage that the range returns does not depend on the
    order of the range: it is the usage computed for the row [cpu] of the
    first sample when that row contributes, and zero (the value it starts
    from) when the row is absent or is skipped. *)
Theorem X5_total_usage_is_that_of_the_cpu_row
    (stat2 m : gmap string (list float)) (visit : list (string * list float))
    (totalUsage : float) (perCore : list CPUStat) :
  rangeOrder m visit ->
  rangeCores stat2 visit (0%float, []) = Return (totalUsage, perCore) ->
  totalUsage =
    match m !! "cpu" with
    | Some values1 =>
        match coreUsage stat2 ("cpu", values1) with
        | Return (Some usage) => usage
        | _ => 0%float
        end
    | None => 0%float
    end.
Proof.
  unfold rangeOrder. intros Hv Hrun.
  assert (NoDup (visit.*1)) as Hnd by (rewrite Hv; apply NoDup_fst_map_to_list).
  destruct (rangeCores_total stat2 visit _ _ _ _ Hnd Hrun) as [Hin Habsent].
  destruct (m !! "cpu") as [values1|] eqn:Hcpu.
  - apply Hin. rewrite Hv. apply elem_of_map_to_list. exact Hcpu.
  - apply Habsent. intros Hcontra.
    apply list_elem_of_fmap in Hcontra as ([c v] & Hc & Hcv). cbn in Hc. subst c.
    rewrite Hv in Hcv. apply elem_of_map_to_list in Hcv. congruence.
Qed.

(** X6: when no core of the first sample is in the second (one of the two
    reads found no line starting with [cpu], for instance), the CPU sub-step
    returns without an error, with an aggregate usage of zero and no
    entry. *)
Theorem X6_samples_without_a_common_core
    (ParseFloat : string -> float + error)
    (pick : gmap string (list float) -> list (string * list float))
    (r : Remote) (stat1 stat2 : gmap string (list float)) :
  snapshot ParseFloat (open_stat_first r) = Return stat1 ->
  snapshot ParseFloat (open_stat_second r) = Return stat2 ->
  stat1 ##ₘ stat2 ->
  rangeOrder stat1 (pick stat1) ->
  getCPUStats ParseFloat pick r = Return (0%float, []).
Proof.
  intros H1 H2 Hdisj Hpick. unfold getCPUStats. rewrite H1, H2. cbn [bind].
  unfold rangeOrder in Hpick.
  assert (Forall (fun entry => stat2 !! fst entry = None) (pick stat1)) as Hall.
  { apply Forall_forall. intros [c v] Hin. rewrite Hpick in Hin.
    apply elem_of_map_to_list in Hin. cbn [fst].
    exact (map_disjoint_Some_l _ _ _ _ Hdisj Hin). }
  clear Hpick. induction Hall as [|[c v] visit Hc _ IH]; [reflexivity|].
  cbn [rangeCores]. cbn [fst] in Hc.
  rewrite coreStep_coreUsage, (coreUsage_absent _ _ _ Hc). cbn [bind]. exact IH.
Qed.

(** ** The ends of the scale *)

Lemma usageOf_idle_unchanged (deltaTotal : float) (s : bool) (m : positive) (e : Z) :
  Prim2SF deltaTotal = S754_finite s m e -> usageOf 0 deltaTotal = 100%float.
Proof.
  intros Hdt. apply Prim2SF_inj. unfold usageOf.
  rewrite mul_spec, sub_spec, div_spec, Hdt.
  rewrite Prim2SF_zero, Prim2SF_one, Prim2SF_hundred.
  destruct s; vm_compute; reflexivity.
Qed.

Lemma usageOf_only_idle (deltaTotal : float) (s : bool) (m : positive) (e : Z) :
  Prim2SF deltaTotal = S754_finite s m e -> usageOf deltaTotal deltaTotal = 0%float.
Proof.
  intros Hdt. unfold usageOf. rewrite (float_div_diag _ _ _ _ Hdt).
  vm_compute. reflexivity.
Qed.

Lemma float_sub_diag (x : float) (s : bool) (m : positive) (e : Z) :
  Prim2SF x = S754_finite s m e -> (x - x)%float = 0%float.
Proof.
  intros Hx. apply Prim2SF_inj. rewrite sub_spec, Hx, Prim2SF_zero.
  unfold SF64sub. cbn [SFsub]. rewrite Z.min_id. unfold shl_align.
  rewrite Z.sub_diag. cbn [fst]. reflexivity.
Qed.

Lemma Prim2SF_float_of_Z_pos (n : Z) :
  (0 < n < 2 ^ 53)%Z -> exists m e, Prim2SF (float_of_Z n) = S754_finite false m e.
Proof.
  intros Hn. rewrite Prim2SF_float_of_Z by lia.
  destruct n as [|N|N]; try lia. cbn [SFofZ]. unfold SFofPos. eauto.
Qed.

(** X7: on integer counters that did not decrease, with sums below
    [2 ^ 53] and a sum that grew, a core whose idle counter did not move gets
    exactly 100, and a core whose idle counter took the whole of the growth
    gets exactly 0. *)
Theorem X7_usage_at_the_ends_of_the_scale
    (stat2 : gmap string (list float)) (core : string) (c1 c2 : list Z) :
  stat2 !! core = Some (counters c2) ->
  Forall2 Z.le c1 c2 ->
  Forall (fun c => 0 <= c)%Z c1 ->
  (4 <= length c1)%nat ->
  (sumZ c2 < 2 ^ 53)%Z ->
  (sumZ c1 < sumZ c2)%Z ->
  (nth 3 c2 0%Z = nth 3 c1 0%Z ->
   coreUsage stat2 (core, counters c1) = Return (Some 100%float))
  /\ ((nth 3 c2 0 - nth 3 c1 0 = sumZ c2 - sumZ c1)%Z ->
      coreUsage stat2 (core, counters c1) = Return (Some 0%float)).
Proof.
  intros Hin Hmono Hnn Hlen Hbig Hgrow.
  destruct (coreUsage_counters stat2 core c1 c2 Hin Hmono Hnn Hlen Hbig Hgrow)
    as (Hu & _).
  pose proof (sumZ_nonneg c1 Hnn) as Hs1.
  destruct (Prim2SF_float_of_Z_pos (sumZ c2 - sumZ c1) ltac:(lia)) as (m & e & Hdt).
  split.
  - intros Hidle. rewrite Hu, Hidle, Z.sub_diag, float_of_Z_0.
    rewrite (usageOf_idle_unchanged _ _ _ _ Hdt). reflexivity.
  - intros Hidle. rewrite Hu, Hidle.
    rewrite (usageOf_only_idle _ _ _ _ Hdt). reflexivity.
Qed.

(** X8: when the memory resource gives [MemAvailable:] the same finite value
    of at least one as [MemTotal:], the snapshot has a used memory of 0 and a
    used percentage of 0. *)
Theorem X8_all_memory_available
    (ParseFloat : string -> float + error)
    (pick : gmap string (list float) -> list (string * list float))
    (r : Remote) (f : File) (T totalCPU : float) (coreStats : list CPUStat) :
  open_meminfo r = Return f ->
  scanErr f = None ->
  lastValue ParseFloat "MemTotal:" (lines f) = Some T ->
  lastValue ParseFloat "MemAvailable:" (lines f) = Some T ->
  (1 <=? T)%float = true ->
  (T <? infinity)%float = true ->
  getCPUStats ParseFloat pick r = Return (totalCPU, coreStats) ->
  exists st,
    GetSystemStats ParseFloat pick r = Return st
    /\ TotalMemoryMB st = (T / 1024)%float
    /\ UsedMemoryMB st = 0%float
    /\ UsedMemoryPercent st = 0%float.
Proof.
  intros Hopen Herr HT HA H1 Hfin Hcpu.
  destruct (float_div_1024 T H1 Hfin) as (m & e & Hdiv).
  assert (exists s' m' e', Prim2SF T = S754_finite s' m' e') as (s' & m' & e' & HTf).
  { revert H1 Hfin. rewrite FloatAxioms.leb_spec, FloatAxioms.ltb_spec.
    rewrite Prim2SF_one, Prim2SF_infinity.
    destruct (Prim2SF T) as [[|]|[|]| |sT mT eT]; try discriminate. eauto. }
  assert ((T =? 0)%float = false) as HT0.
  { rewrite FloatAxioms.eqb_spec, HTf, Prim2SF_zero. destruct s'; reflexivity. }
  assert (getMemoryStats ParseFloat r = Return (T / 1024, 0)%float) as Hmem.
  { rewrite (getMemoryStats_opened ParseFloat r f Hopen). cbn zeta.
    rewrite Herr, HT, HA. cbn [default from_option id].
    rewrite HT0, (float_sub_diag _ _ _ _ HTf). reflexivity. }
  unfold GetSystemStats. rewrite Hmem, Hcpu. cbn [wrapErr bind].
  eexists. split; [reflexivity|]. cbn [TotalMemoryMB UsedMemoryMB UsedMemoryPercent].
  split; [reflexivity|]. split; [reflexivity|].
  apply Prim2SF_inj. rewrite mul_spec, div_spec, Hdiv, Prim2SF_zero, Prim2SF_hundred.
  vm_compute. reflexivity.
Qed.

(** ** The clients and their owner *)

(** X9: on a collector that owns both clients, [Close] closes the SFTP client
    and then the SSH client, also when the first close fails, and of two
    close errors it returns the one of the SSH client. *)
Theorem X9_close_tries_both_and_returns_the_last_error
    (sftpCloseErr sshCloseErr : nat -> option error)
    (r : remoteStatsCollector) (c s : nat) (w : Net) :
  ownsSftpClient r = true -> sftpClient r = Some c ->
  ownsSSHClient r = true -> sshClient r = Some s ->
  Close sftpCloseErr sshCloseErr r w =
    (match sshCloseErr s with
     | Some e => Some e
     | None => sftpCloseErr c
     end,
     mkNet (sshOpen w ∖ {[s]}) (sftpOpen w ∖ {[c]}) (nextHandle w)).
Proof.
  intros Hoc Hc Hos Hs. unfold Close. rewrite Hoc, Hc, Hos, Hs.
  unfold sftp_Close, ssh_Close. cbn [sshOpen sftpOpen nextHandle].
  destruct (sftpCloseErr c), (sshCloseErr s); reflexivity.
Qed.

(** X10: a monitor built from an SSH client holds the SFTP client that the
    constructor created, and its [Close] returns [nil] and closes nothing:
    that SFTP client stays open. *)
Theorem X10_monitor_from_SSH_never_closes_its_SFTP_client
    (newClientErr sftpCloseErr sshCloseErr : nat -> option error)
    (conn : nat) (ival delta : Z) (format : SystemStats -> run string)
    (w w1 : Net) (m : RemoteStatsMonitor) :
  NewRemoteStatsMonitorFromSSH newClientErr conn ival delta format w = (Return m, w1) ->
  sftpClient (collector m) = Some (nextHandle w)
  /\ nextHandle w ∈ sftpOpen w1
  /\ sshOpen w1 = sshOpen w
  /\ MonitorClose sftpCloseErr sshCloseErr m w1 = (None, Stop m, w1).
Proof.
  unfold NewRemoteStatsMonitorFromSSH, NewRemoteStatsCollectorFromSSH, sftp_NewClient.
  destruct (newClientErr conn) as [e|]; [discriminate|].
  intros H. apply (f_equal snd) in H as Hw. cbn [snd] in Hw. subst w1.
  apply (f_equal (fun p => match fst p with Return x => Some x | _ => None end)) in H.
  cbn in H. injection H as <-. cbn. repeat split. set_solver.
Qed.

(** X11: the constructor from connection parameters returns the error of
    [ssh.Dial] wrapped twice and leaves the network as it was; when the dial
    succeeds and [sftp.NewClient] fails, it returns that error wrapped three
    times and leaves the SSH connection it dialled open. *)
Theorem X11_constructor_failures
    (dialErr : string -> option error) (newClientErr : nat -> option error)
    (serverAddress : string) (ival delta : Z)
    (format : SystemStats -> run string) (w : Net) :
  (forall e, dialErr serverAddress = Some e ->
     NewRemoteStatsMonitorFromSSHConfig dialErr newClientErr serverAddress ival delta format w
     = (Error (errWrap "failed to create collector"
                 (errWrap "failed to connect to SSH server" e)), w))
  /\ (forall e, dialErr serverAddress = None ->
       newClientErr (nextHandle w) = Some e ->
       NewRemoteStatsMonitorFromSSHConfig dialErr newClientErr serverAddress ival delta format w
       = (Error (errWrap "failed to create collector"
                   (errWrap "failed to create remote stats collector"
                      (errWrap "failed to create SFTP client" e))),
          mkNet ({[nextHandle w]} ∪ sshOpen w) (sftpOpen w) (S (nextHandle w)))).
Proof.
  split.
  - intros e Hd. unfold NewRemoteStatsMonitorFromSSHConfig,
      NewRemoteStatsCollectorFromSSHConfig, ssh_Dial. rewrite Hd. reflexivity.
  - intros e Hd Hn. unfold NewRemoteStatsMonitorFromSSHConfig,
      NewRemoteStatsCollectorFromSSHConfig, ssh_Dial, NewRemoteStatsCollectorFromSSH,
      sftp_NewClient. rewrite Hd. cbn [nextHandle]. rewrite Hn. reflexivity.
Qed.

(** ** Calls on a monitor *)

Lemma perform_collector_clients (m : RemoteStatsMonitor) (c : call) :
  sftpClient (collector (perform m c)) = sftpClient (collector m)
  /\ sshClient (collector (perform m c)) = sshClient (collector m)
  /\ ownsSftpClient (collector (perform m c)) = ownsSftpClient (collector m)
  /\ ownsSSHClient (collector (perform m c)) = ownsSSHClient (collector m).
Proof.
  destruct c; cbn [perform]; try (repeat split; reflexivity).
  unfold ensureFreshContext. destruct (ctxCancelled m); repeat split; reflexivity.
Qed.

Lemma perform_settings (m : RemoteStatsMonitor) (c : call) :
  monitorSampleDelta (perform m c) =
    match c with callSetSampleDelta d => d | _ => monitorSampleDelta m end
  /\ sampleDelta (collector (perform m c)) =
    match c with callSetSampleDelta d => d | _ => sampleDelta (collector m) end
  /\ interval (perform m c) =
    match c with callSetInterval d => d | _ => interval m end.
Proof.
  destruct c; cbn [perform]; try (repeat split; reflexivity).
  unfold ensureFreshContext. destruct (ctxCancelled m); repeat split; reflexivity.
Qed.

Lemma default_last_cons {A : Type} (d x : A) (l : list A) :
  default x (last l) = default d (last (x :: l)).
Proof. rewrite last_cons. destruct (last l); reflexivity. Qed.

(** X12: whatever calls are made on a monitor whose two copies of the
    sampling spacing agree, they still agree afterwards, and
    [GetSampleDelta] and [GetInterval] return the value that was set last,
    or the initial value when none was set; no call changes the clients of
    the collector or who owns them. *)
Theorem X12_setters_keep_the_two_spacings_equal
    (m : RemoteStatsMonitor) (calls : list call) :
  monitorSampleDelta m = sampleDelta (collector m) ->
  let m' := fold_left perform calls m in
  MonitorGetSampleDelta m' = default (monitorSampleDelta m) (sampleDeltaSet calls)
  /\ GetSampleDelta (collector m') = MonitorGetSampleDelta m'
  /\ GetInterval m' = default (interval m) (intervalSet calls)
  /\ sftpClient (collector m') = sftpClient (collector m)
  /\ sshClient (collector m') = sshClient (collector m)
  /\ ownsSftpClient (collector m') = ownsSftpClient (collector m)
  /\ ownsSSHClient (collector m') = ownsSSHClient (collector m).
Proof.
  cbn zeta. unfold MonitorGetSampleDelta, GetSampleDelta, GetInterval,
    sampleDeltaSet, intervalSet.
  revert m. induction calls as [|c calls IH]; intros m Hsync.
  - cbn. repeat split; try reflexivity. symmetry. exact Hsync.
  - cbn [fold_left].
    destruct (perform_settings m c) as (Hd & Hcd & Hi).
    destruct (perform_collector_clients m c) as (H1 & H2 & H3 & H4).
    assert (monitorSampleDelta (perform m c) = sampleDelta (collector (perform m c)))
      as Hsync'.
    { rewrite Hd, Hcd. destruct c; try exact Hsync; reflexivity. }
    destruct (IH (perform m c) Hsync') as (G1 & G2 & G3 & G4 & G5 & G6 & G7).
    cbn [omap list_omap].
    split; [|split; [exact G2|split; [|repeat split; congruence]]].
    + rewrite G1, Hd. destruct c; try reflexivity. apply default_last_cons.
    + rewrite G3, Hi. destruct c; try reflexivity. apply default_last_cons.
Qed.

Lemma perform_IsRunning (m : RemoteStatsMonitor) (c : call) :
  IsRunning (perform m c) =
    if isStart c || isStop c then isStart c else IsRunning m.
Proof.
  destruct c; try reflexivity. cbn. unfold ensureFreshContext, IsRunning.
  destruct (ctxCancelled m) eqn:Hc; cbn; [reflexivity|]. rewrite Hc. reflexivity.
Qed.

(** X13: [IsRunning] tells whether the last of the starts and stops made on
    the monitor was a start; on a monitor that was built and neither started
    nor stopped yet, it is [true]. *)
Theorem X13_IsRunning_follows_the_last_start_or_stop
    (m : RemoteStatsMonitor) (calls : list call) :
  IsRunning (fold_left perform calls m) =
    match lastStartOrStop calls with
    | Some c => isStart c
    | None => IsRunning m
    end
  /\ (forall client ival delta format,
      IsRunning (NewRemoteStatsMonitorFromSFTP client ival delta format) = true).
Proof.
  split; [|reflexivity].
  unfold lastStartOrStop. revert m. induction calls as [|c calls IH]; intros m.
  - reflexivity.
  - cbn [fold_left List.filter]. rewrite IH, perform_IsRunning.
    destruct (isStart c || isStop c); [|reflexivity].
    rewrite last_cons. destruct (last _); reflexivity.
Qed.

(** ** What the loop writes *)

Section LoopMore.

Variable ParseFloat : string -> float + error.

Lemma collectAndLog_logged (m : RemoteStatsMonitor) (served : Remote)
    (pick : gmap string (list float) -> list (string * list float)) (out : Console) :
  logged (snd (collectAndLog ParseFloat m served pick out)) =
    logged out ++ match cycleRecord ParseFloat m (tickerC served pick) with
                  | Some logData => [logData]
                  | None => []
                  end.
Proof.
  unfold collectAndLog, cycleRecord.
  destruct (GetSystemStats ParseFloat pick served) as [st|e|p];
    cbn [snd logged]; try (rewrite app_nil_r; reflexivity).
  destruct (logLineFunc m st); cbn [snd logged]; try (rewrite app_nil_r); reflexivity.
Qed.

Lemma monitorLoop_logged (m : RemoteStatsMonitor) (ticks : list selected) (out : Console) :
  Forall (fun ev => isDone ev = false /\ cyclePanics ParseFloat ev m = false) ticks ->
  exists out',
    (forall rest,
        monitorLoop ParseFloat m (ticks ++ rest) out = monitorLoop ParseFloat m rest out')
    /\ logged out' = logged out ++ omap (cycleRecord ParseFloat m) ticks.
Proof.
  intros Hticks. revert out.
  induction Hticks as [|ev ticks [Hdone Hpanic] _ IH]; intros out.
  - exists out. split; [reflexivity|]. cbn. rewrite app_nil_r. reflexivity.
  - destruct ev as [|served pick]; [discriminate|].
    cbn [cyclePanics] in Hpanic.
    destruct (collectAndLog_console ParseFloat m served pick out) as [Hfst _].
    rewrite <- Hfst in Hpanic.
    pose proof (collectAndLog_logged m served pick out) as Hlog.
    cbn [app monitorLoop omap list_omap].
    destruct (collectAndLog ParseFloat m served pick out) as [[u|e|p] out1];
      cbn [fst snd panicked] in *; [| |discriminate].
    + destruct (IH out1) as (out' & Hloop & Hlen). exists out'. split; [exact Hloop|].
      rewrite Hlen, Hlog, <- app_assoc.
      destruct (cycleRecord ParseFloat m (tickerC served pick)); reflexivity.
    + destruct (IH (mkConsole (logged out1) (printed out1 ++ [("Error collecting stats: ", e)])))
        as (out' & Hloop & Hlen).
      exists out'. split; [exact Hloop|].
      rewrite Hlen. cbn [logged]. rewrite Hlog, <- app_assoc.
      destruct (cycleRecord ParseFloat m (tickerC served pick)); reflexivity.
Qed.

(** X14: on a monitor whose interval is positive, as long as no cycle
    panics, the records in the log are those of the cycles that succeeded,
    the initial cycle first and then in the order of the ticks; and once the
    cancellation is received nothing more is collected or written, whatever
    is received after it. *)
Theorem X14_records_are_logged_in_the_order_of_the_cycles
    (m : RemoteStatsMonitor) (served : Remote)
    (pick : gmap string (list float) -> list (string * list float))
    (ticks : list selected) :
  (0 < interval m)%Z ->
  cyclePanics ParseFloat (tickerC served pick) m = false ->
  Forall (fun ev => isDone ev = false /\ cyclePanics ParseFloat ev m = false) ticks ->
  exists out,
    StartSync ParseFloat m served pick ticks = (Waiting, out)
    /\ logged out = omap (cycleRecord ParseFloat m) (tickerC served pick :: ticks)
    /\ forall rest,
         StartSync ParseFloat m served pick (ticks ++ ctxDone :: rest) = (Exited None, out).
Proof.
  intros Hival Hfirst Hticks. unfold StartSync. cbn zeta.
  rewrite interval_fresh, (time_NewTicker_positive _ Hival).
  rewrite collectAndLog_fresh. cbn [cyclePanics] in Hfirst.
  pose proof (collectAndLog_logged m served pick (mkConsole [] [])) as Hlog.
  cbn [logged app] in Hlog. cbn [omap list_omap].
  destruct (collectAndLog ParseFloat m served pick (mkConsole [] [])) as [[u|e|p] out1];
    cbn [fst snd panicked] in *; [| |discriminate].
  - destruct (monitorLoop_logged m ticks out1 Hticks) as (out' & Hloop & Hlen).
    exists out'. split; [|split].
    + rewrite monitorLoop_fresh, <- (app_nil_r ticks), Hloop. reflexivity.
    + rewrite Hlen, Hlog.
      destruct (cycleRecord ParseFloat m (tickerC served pick)); reflexivity.
    + intros rest. rewrite monitorLoop_fresh, Hloop. reflexivity.
  - destruct (monitorLoop_logged m ticks
                (mkConsole (logged out1)
                   (printed out1 ++ [("Error collecting initial stats: ", e)])) Hticks)
      as (out' & Hloop & Hlen).
    exists out'. split; [|split].
    + rewrite monitorLoop_fresh, <- (app_nil_r ticks), Hloop. reflexivity.
    + rewrite Hlen. cbn [logged]. rewrite Hlog.
      destruct (cycleRecord ParseFloat m (tickerC served pick)); reflexivity.
    + intros rest. rewrite monitorLoop_fresh, Hloop. reflexivity.
Qed.

(** X17: [StartSync] on a monitor whose interval is not positive (no
    constructor and no setter refuses one) panics in [time.NewTicker], before
    the initial cycle: whatever the remote host serves and whatever is
    received afterwards, nothing is collected, logged or printed. *)
Theorem X17_non_positive_interval_panics_before_the_first_cycle
    (m : RemoteStatsMonitor) (served : Remote)
    (pick : gmap string (list float) -> list (string * list float))
    (events : list selected) :
  (interval m <= 0)%Z ->
  StartSync ParseFloat m served pick events
  = (Crashed "non-positive interval for NewTicker", mkConsole [] []).
Proof.
  intros Hival. unfold StartSync. cbn zeta. rewrite interval_fresh.
  unfold time_NewTicker. destruct (Z.leb_spec (interval m) 0); [reflexivity|lia].
Qed.

End LoopMore.

(** ** The data of the log record *)

Lemma fold_insert_list_to_map (cs : list CPUStat) (l : list (string * float)) :
  fold_left (fun (m : gmap string float) cpu => <[Core cpu := UsagePct cpu]> m) cs
            (list_to_map l) =
  (list_to_map (reverse ((fun cpu => (Core cpu, UsagePct cpu)) <$> cs) ++ l)
     : gmap string float).
Proof.
  revert l. induction cs as [|s cs IH]; intros l; [reflexivity|].
  cbn [fold_left]. rewrite fmap_cons, reverse_cons, <- app_assoc. cbn [app].
  rewrite <- IH. reflexivity.
Qed.

Lemma perCoreMap_list_to_map (cs : list CPUStat) :
  perCoreMap cs = list_to_map (reverse ((fun cpu => (Core cpu, UsagePct cpu)) <$> cs)).
Proof.
  unfold perCoreMap.
  rewrite <- (app_nil_r (reverse ((fun cpu => (Core cpu, UsagePct cpu)) <$> cs))).
  rewrite <- fold_insert_list_to_map. reflexivity.
Qed.

Lemma pairs_keys (cs : list CPUStat) :
  (reverse ((fun cpu => (Core cpu, UsagePct cpu)) <$> cs)).*1 = reverse (Core <$> cs).
Proof. rewrite fmap_reverse, <- list_fmap_compose. reflexivity. Qed.

(** Entries with distinct cores give the same map in any order. *)
Lemma perCoreMap_Permutation (cs cs' : list CPUStat) :
  NoDup (Core <$> cs) -> cs ≡ₚ cs' -> perCoreMap cs = perCoreMap cs'.
Proof.
  intros Hnd Hperm. rewrite !perCoreMap_list_to_map.
  apply list_to_map_proper.
  - rewrite pairs_keys, reverse_Permutation. exact Hnd.
  - rewrite !reverse_Permutation. rewrite Hperm. reflexivity.
Qed.

(** X15: from a snapshot whose entries have distinct cores, as the collector
    returns them, [SystemStatsToJSON] builds a per-core map with one key for
    each entry, which gives every core its usage. *)
Theorem X15_per_core_map_keeps_every_entry (cs : list CPUStat) :
  NoDup (map Core cs) ->
  (forall core usage,
      perCoreMap cs !! core = Some usage <-> mkCPUStat core usage ∈ cs)
  /\ size (perCoreMap cs) = length cs
  /\ forall stats,
       CPUStats stats = cs ->
       SystemStatsToJSON stats !! "per_core_cpu_percentages"
         = Some (jsonObject (perCoreMap cs)).
Proof.
  rewrite map_fmap. intros Hnd.
  assert (NoDup (reverse ((fun cpu => (Core cpu, UsagePct cpu)) <$> cs)).*1) as Hnd'
    by (rewrite pairs_keys, reverse_Permutation; exact Hnd).
  split; [|split].
  - intros core usage. rewrite perCoreMap_list_to_map.
    rewrite <- (elem_of_list_to_map _ _ _ Hnd'), elem_of_reverse, list_elem_of_fmap.
    split.
    + intros ([c u] & Heq & Hin). injection Heq as -> ->. exact Hin.
    + intros Hin. exists (mkCPUStat core usage). split; [reflexivity|exact Hin].
  - rewrite perCoreMap_list_to_map, <- (length_fmap Core cs).
    rewrite <- (length_reverse (Core <$> cs)), <- pairs_keys, length_fmap.
    rewrite <- (length_map_to_list (list_to_map _)).
    apply Permutation_length, map_to_list_to_map, Hnd'.
  - intros stats <-. reflexivity.
Qed.

Section OrderMore.

Variable ParseFloat : string -> float + error.

(** The range loop over two orders of the same sample: the same total, the
    same entries up to their order, with distinct cores. *)
Lemma rangeCores_any_order (stat1 stat2 : gmap string (list float))
    (visit visit' : list (string * list float)) (t : float) (pc : list CPUStat) :
  rangeOrder stat1 visit -> rangeOrder stat1 visit' ->
  rangeCores stat2 visit (0%float, []) = Return (t, pc) ->
  exists pc',
    rangeCores stat2 visit' (0%float, []) = Return (t, pc')
    /\ pc' ≡ₚ pc /\ NoDup (Core <$> pc).
Proof.
  unfold rangeOrder. intros Hv Hv' Hrun.
  assert (visit' ≡ₚ visit) as Hperm by (rewrite Hv, Hv'; reflexivity).
  pose proof (rangeCores_returned _ _ _ _ Hrun) as Hall.
  assert (Forall (fun entry => panicked (coreUsage stat2 entry) = false) visit') as Hall'
    by (rewrite Hperm; exact Hall).
  destruct (rangeCores_entries stat2 visit 0%float [] Hall) as [t0 Ht0].
  rewrite Hrun in Ht0.
  assert (pc = omap (entryStat stat2) visit) as ->.
  { apply (f_equal (fun r => match r with Return (_, pc) => pc | _ => [] end)) in Ht0.
    exact Ht0. }
  destruct (rangeCores_entries stat2 visit' 0%float [] Hall') as [t' Ht'].
  cbn [app] in Ht'.
  assert (NoDup (visit.*1)) as Hnd by (rewrite Hv; apply NoDup_fst_map_to_list).
  assert (NoDup (visit'.*1)) as Hnd' by (rewrite Hv'; apply NoDup_fst_map_to_list).
  destruct (rangeCores_total stat2 visit 0%float t [] _ Hnd Hrun) as [Hin Hout].
  destruct (rangeCores_total stat2 visit' 0%float t' [] _ Hnd' Ht') as [Hin' Hout'].
  assert (t' = t) as ->.
  { destruct (decide ("cpu" ∈ visit.*1)) as [Hcpu|Hcpu].
    - apply list_elem_of_fmap in Hcpu as ([core values1] & Heq & Hmem).
      cbn [fst] in Heq. subst core.
      rewrite (Hin values1 Hmem). apply Hin'. rewrite Hperm. exact Hmem.
    - rewrite (Hout Hcpu). apply Hout'. rewrite Hperm. exact Hcpu. }
  exists (omap (entryStat stat2) visit'). split; [exact Ht'|]. split.
  - apply omap_Permutation. exact Hperm.
  - apply (sublist_NoDup _ (visit.*1)); [exact Hnd|apply omap_entryStat_cores].
Qed.

(** X16: the data of the log record does not depend on the order in which
    [range] visits the first sample: if a collection returns a snapshot under
    one order, it returns one under any other order, and [SystemStatsToJSON]
    maps both to the same keys and values. *)
Theorem X16_log_data_does_not_depend_on_the_range_order
    (pick pick' : gmap string (list float) -> list (string * list float))
    (r : Remote) (stats : SystemStats) :
  (forall m, rangeOrder m (pick m)) ->
  (forall m, rangeOrder m (pick' m)) ->
  GetSystemStats ParseFloat pick r = Return stats ->
  exists stats',
    GetSystemStats ParseFloat pick' r = Return stats'
    /\ SystemStatsToJSON stats' = SystemStatsToJSON stats.
Proof.
  intros Hpick Hpick'. unfold GetSystemStats.
  destruct (getMemoryStats ParseFloat r) as [[totalMem usedMem]|e|p];
    cbn [wrapErr bind]; try discriminate.
  unfold getCPUStats.
  destruct (snapshot ParseFloat (open_stat_first r)) as [stat1|e|p];
    cbn [wrapErr bind]; try discriminate.
  destruct (snapshot ParseFloat (open_stat_second r)) as [stat2|e|p];
    cbn [wrapErr bind]; try discriminate.
  destruct (rangeCores stat2 (pick stat1) (0%float, [])) as [[t pc]|e|p] eqn:Hrun;
    cbn [wrapErr bind]; try discriminate.
  intros Hst.
  destruct (rangeCores_any_order stat1 stat2 (pick stat1) (pick' stat1) t pc
              (Hpick stat1) (Hpick' stat1) Hrun) as (pc' & Hrun' & Hperm & Hnd).
  rewrite Hrun'. cbn [wrapErr bind].
  eexists. split; [reflexivity|].
  apply (f_equal (fun x => match x with Return s => SystemStatsToJSON s | _ => ∅ end)) in Hst.
  rewrite <- Hst. unfold SystemStatsToJSON.
  cbn [TotalMemoryMB UsedMemoryMB UsedMemoryPercent TotalCPUPercentage CPUStats].
  rewrite (perCoreMap_Permutation pc pc' Hnd); [reflexivity|].
  symmetry. exact Hperm.
Qed.

End OrderMore.

(** ** The further properties on worked inputs *)

(** X2 on a file whose line after the [cpu] block is followed by a row that
    is not numeric. *)
Lemma X2_trailing_rows_witness :
  snapshot ParseDecimal
    (Return (mkFile (["cpu0 1 2 3 4"] ++ "intr 7" :: ["cpu1 x y z w"])
               (Some (errExternal "read"))))
  = snapshot ParseDecimal
      (Return (mkFile (["cpu0 1 2 3 4"] ++ "intr 7" :: []) (Some (errExternal "read"))))
  /\ forall e,
       snapshot ParseDecimal
         (Return (mkFile (["cpu0 1 2 3 4"] ++ "intr 7" :: ["cpu1 x y z w"]) (Some e))) =
       match snapshot ParseDecimal
               (Return (mkFile (["cpu0 1 2 3 4"] ++ "intr 7" :: ["cpu1 x y z w"]) None)) with
       | Return _ => Error e
       | other => other
       end.
Proof.
  apply (X2_snapshot_ignores_what_follows_the_cpu_block ParseDecimal).
  reflexivity.
Defined.

(** X3 on a file that gives [cpu0] twice. *)
Lemma X3_repeated_core_witness :
  exists m,
    snapshot ParseDecimal (Return (mkFile ["cpu0 1 2 3 4"; "cpu0 5 6 7 8"; "intr 7"] None))
      = Return m
    /\ m !! "cpu0" = lastRow ParseDecimal "cpu0" ["cpu0 1 2 3 4"; "cpu0 5 6 7 8"; "intr 7"].
Proof.
  eexists. split; [vm_compute; reflexivity|].
  apply (X3_snapshot_keeps_the_last_row_of_a_core ParseDecimal
           (mkFile ["cpu0 1 2 3 4"; "cpu0 5 6 7 8"; "intr 7"] None)).
  vm_compute. reflexivity.
Defined.

(** X4 on the samples of [ex_remote], visited in reverse. *)
Lemma X4_reversed_visit_witness :
  exists totalUsage perCore,
    rangeCores ex_sample_second (reverse (map_to_list ex_sample_first)) (0%float, [])
      = Return (totalUsage, perCore)
    /\ NoDup (map Core perCore)
    /\ Forall (fun s =>
                 Core s <> "cpu"
                 /\ is_Some (ex_sample_second !! Core s)
                 /\ exists values1,
                      ex_sample_first !! Core s = Some values1
                      /\ (4 <= length values1)%nat
                      /\ coreUsage ex_sample_second (Core s, values1)
                         = Return (Some (UsagePct s)))
              perCore.
Proof.
  eexists _, _. split; [vm_compute; reflexivity|].
  eapply (X4_entries_are_distinct_cores_of_both_samples ex_sample_second ex_sample_first
            (reverse (map_to_list ex_sample_first)) 0%float).
  - unfold rangeOrder. apply reverse_Permutation.
  - vm_compute. reflexivity.
Defined.

(** X5 on the samples of [ex_remote]. *)
Lemma X5_example_witness :
  exists totalUsage perCore,
    rangeCores ex_sample_second (map_to_list ex_sample_first) (0%float, [])
      = Return (totalUsage, perCore)
    /\ totalUsage =
       match ex_sample_first !! "cpu" with
       | Some values1 =>
           match coreUsage ex_sample_second ("cpu", values1) with
           | Return (Some usage) => usage
           | _ => 0%float
           end
       | None => 0%float
       end.
Proof.
  eexists _, _. split; [vm_compute; reflexivity|].
  eapply (X5_total_usage_is_that_of_the_cpu_row ex_sample_second ex_sample_first
            (map_to_list ex_sample_first)).
  - unfold rangeOrder. reflexivity.
  - vm_compute. reflexivity.
Defined.

(** X6 on a remote whose second read of the counters finds no [cpu] line. *)
Lemma X6_empty_second_sample_witness :
  getCPUStats ParseDecimal pickListed
    (mkRemote (fileOf ex_meminfo) (fileOf ["cpu0 1 2 3 4"]) (fileOf ["intr 7"]))
  = Return (0%float, []).
Proof.
  eapply (X6_samples_without_a_common_core ParseDecimal pickListed
            (mkRemote (fileOf ex_meminfo) (fileOf ["cpu0 1 2 3 4"]) (fileOf ["intr 7"]))
            _ ∅).
  - vm_compute. reflexivity.
  - vm_compute. reflexivity.
  - apply map_disjoint_empty_r.
  - unfold rangeOrder, pickListed. reflexivity.
Defined.

(** X7 on a core whose idle counter stays at 4 while the sum grows. *)
Lemma X7_busy_core_witness :
  coreUsage ({[ "cpu0" := counters [2; 2; 3; 4]%Z ]} : gmap string (list float))
            ("cpu0", counters [1; 2; 3; 4]%Z)
  = Return (Some 100%float).
Proof.
  refine (proj1 (X7_usage_at_the_ends_of_the_scale
                   ({[ "cpu0" := counters [2; 2; 3; 4]%Z ]} : gmap string (list float))
                   "cpu0" [1; 2; 3; 4]%Z [2; 2; 3; 4]%Z _ _ _ _ _ _) _).
  - vm_compute. reflexivity.
  - repeat constructor; lia.
  - repeat constructor; lia.
  - cbn. lia.
  - cbn. lia.
  - cbn. lia.
  - reflexivity.
Defined.

(** X8 on a memory resource whose two values are both 8000000. *)
Lemma X8_all_available_witness :
  exists st,
    GetSystemStats ParseDecimal pickListed
      (mkRemote (fileOf ["MemTotal: 8000000"; "MemAvailable: 8000000"])
                (fileOf ex_stat_first) (fileOf ex_stat_second)) = Return st
    /\ TotalMemoryMB st = (8000000 / 1024)%float
    /\ UsedMemoryMB st = 0%float
    /\ UsedMemoryPercent st = 0%float.
Proof.
  eapply (X8_all_memory_available ParseDecimal pickListed
            (mkRemote (fileOf ["MemTotal: 8000000"; "MemAvailable: 8000000"])
                      (fileOf ex_stat_first) (fileOf ex_stat_second))
            (mkFile ["MemTotal: 8000000"; "MemAvailable: 8000000"] None)
            8000000%float).
  - reflexivity.
  - reflexivity.
  - vm_compute. reflexivity.
  - vm_compute. reflexivity.
  - vm_compute. reflexivity.
  - vm_compute. reflexivity.
  - vm_compute. reflexivity.
Defined.

(** X9 on a collector value that owns SFTP client 1 and SSH client 0, when
    both closes fail. *)
Lemma X9_both_closes_fail_witness :
  Close (fun _ => Some (errExternal "sftp close")) (fun _ => Some (errExternal "ssh close"))
        (mkCollector (Some 1%nat) (Some 0%nat) 300000000 true true)
        (mkNet {[0%nat]} {[1%nat]} 2)
  = (Some (errExternal "ssh close"),
     mkNet ({[0%nat]} ∖ {[0%nat]}) ({[1%nat]} ∖ {[1%nat]}) 2).
Proof.
  exact (X9_close_tries_both_and_returns_the_last_error
           (fun _ => Some (errExternal "sftp close"))
           (fun _ => Some (errExternal "ssh close"))
           (mkCollector (Some 1%nat) (Some 0%nat) 300000000 true true)
           1%nat 0%nat (mkNet {[0%nat]} {[1%nat]} 2)
           eq_refl eq_refl eq_refl eq_refl).
Defined.

(** X10 on a network with SSH connection 0 open and nothing failing. *)
Lemma X10_open_connection_witness :
  exists m w1,
    NewRemoteStatsMonitorFromSSH noErr 0%nat 1000000000 300000000
      (fun _ => Return "record") (mkNet {[0%nat]} ∅ 1) = (Return m, w1)
    /\ sftpClient (collector m) = Some 1%nat
    /\ 1%nat ∈ sftpOpen w1
    /\ sshOpen w1 = {[0%nat]}
    /\ MonitorClose noErr noErr m w1 = (None, Stop m, w1).
Proof.
  eexists _, _. split; [reflexivity|].
  exact (X10_monitor_from_SSH_never_closes_its_SFTP_client noErr noErr noErr 0%nat
           1000000000 300000000 (fun _ => Return "record") (mkNet {[0%nat]} ∅ 1)
           _ _ eq_refl).
Defined.

(** X12 on [ex_monitor], with both settings changed between a start and a
    stop. *)
Lemma X12_settings_changed_witness :
  let m' := fold_left perform
              [callSetSampleDelta 5; callStart; callSetInterval 7; callStop] ex_monitor in
  MonitorGetSampleDelta m' = 5%Z
  /\ GetSampleDelta (collector m') = MonitorGetSampleDelta m'
  /\ GetInterval m' = 7%Z
  /\ sftpClient (collector m') = sftpClient (collector ex_monitor)
  /\ sshClient (collector m') = sshClient (collector ex_monitor)
  /\ ownsSftpClient (collector m') = ownsSftpClient (collector ex_monitor)
  /\ ownsSSHClient (collector m') = ownsSSHClient (collector ex_monitor).
Proof.
  apply (X12_setters_keep_the_two_spacings_equal ex_monitor
           [callSetSampleDelta 5; callStart; callSetInterval 7; callStop]).
  reflexivity.
Defined.

(** X14 on [ex_monitor]: an initial cycle that succeeds, then the two ticks
    of [ex_ticks]. *)
Lemma X14_three_cycles_witness :
  exists out,
    StartSync ParseDecimal ex_monitor ex_remote pickListed ex_ticks = (Waiting, out)
    /\ logged out
       = omap (cycleRecord ParseDecimal ex_monitor) (tickerC ex_remote pickListed :: ex_ticks)
    /\ forall rest,
         StartSync ParseDecimal ex_monitor ex_remote pickListed (ex_ticks ++ ctxDone :: rest)
         = (Exited None, out).
Proof.
  apply (X14_records_are_logged_in_the_order_of_the_cycles ParseDecimal ex_monitor
           ex_remote pickListed ex_ticks).
  - reflexivity.
  - vm_compute. reflexivity.
  - repeat constructor; vm_compute; reflexivity.
Defined.

(** X17 on [ex_monitor] once its interval is set to zero. *)
Lemma X17_zero_interval_witness :
  StartSync ParseDecimal (SetInterval ex_monitor 0) ex_remote pickListed ex_ticks
  = (Crashed "non-positive interval for NewTicker", mkConsole [] []).
Proof.
  apply (X17_non_positive_interval_panics_before_the_first_cycle ParseDecimal
           (SetInterval ex_monitor 0) ex_remote pickListed ex_ticks).
  cbn. lia.
Defined.

(** X15 on two entries. *)
Lemma X15_two_entries_witness :
  (forall core usage,
      perCoreMap [mkCPUStat "cpu0" 50; mkCPUStat "cpu1" 25] !! core = Some usage
      <-> mkCPUStat core usage ∈ [mkCPUStat "cpu0" 50; mkCPUStat "cpu1" 25])
  /\ size (perCoreMap [mkCPUStat "cpu0" 50; mkCPUStat "cpu1" 25]) = 2%nat
  /\ forall stats,
       CPUStats stats = [mkCPUStat "cpu0" 50; mkCPUStat "cpu1" 25] ->
       SystemStatsToJSON stats !! "per_core_cpu_percentages"
         = Some (jsonObject (perCoreMap [mkCPUStat "cpu0" 50; mkCPUStat "cpu1" 25])).
Proof.
  apply (X15_per_core_map_keeps_every_entry [mkCPUStat "cpu0" 50; mkCPUStat "cpu1" 25]).
  cbn [map Core]. apply NoDup_cons. split; [|apply NoDup_singleton].
  rewrite list_elem_of_singleton. discriminate.
Defined.

(** X16 on [ex_remote], visited as listed and in reverse. *)
Lemma X16_reversed_visit_witness :
  exists stats,
    GetSystemStats ParseDecimal pickListed ex_remote = Return stats
    /\ exists stats',
         GetSystemStats ParseDecimal (fun m => reverse (map_to_list m)) ex_remote
           = Return stats'
         /\ SystemStatsToJSON stats' = SystemStatsToJSON stats.
Proof.
  eexists. split; [vm_compute; reflexivity|].
  eapply (X16_log_data_does_not_depend_on_the_range_order ParseDecimal pickListed
            (fun m => reverse (map_to_list m)) ex_remote).
  - intros m. unfold rangeOrder, pickListed. reflexivity.
  - intros m. unfold rangeOrder. apply reverse_Permutation.
  - vm_compute. reflexivity.
Defined.
